(** * Cloudflare cookie refresh clients: a shallow embedding

    The three scripts of the repository ([interactive_refresh.py],
    [quick_refresh.py], [refresh_example.py]) are thin clients of an HTTP
    service.  Each function is embedded as a computation over an explicit
    world (the lines the user will type, the outcome of each HTTP request,
    the readings of the clock, the fate of each file that is opened) that
    returns a value or a raised exception together with the list of
    observable events (lines printed, prompts, requests, pauses, files
    written) in program order. *)

From Stdlib Require Import String Ascii NArith ZArith Lia Bool Arith List.
From Stdlib Require Import DecimalString.
Import ListNotations.

Set Implicit Arguments.
Set Warnings "-register-all".

(** ** Python strings

    A Python [str] is a sequence of Unicode code points.  Literals of the
    source are written as UTF-8 text and decoded by [u]. *)

Definition pystr := list N.

Fixpoint utf8_go (need : nat) (acc : N) (bs : list N) : pystr :=
  match bs with
  | [] => []
  | b :: r =>
    match need with
    | O => if (b <? 128)%N then b :: utf8_go 0 0 r
           else if (b <? 224)%N then utf8_go 1 (b - 192) r
           else if (b <? 240)%N then utf8_go 2 (b - 224) r
           else utf8_go 3 (b - 240) r
    | S O => (acc * 64 + (b - 128))%N :: utf8_go 0 0 r
    | S n => utf8_go n (acc * 64 + (b - 128))%N r
    end
  end.

Definition u (s : string) : pystr :=
  utf8_go 0 0 (map N_of_ascii (list_ascii_of_string s)).

(** The newline character, written [\n] in the source. *)
Definition nl : pystr := [10%N].

Fixpoint str_eqb (a b : pystr) : bool :=
  match a, b with
  | [], [] => true
  | x :: a', y :: b' => (x =? y)%N && str_eqb a' b'
  | _, _ => false
  end.

(** [s.startswith(p)] *)
Fixpoint startswith (s p : pystr) {struct p} : bool :=
  match p, s with
  | [], _ => true
  | y :: p', x :: s' => (x =? y)%N && startswith s' p'
  | _ :: _, [] => false
  end.

(** [s.startswith((p1, p2, ...))] *)
Definition startswith_any (s : pystr) (ps : list pystr) : bool :=
  existsb (startswith s) ps.

(** [s in (a, b, ...)] for a tuple of strings *)
Definition str_in (s : pystr) (l : list pystr) : bool :=
  existsb (str_eqb s) l.

(** [str.isspace] on one character: the Unicode white space characters. *)
Definition py_isspace (c : N) : bool :=
  ((9 <=? c) && (c <=? 13) || (28 <=? c) && (c <=? 32) || (c =? 133) ||
   (c =? 160) || (c =? 5760) || (8192 <=? c) && (c <=? 8202) ||
   (c =? 8232) || (c =? 8233) || (c =? 8239) || (c =? 8287) ||
   (c =? 12288))%N.

Fixpoint lstrip (s : pystr) : pystr :=
  match s with
  | c :: r => if py_isspace c then lstrip r else s
  | [] => []
  end.

Definition rstrip (s : pystr) : pystr := rev (lstrip (rev s)).

(** [s.strip()] *)
Definition strip (s : pystr) : pystr := rstrip (lstrip s).

(** [s.lower()] on the ASCII letters.  The source only tests the result for
    membership in tuples of ASCII words and of the two uncased characters
    [是] and [否]; no string with a character outside ASCII lower-cases to
    one of those words, so the tests are decided as in Python. *)
Definition lower_char (c : N) : N :=
  if ((65 <=? c) && (c <=? 90))%N then (c + 32)%N else c.

Definition lower (s : pystr) : pystr := map lower_char s.

(** [c * n] for a one-character string [c] *)
Definition str_mul (c : pystr) (n : nat) : pystr := concat (repeat c n).

Fixpoint digits_of_uint (d : Decimal.uint) : pystr :=
  match d with
  | Decimal.Nil => []
  | Decimal.D0 r => 48%N :: digits_of_uint r
  | Decimal.D1 r => 49%N :: digits_of_uint r
  | Decimal.D2 r => 50%N :: digits_of_uint r
  | Decimal.D3 r => 51%N :: digits_of_uint r
  | Decimal.D4 r => 52%N :: digits_of_uint r
  | Decimal.D5 r => 53%N :: digits_of_uint r
  | Decimal.D6 r => 54%N :: digits_of_uint r
  | Decimal.D7 r => 55%N :: digits_of_uint r
  | Decimal.D8 r => 56%N :: digits_of_uint r
  | Decimal.D9 r => 57%N :: digits_of_uint r
  end.

(** [str(n)] for a natural number and for an integer *)
Definition str_of_N (n : N) : pystr := digits_of_uint (N.to_uint n).
Definition str_of_nat (n : nat) : pystr := str_of_N (N.of_nat n).
Definition str_of_Z (z : Z) : pystr :=
  match z with
  | Z0 => [48%N]
  | Zpos p => str_of_N (Npos p)
  | Zneg p => 45%N :: str_of_N (Npos p)
  end.

(** ** JSON values as Python objects

    [resp.json()] yields [None], a [bool], an [int], a [str], a [list] or a
    [dict] with string keys kept in insertion order.  JSON numbers with a
    fraction or an exponent (Python floats) are outside the model: every
    number of the service's contract is an integer.  Python's [None] is
    [JNull]. *)

Inductive json : Type :=
| JNull
| JBool (b : bool)
| JInt (z : Z)
| JStr (s : pystr)
| JList (l : list json)
| JObj (kv : list (pystr * json)).

Definition dict := list (pystr * json).

(** [d.get(key)] on a dict, [None] standing for an absent key *)
Fixpoint dict_lookup (d : dict) (key : pystr) : option json :=
  match d with
  | [] => None
  | (k, v) :: r => if str_eqb k key then Some v else dict_lookup r key
  end.

(** Truth value of an object, as [if x:] and [x and y] test it *)
Definition truthy (j : json) : bool :=
  match j with
  | JNull => false
  | JBool b => b
  | JInt z => negb (z =? 0)%Z
  | JStr s => match s with [] => false | _ => true end
  | JList l => match l with [] => false | _ => true end
  | JObj kv => match kv with [] => false | _ => true end
  end.

(** [x == 'literal']: only a string equals a string *)
Definition eq_str (j : json) (s : pystr) : bool :=
  match j with
  | JStr t => str_eqb t s
  | _ => false
  end.

(** [type(x).__name__] *)
Definition type_name (j : json) : pystr :=
  match j with
  | JNull => u "NoneType"
  | JBool _ => u "bool"
  | JInt _ => u "int"
  | JStr _ => u "str"
  | JList _ => u "list"
  | JObj _ => u "dict"
  end.

(** ** Exceptions

    Only subclasses of [Exception] are modelled; [KeyboardInterrupt] is not.
    [TimeoutError] is [asyncio.TimeoutError] and [ClientConnectorError] is
    aiohttp's; each class stands for its subclasses too.  [exn_text] is
    [str(e)], the text an f-string prints for the exception; the texts of
    the exceptions the interpreter itself raises are CPython 3.12's, and no
    result below depends on their wording. *)

Inductive exn_class : Type :=
| TimeoutError
| ClientConnectorError
| ContentTypeError
| AttributeError
| TypeError
| KeyError
| ValueError
| EOFError
| OSError
| OverflowError
| OtherException.

Record exn : Type := mkExn { exn_cls : exn_class; exn_text : pystr }.

Inductive res (A : Type) : Type :=
| Ok (a : A)
| Raised (e : exn).

Arguments Ok {A} a.
Arguments Raised {A} e.

(** [x.get(key, default)] on any object: only a dict has the method. *)
Definition py_get (j : json) (key : pystr) (default : json) : res json :=
  match j with
  | JObj kv => Ok (match dict_lookup kv key with Some v => v | None => default end)
  | _ => Raised (mkExn AttributeError
                   (u "'" ++ type_name j ++ u "' object has no attribute 'get'"))
  end.

(** [x[key]] for a string key *)
Definition py_getitem (j : json) (key : pystr) : res json :=
  match j with
  | JObj kv => match dict_lookup kv key with
               | Some v => Ok v
               | None => Raised (mkExn KeyError (u "'" ++ key ++ u "'"))
               end
  | JStr _ => Raised (mkExn TypeError (u "string indices must be integers, not 'str'"))
  | JList _ => Raised (mkExn TypeError (u "list indices must be integers or slices, not str"))
  | _ => Raised (mkExn TypeError
                   (u "'" ++ type_name j ++ u "' object is not subscriptable"))
  end.

(** ** What the Python runtime and its libraries supply

    [urlparse] is [urllib.parse.urlparse], of which the scripts read the
    scheme and the network location and which may raise [ValueError];
    [py_repr] is [repr] of a list or a dict; [format_ms_as_seconds n] is the
    text of [f"{n/1000:.1f}"] for an integer [n] whose quotient by 1000 is
    a float, a floating-point computation. *)

Record ParseResult : Type := mkParse { scheme : pystr; netloc : pystr }.

Class PyRuntime : Type := {
  urlparse : pystr -> res ParseResult;
  py_repr : json -> pystr;
  format_ms_as_seconds : Z -> pystr
}.

(** [str(x)], as an f-string formats a value.  An integer is written in
    full: the limit that CPython puts by default, from 3.11 on, on the
    digits of an integer turned into text (4300, which no integer read by
    [json] exceeds) is not part of the model. *)
Definition py_str `{PyRuntime} (j : json) : pystr :=
  match j with
  | JNull => u "None"
  | JBool true => u "True"
  | JBool false => u "False"
  | JInt z => str_of_Z z
  | JStr s => s
  | JList _ | JObj _ => py_repr j
  end.

(** ** The world and the observable events *)

(** The outcome of one HTTP request: a response with its status code and
    what [await resp.json()] gives (a value, or the exception it raises on a
    body that is not JSON), or the exception the request itself raises. *)
Inductive http_outcome : Type :=
| Responded (status : Z) (body : res json)
| Failed (e : exn).

(** [datetime.now()]: a naive local date and time *)
Record datetime : Type := mkDatetime {
  year : N; month : N; day : N;
  hour : N; minute : N; second : N; microsecond : N
}.

Inductive http_method : Type := POST | GET.

Inductive event : Type :=
| EPrint (line : pystr)
| EInput (prompt : pystr)
| ERequest (m : http_method) (endpoint : pystr)
           (params : list (pystr * pystr)) (timeout : option N)
| ESleep (seconds : N)
| EWrite (filename : pystr) (document : json).

(** [stdin]: the lines the user will type; [network k], [clock k], [disk k]:
    the outcome of the k-th request still to be sent, the k-th reading of
    the clock still to be taken, and the exception (if any) raised by the
    k-th file still to be opened for writing. *)
Record world : Type := mkWorld {
  stdin : list pystr;
  network : nat -> http_outcome;
  clock : nat -> datetime;
  disk : nat -> option exn
}.

Definition tail_of {A : Type} (f : nat -> A) : nat -> A := fun k => f (S k).

Definition M (A : Type) : Type := world -> res A * world * list event.

Definition ret {A : Type} (a : A) : M A := fun w => (Ok a, w, []).

Definition raise {A : Type} (e : exn) : M A := fun w => (Raised e, w, []).

Definition bind {A B : Type} (m : M A) (f : A -> M B) : M B :=
  fun w =>
    match m w with
    | (Ok a, w1, t1) =>
        match f a w1 with
        | (r, w2, t2) => (r, w2, t1 ++ t2)
        end
    | (Raised e, w1, t1) => (Raised e, w1, t1)
    end.

(** [try: m except Exception as e: handler e] *)
Definition try_except {A : Type} (m : M A) (handler : exn -> M A) : M A :=
  fun w =>
    match m w with
    | (Ok a, w1, t1) => (Ok a, w1, t1)
    | (Raised e, w1, t1) =>
        match handler e w1 with
        | (r, w2, t2) => (r, w2, t1 ++ t2)
        end
    end.

Declare Scope py_scope.
Delimit Scope py_scope with py.
Notation "x <- m ;; k" := (bind m (fun x => k))
  (at level 61, m at next level, right associativity) : py_scope.
Notation "m ;; k" := (bind m (fun _ => k))
  (at level 61, right associativity) : py_scope.
Open Scope py_scope.

(** A pure computation that may raise *)
Definition lift {A : Type} (r : res A) : M A := fun w => (r, w, []).

Definition emit (e : event) : M unit := fun w => (Ok tt, w, [e]).

(** [print(s)] *)
Definition print (s : pystr) : M unit := emit (EPrint s).

(** [input(prompt)]: the next line typed, [EOFError] at the end of input *)
Definition input (prompt : pystr) : M pystr :=
  fun w =>
    match stdin w with
    | [] => (Raised (mkExn EOFError (u "EOF when reading a line")), w, [EInput prompt])
    | l :: rest =>
        (Ok l, mkWorld rest (network w) (clock w) (disk w), [EInput prompt])
    end.

(** [await asyncio.sleep(n)] *)
Definition sleep (n : N) : M unit := emit (ESleep n).

(** [datetime.now()] *)
Definition now : M datetime :=
  fun w => (Ok (clock w 0), mkWorld (stdin w) (network w) (tail_of (clock w)) (disk w), []).

Record response : Type := mkResponse { resp_status : Z; resp_body : res json }.

(** [async with session.post(endpoint, params=..., timeout=...) as resp] and
    the same for [get]: the request is sent, and either a response comes
    back or the call raises. *)
Definition request (m : http_method) (endpoint : pystr)
    (params : list (pystr * pystr)) (timeout : option N) : M response :=
  fun w =>
    let w' := mkWorld (stdin w) (tail_of (network w)) (clock w) (disk w) in
    match network w 0 with
    | Responded st body => (Ok (mkResponse st body), w', [ERequest m endpoint params timeout])
    | Failed e => (Raised e, w', [ERequest m endpoint params timeout])
    end.

(** [await resp.json()] *)
Definition resp_json (r : response) : M json := lift (resp_body r).

(** [with open(filename, 'w') as f: json.dump(document, f, ...)]: opening
    the file may raise; otherwise the document is written. *)
Definition write_json (filename : pystr) (document : json) : M unit :=
  fun w =>
    let w' := mkWorld (stdin w) (network w) (clock w) (tail_of (disk w)) in
    match disk w 0 with
    | Some e => (Raised e, w', [])
    | None => (Ok tt, w', [EWrite filename document])
    end.

(** [if c: m] with no [else] *)
Definition when (c : bool) (m : M unit) : M unit := if c then m else ret tt.

Definition run_result {A : Type} (x : res A * world * list event) : res A := fst (fst x).
Definition run_world {A : Type} (x : res A * world * list event) : world := snd (fst x).
Definition run_trace {A : Type} (x : res A * world * list event) : list event := snd x.

(** [for x in l: body x] *)
Fixpoint for_each {A : Type} (l : list A) (body : A -> M unit) : M unit :=
  match l with
  | [] => ret tt
  | x :: r => body x ;; for_each r body
  end.

Definition nonempty {A : Type} (l : list A) : bool :=
  match l with [] => false | _ => true end.

(** [d[k] = v] on a dict kept in insertion order *)
Fixpoint dict_set {V : Type} (d : list (pystr * V)) (k : pystr) (v : V)
  : list (pystr * V) :=
  match d with
  | [] => [(k, v)]
  | (k', v') :: r =>
      if str_eqb k' k then (k', v) :: r else (k', v') :: dict_set r k v
  end.

(** The largest double is [2 ^ 1024 - 2 ^ 971].  The true division of two
    integers gives the double nearest to the quotient, ties going to the
    even one, and raises [OverflowError] when that is beyond the largest
    double: for [n / 1000], when the quotient reaches the midpoint
    [2 ^ 1024 - 2 ^ 970] in absolute value. *)
Definition float_limit : Z := Eval vm_compute in (1000 * (2 ^ 1024 - 2 ^ 970))%Z.

Definition float_overflow (n : Z) : bool := (float_limit <=? Z.abs n)%Z.

(** [n / 1000] formatted with [:.1f], for an integer [n] *)
Definition ms_as_seconds `{PyRuntime} (n : Z) : res pystr :=
  if float_overflow n then
    Raised (mkExn OverflowError (u "integer division result too large for a float"))
  else Ok (format_ms_as_seconds n).

(** [x / 1000] formatted with [:.1f]: defined on numbers only; a [bool] is
    an [int] in Python. *)
Definition div1000_1f `{PyRuntime} (j : json) : res pystr :=
  match j with
  | JInt z => ms_as_seconds z
  | JBool b => ms_as_seconds (if b then 1 else 0)%Z
  | _ => Raised (mkExn TypeError
           (u "unsupported operand type(s) for /: '" ++ type_name j ++ u "' and 'int'"))
  end.

(** [n] written on [width] decimal digits with leading zeros, as [%02d],
    [%04d] and [%06d] write a field of a datetime, which is always below
    [10 ^ width] *)
Fixpoint zero_padded (width : nat) (n : N) : pystr :=
  match width with
  | O => []
  | S k => zero_padded k (n / 10) ++ [(48 + n mod 10)%N]
  end.

(** [t.strftime('%Y%m%d_%H%M%S')], for the years from 1000 on *)
Definition strftime_compact (t : datetime) : pystr :=
  zero_padded 4 (year t) ++ zero_padded 2 (month t) ++ zero_padded 2 (day t) ++
  u "_" ++
  zero_padded 2 (hour t) ++ zero_padded 2 (minute t) ++ zero_padded 2 (second t).

(** [t.isoformat()] of a naive datetime: the microseconds are left out when
    they are zero. *)
Definition isoformat (t : datetime) : pystr :=
  zero_padded 4 (year t) ++ u "-" ++ zero_padded 2 (month t) ++ u "-" ++
  zero_padded 2 (day t) ++ u "T" ++
  zero_padded 2 (hour t) ++ u ":" ++ zero_padded 2 (minute t) ++ u ":" ++
  zero_padded 2 (second t) ++
  (if (microsecond t =? 0)%N then []
   else u "." ++ zero_padded 6 (microsecond t)).

(** [if proxy:] for an optional string *)
Definition given (proxy : option pystr) : bool :=
  match proxy with
  | Some (_ :: _) => true
  | _ => false
  end.

(** The query parameters of a refresh request *)
Definition refresh_params (url : pystr) (proxy : option pystr)
  : list (pystr * pystr) :=
  match proxy with
  | Some (c :: p) => [(u "url", url); (u "proxy", c :: p)]
  | _ => [(u "url", url)]
  end.

Definition proxy_schemes : list pystr :=
  [u "http://"; u "https://"; u "socks4://"; u "socks5://"].

(** [result and result.get('status') == 'success'] *)
Definition is_success (result : json) : res bool :=
  if truthy result then
    match py_get result (u "status") JNull with
    | Ok s => Ok (eq_str s (u "success"))
    | Raised e => Raised e
    end
  else Ok false.

(** [result and result["status"] == "success"] *)
Definition is_success_item (result : json) : res bool :=
  if truthy result then
    match py_getitem result (u "status") with
    | Ok s => Ok (eq_str s (u "success"))
    | Raised e => Raised e
    end
  else Ok false.

(** [sep.join(l)] for a list of strings *)
Definition join (sep : pystr) (l : list pystr) : pystr :=
  match l with
  | [] => []
  | x :: r => x ++ concat (map (fun y => sep ++ y) r)
  end.

(** [s.center(width)]: [s] between spaces; when the spaces cannot be shared
    evenly the odd one goes to the left if [width] is odd, to the right
    otherwise. *)
Definition center (s : pystr) (width : nat) : pystr :=
  if width <=? length s then s
  else
    let marg := width - length s in
    let left := marg / 2 + (if Nat.odd marg && Nat.odd width then 1 else 0) in
    str_mul (u " ") left ++ s ++ str_mul (u " ") (marg - left).

(** [while True: round], for at most [fuel] rounds.  A round returns [true]
    to leave the loop ([break]) and [false] to go round again ([continue],
    or the end of the body).  The loop returns [Some tt] when it is left and
    [None] when the rounds allowed are used up before that. *)
Fixpoint while_true (fuel : nat) (round : M bool) : M (option unit) :=
  match fuel with
  | O => ret None
  | S fuel' =>
      stop <- round ;;
      if stop then ret (Some tt) else while_true fuel' round
  end.

(** [x[:n]], defined on strings and lists.  On a dict CPython raises too
    (a [TypeError] before 3.12, a [KeyError] since); on the other objects
    the [TypeError] below. *)
Definition py_slice_to (j : json) (n : nat) : res json :=
  match j with
  | JStr s => Ok (JStr (firstn n s))
  | JList l => Ok (JList (firstn n l))
  | JObj _ => Raised (mkExn TypeError (u "unhashable type: 'slice'"))
  | _ => Raised (mkExn TypeError
                   (u "'" ++ type_name j ++ u "' object is not subscriptable"))
  end.

(** [len(x)], defined on strings, lists and dicts *)
Definition py_len (j : json) : res nat :=
  match j with
  | JStr s => Ok (length s)
  | JList l => Ok (length l)
  | JObj kv => Ok (length kv)
  | _ => Raised (mkExn TypeError
                   (u "object of type '" ++ type_name j ++ u "' has no len()"))
  end.

(** [list(x.items())]: only a dict has the method. *)
Definition py_items (j : json) : res (list (pystr * json)) :=
  match j with
  | JObj kv => Ok kv
  | _ => Raised (mkExn AttributeError
                   (u "'" ++ type_name j ++ u "' object has no attribute 'items'"))
  end.

(** * interactive_refresh.py *)

Module Interactive.
Section Code.
Context {RT : PyRuntime}.

(** [self.server_url] of the [CookieRefresherCLI] object *)
Variable server_url : pystr.

(** [CookieRefresherCLI.format_url] *)
Definition format_url (url : pystr) : pystr :=
  if negb (startswith_any url [u "http://"; u "https://"])
  then u "https://" ++ url
  else url.

(** [CookieRefresherCLI.validate_url] *)
Definition validate_url (url : pystr) : bool :=
  match urlparse url with
  | Ok result => nonempty (scheme result) && nonempty (netloc result)
  | Raised _ => false
  end.

(** [CookieRefresherCLI.refresh_cookies] *)
Definition refresh_cookies (url : pystr) (proxy : option pystr) : M json :=
  try_except
    (let params := refresh_params url proxy in
     print (nl ++ u "⏳ 正在刷新 " ++ url ++ u "...") ;;
     when (given proxy)
          (print (u "   使用代理: " ++ match proxy with Some p => p | None => [] end)) ;;
     print (u "   请稍候，这可能需要 10-30 秒..." ++ nl) ;;
     resp <- request POST (server_url ++ u "/cache/refresh") params (Some 120%N) ;;
     if (resp_status resp =? 200)%Z then resp_json resp
     else
       error_data <- resp_json resp ;;
       print (u "❌ 错误 (状态码: " ++ str_of_Z (resp_status resp) ++ u ")") ;;
       detail <- lift (py_get error_data (u "detail") (JStr (u "未知错误"))) ;;
       print (u "   " ++ py_str detail) ;;
       ret JNull)
    (fun e =>
       match exn_cls e with
       | TimeoutError =>
           print (u "❌ 请求超时 - 服务器响应时间过长") ;; ret JNull
       | ClientConnectorError =>
           print (u "❌ 无法连接到服务器 (" ++ server_url ++ u ")") ;;
           print (u "   请确保服务器已启动") ;;
           ret JNull
       | _ =>
           print (u "❌ 请求失败: " ++ exn_text e) ;; ret JNull
       end).

(** [CookieRefresherCLI.get_cookies] *)
Definition get_cookies (url : pystr) : M json :=
  try_except
    (resp <- request GET (server_url ++ u "/cookies") [(u "url", url)] (Some 60%N) ;;
     if (resp_status resp =? 200)%Z then resp_json resp else ret JNull)
    (fun _ => ret JNull).

(** [CookieRefresherCLI.display_result] *)
Definition display_result (result : json) : M unit :=
  print (nl ++ str_mul (u "=") 70) ;;
  print (u "✅ Cookie 刷新成功！") ;;
  print (str_mul (u "=") 70) ;;
  print (nl ++ u "📌 目标网址信息:") ;;
  hostname <- lift (py_get result (u "hostname") (JStr (u "N/A"))) ;;
  print (u "   主机名: " ++ py_str hostname) ;;
  cookies_count <- lift (py_get result (u "cookies_count") (JInt 0)) ;;
  print (nl ++ u "🍪 Cookie 信息:") ;;
  print (u "   总数: " ++ py_str cookies_count ++ u " 个") ;;
  user_agent <- lift (py_get result (u "user_agent") (JStr [])) ;;
  when (truthy user_agent)
       (print (nl ++ u "🌐 User-Agent:") ;;
        print (u "   " ++ py_str user_agent)) ;;
  generation_time <- lift (py_get result (u "generation_time_ms") (JInt 0)) ;;
  print (nl ++ u "⏱️  性能:") ;;
  seconds <- lift (div1000_1f generation_time) ;;
  print (u "   生成耗时: " ++ py_str generation_time ++ u " ms (" ++ seconds ++ u " 秒)") ;;
  print (nl ++ str_mul (u "=") 70).

(** [name.startswith(('cf_', '__cf'))] *)
Definition is_cf (name : pystr) : bool :=
  startswith_any name [u "cf_"; u "__cf"].

(** The loop of [display_cookies] that fills [cf_cookies] and
    [other_cookies] *)
Definition classify (cookies : list (pystr * pystr))
  : list (pystr * pystr) * list (pystr * pystr) :=
  fold_left
    (fun acc item =>
       if is_cf (fst item)
       then (dict_set (fst acc) (fst item) (snd item), snd acc)
       else (fst acc, dict_set (snd acc) (fst item) (snd item)))
    cookies ([], []).

(** [value[:40] + "..." if len(value) > 40 else value] *)
Definition value_preview (value : pystr) : pystr :=
  if 40 <? length value then firstn 40 value ++ u "..." else value.

Definition cookie_line (item : pystr * pystr) : pystr :=
  u "   • " ++ fst item ++ u ": " ++ value_preview (snd item).

(** [CookieRefresherCLI.display_cookies], on a [Dict[str, str]] as its
    signature declares *)
Definition display_cookies (url : pystr) (cookies : list (pystr * pystr)) : M unit :=
  print (nl ++ str_mul (u "=") 70) ;;
  print (u "🍪 获取的 Cookie 详情") ;;
  print (str_mul (u "=") 70) ;;
  parsed <- lift (urlparse url) ;;
  print (nl ++ u "📌 网址: " ++ netloc parsed) ;;
  print (u "   总 Cookie 数: " ++ str_of_nat (length cookies) ++ nl) ;;
  let cf_cookies := fst (classify cookies) in
  let other_cookies := snd (classify cookies) in
  when (nonempty cf_cookies)
       (print (u "🔐 Cloudflare Cookie:") ;;
        for_each cf_cookies (fun item => print (cookie_line item))) ;;
  when (nonempty other_cookies)
       (print (nl ++ u "📦 其他 Cookie (" ++ str_of_nat (length other_cookies) ++ u " 个):") ;;
        for_each (firstn 5 other_cookies) (fun item => print (cookie_line item)) ;;
        when (5 <? length other_cookies)
             (print (u "   ... 还有 " ++ str_of_nat (length other_cookies - 5) ++ u " 个"))) ;;
  print (nl ++ str_mul (u "=") 70).

(** The loop of [get_yes_no], on the lines still to be typed: each answer
    that is neither a yes nor a no is refused and the question is asked
    again. *)
Fixpoint get_yes_no_from (prompt : pystr) (lines : list pystr)
  : res bool * list pystr * list event :=
  match lines with
  | [] => (Raised (mkExn EOFError (u "EOF when reading a line")), [], [EInput prompt])
  | l :: rest =>
      let response := lower (strip l) in
      if str_in response [u "y"; u "yes"; u "是"; u "1"] then
        (Ok true, rest, [EInput prompt])
      else if str_in response [u "n"; u "no"; u "否"; u "0"] then
        (Ok false, rest, [EInput prompt])
      else
        match get_yes_no_from prompt rest with
        | (r, rest', t) =>
            (r, rest', EInput prompt :: EPrint (u "   ❌ 请输入 y/n (是/否)") :: t)
        end
  end.

(** [get_yes_no] *)
Definition get_yes_no (prompt : pystr) : M bool :=
  fun w =>
    match get_yes_no_from prompt (stdin w) with
    | (r, rest, t) => (r, mkWorld rest (network w) (clock w) (disk w), t)
    end.

(** [save_result_to_file]: the clock is read twice, once for the file name
    and once for the time stamp. *)
Definition save_result_to_file (url : pystr) (result : json) : M unit :=
  try_except
    (t1 <- now ;;
     let filename := u "cookie_refresh_" ++ strftime_compact t1 ++ u ".json" in
     t2 <- now ;;
     hostname <- lift (py_get result (u "hostname") JNull) ;;
     cookies_count <- lift (py_get result (u "cookies_count") JNull) ;;
     user_agent <- lift (py_get result (u "user_agent") JNull) ;;
     generation_time_ms <- lift (py_get result (u "generation_time_ms") JNull) ;;
     let data := JObj [(u "timestamp", JStr (isoformat t2));
                       (u "url", JStr url);
                       (u "hostname", hostname);
                       (u "cookies_count", cookies_count);
                       (u "user_agent", user_agent);
                       (u "generation_time_ms", generation_time_ms)] in
     write_json filename data ;;
     print (nl ++ u "   ✅ 结果已保存到: " ++ filename))
    (fun e => print (nl ++ u "   ❌ 保存失败: " ++ exn_text e)).

(** [sum(1 for r in results if r['status'] == s)] *)
Fixpoint count_status (results : list json) (s : pystr) : res nat :=
  match results with
  | [] => Ok 0
  | r :: rest =>
      match py_getitem r (u "status") with
      | Ok st =>
          match count_status rest s with
          | Ok n => Ok (if eq_str st s then S n else n)
          | Raised e => Raised e
          end
      | Raised e => Raised e
      end
  end.

(** The dict [data] that [save_batch_results] builds *)
Definition batch_document (t : datetime) (results : list json) : res json :=
  match count_status results (u "success") with
  | Ok n_success =>
      match count_status results (u "failed") with
      | Ok n_failed =>
          Ok (JObj [(u "timestamp", JStr (isoformat t));
                    (u "total", JInt (Z.of_nat (length results)));
                    (u "success", JInt (Z.of_nat n_success));
                    (u "failed", JInt (Z.of_nat n_failed));
                    (u "results", JList results)])
      | Raised e => Raised e
      end
  | Raised e => Raised e
  end.

(** [save_batch_results] *)
Definition save_batch_results (results : list json) : M unit :=
  try_except
    (t1 <- now ;;
     let filename := u "cookie_refresh_batch_" ++ strftime_compact t1 ++ u ".json" in
     t2 <- now ;;
     data <- lift (batch_document t2 results) ;;
     write_json filename data ;;
     print (nl ++ u "   ✅ 结果已保存到: " ++ filename))
    (fun e => print (nl ++ u "   ❌ 保存失败: " ++ exn_text e)).

(** [value[:40] + "..." if len(value) > 40 else value] as the f-string
    prints it, on a value of any type: the length is taken first, and a
    list of more than 40 items cannot be added to a string. *)
Definition preview_of (value : json) : res pystr :=
  match py_len value with
  | Ok n =>
      if 40 <? n then
        match py_slice_to value 40 with
        | Ok (JStr s) => Ok (s ++ u "...")
        | Ok other =>
            Raised (mkExn TypeError
                      (u "can only concatenate " ++ type_name other ++ u " (not " ++
                       [34%N] ++ u "str" ++ [34%N] ++ u ") to " ++ type_name other))
        | Raised e => Raised e
        end
      else Ok (py_str value)
  | Raised e => Raised e
  end.

(** The body of the two loops of [display_cookies] that print a cookie *)
Definition print_cookie (item : pystr * json) : M unit :=
  preview <- lift (preview_of (snd item)) ;;
  print (u "   • " ++ fst item ++ u ": " ++ preview).

(** The loop that fills [cf_cookies] and [other_cookies], on values of any
    type *)
Definition classify_items (cookies : list (pystr * json))
  : list (pystr * json) * list (pystr * json) :=
  fold_left
    (fun acc item =>
       if is_cf (fst item)
       then (dict_set (fst acc) (fst item) (snd item), snd acc)
       else (fst acc, dict_set (snd acc) (fst item) (snd item)))
    cookies ([], []).

(** [CookieRefresherCLI.display_cookies] on an argument of any type, as its
    callers pass what the service answered: [len] and [items] raise on what
    is no dict, after the heading has been printed, and a cookie whose
    value cannot be shown stops the display at its line. *)
Definition display_cookies_untyped (url : pystr) (cookies : json) : M unit :=
  print (nl ++ str_mul (u "=") 70) ;;
  print (u "🍪 获取的 Cookie 详情") ;;
  print (str_mul (u "=") 70) ;;
  parsed <- lift (urlparse url) ;;
  print (nl ++ u "📌 网址: " ++ netloc parsed) ;;
  n <- lift (py_len cookies) ;;
  print (u "   总 Cookie 数: " ++ str_of_nat n ++ nl) ;;
  items <- lift (py_items cookies) ;;
  let cf_cookies := fst (classify_items items) in
  let other_cookies := snd (classify_items items) in
  when (nonempty cf_cookies)
       (print (u "🔐 Cloudflare Cookie:") ;;
        for_each cf_cookies print_cookie) ;;
  when (nonempty other_cookies)
       (print (nl ++ u "📦 其他 Cookie (" ++ str_of_nat (length other_cookies) ++ u " 个):") ;;
        for_each (firstn 5 other_cookies) print_cookie ;;
        when (5 <? length other_cookies)
             (print (u "   ... 还有 " ++ str_of_nat (length other_cookies - 5) ++ u " 个"))) ;;
  print (nl ++ str_mul (u "=") 70).

(** [cli.display_cookies(url, cookies_result.get('cookies', {}))] *)
Definition show_cookies (url : pystr) (cookies_result : json) : M unit :=
  cookies <- lift (py_get cookies_result (u "cookies") (JObj [])) ;;
  display_cookies_untyped url cookies.

(** Lines 227-240 of [refresh_single_url]: the optional proxy *)
Definition ask_proxy : M (option pystr) :=
  use_proxy <- get_yes_no (u "   是否使用代理? (y/n): ") ;;
  if use_proxy then
    print (nl ++ u "   请输入代理地址:") ;;
    print (u "   例如: http://proxy:8080 或 socks5://proxy:1080") ;;
    line <- input (u "   代理: ") ;;
    let proxy := strip line in
    if negb (nonempty proxy) then
      print (u "   ℹ️ 未输入代理，将不使用代理") ;; ret None
    else if negb (startswith_any proxy proxy_schemes) then
      print (u "   ❌ 代理格式错误，将不使用代理") ;; ret None
    else ret (Some proxy)
  else ret None.

(** Lines 245-256 of [refresh_single_url]: what follows the refresh *)
Definition after_refresh (url : pystr) (result : json) : M unit :=
  ok <- lift (is_success result) ;;
  when ok
    (display_result result ;;
     show <- get_yes_no (nl ++ u "   是否查看详细的 Cookie 信息? (y/n): ") ;;
     when show
       (cookies_result <- get_cookies url ;;
        when (truthy cookies_result) (show_cookies url cookies_result)) ;;
     save <- get_yes_no (nl ++ u "   是否保存结果到文件? (y/n): ") ;;
     when save (save_result_to_file url result)).

(** [refresh_single_url] *)
Definition refresh_single_url : M unit :=
  print (nl ++ u "📝 请输入要刷新的网址:") ;;
  print (u "   例如: example.com 或 https://example.com") ;;
  line <- input (u "   网址: ") ;;
  let url := strip line in
  if negb (nonempty url) then print (u "   ❌ 网址不能为空")
  else
    let url := format_url url in
    if negb (validate_url url) then print (u "   ❌ 网址格式无效: " ++ url)
    else
      proxy <- ask_proxy ;;
      result <- refresh_cookies url proxy ;;
      after_refresh url result.

(** [view_cached_cookies] *)
Definition view_cached_cookies : M unit :=
  print (nl ++ u "📝 请输入要查看的网址:") ;;
  line <- input (u "   网址: ") ;;
  let url := strip line in
  if negb (nonempty url) then print (u "   ❌ 网址不能为空")
  else
    let url := format_url url in
    if negb (validate_url url) then print (u "   ❌ 网址格式无效: " ++ url)
    else
      print (nl ++ u "⏳ 正在获取 Cookie...") ;;
      cookies_result <- get_cookies url ;;
      if truthy cookies_result then show_cookies url cookies_result
      else print (u "   ⚠️ 未找到缓存的 Cookie（可能需要先刷新）").

(** The [while True] loop of [batch_refresh] that reads the URLs, on the
    lines still to be typed: a blank line ends it, an invalid URL is
    reported and left out. *)
Fixpoint collect_urls_from (lines : list pystr) (urls : list pystr)
  : res (list pystr) * list pystr * list event :=
  let prompt := u "   [" ++ str_of_nat (length urls + 1) ++ u "] 网址: " in
  match lines with
  | [] => (Raised (mkExn EOFError (u "EOF when reading a line")), [], [EInput prompt])
  | l :: rest =>
      let url := strip l in
      if negb (nonempty url) then (Ok urls, rest, [EInput prompt])
      else
        let url := format_url url in
        if validate_url url then
          match collect_urls_from rest (urls ++ [url]) with
          | (r, rest', t) => (r, rest', EInput prompt :: t)
          end
        else
          match collect_urls_from rest urls with
          | (r, rest', t) =>
              (r, rest',
               EInput prompt :: EPrint (u "   ❌ 网址格式无效，跳过: " ++ url) :: t)
          end
  end.

Definition collect_urls : M (list pystr) :=
  fun w =>
    match collect_urls_from (stdin w) [] with
    | (r, rest, t) => (r, mkWorld rest (network w) (clock w) (disk w), t)
    end.

(** Lines 311-320 of [batch_refresh]: the optional shared proxy *)
Definition ask_batch_proxy : M (option pystr) :=
  use_proxy <- get_yes_no (u "   是否为所有网址使用同一代理? (y/n): ") ;;
  if use_proxy then
    line <- input (u "   代理: ") ;;
    let proxy := strip line in
    if negb (nonempty proxy) then ret None
    else if negb (startswith_any proxy proxy_schemes) then
      print (u "   ❌ 代理格式错误") ;; ret None
    else ret (Some proxy)
  else ret None.

(** The record appended for a URL whose refresh failed *)
Definition failed_record (url : pystr) : json :=
  JObj [(u "url", JStr url); (u "status", JStr (u "failed"))].

(** The [for] loop of [batch_refresh] (lines 324-346): [i] counts from 1 and
    [total] is [len(urls)] of the whole list. *)
Fixpoint batch_loop (total i : nat) (urls : list pystr) (proxy : option pystr)
    (results : list json) : M (list json) :=
  match urls with
  | [] => ret results
  | url :: rest =>
      parsed <- lift (urlparse url) ;;
      print (nl ++ u "[" ++ str_of_nat i ++ u "/" ++ str_of_nat total ++
             u "] 正在处理: " ++ netloc parsed) ;;
      result <- refresh_cookies url proxy ;;
      ok <- lift (is_success result) ;;
      results' <-
        (if ok then
           hostname <- lift (py_get result (u "hostname") JNull) ;;
           cookies_count <- lift (py_get result (u "cookies_count") JNull) ;;
           time_ms <- lift (py_get result (u "generation_time_ms") JNull) ;;
           print (u "   ✅ 成功 - " ++ py_str cookies_count ++ u " 个 Cookie - " ++
                  py_str time_ms ++ u "ms") ;;
           ret (results ++ [JObj [(u "url", JStr url);
                                  (u "hostname", hostname);
                                  (u "cookies_count", cookies_count);
                                  (u "time_ms", time_ms);
                                  (u "status", JStr (u "success"))]])
         else
           print (u "   ❌ 失败") ;;
           ret (results ++ [failed_record url])) ;;
      when (i <? total) (sleep 2) ;;
      batch_loop total (S i) rest proxy results'
  end.

(** [sum(r.get('time_ms', 0) for r in results if r['status'] == 'success')],
    the running sum starting from [acc] *)
Fixpoint sum_time_ms (results : list json) (acc : Z) : res Z :=
  match results with
  | [] => Ok acc
  | r :: rest =>
      match py_getitem r (u "status") with
      | Ok st =>
          if eq_str st (u "success") then
            match py_get r (u "time_ms") (JInt 0) with
            | Ok (JInt z) => sum_time_ms rest (acc + z)
            | Ok (JBool b) => sum_time_ms rest (acc + (if b then 1 else 0))
            | Ok other =>
                Raised (mkExn TypeError
                  (u "unsupported operand type(s) for +: 'int' and '" ++
                   type_name other ++ u "'"))
            | Raised e => Raised e
            end
          else sum_time_ms rest acc
      | Raised e => Raised e
      end
  end.

(** Lines 349-366 of [batch_refresh]: the summary *)
Definition batch_summary (results : list json) : M unit :=
  print (nl ++ str_mul (u "=") 70) ;;
  print (u "📊 批量刷新总结") ;;
  print (str_mul (u "=") 70) ;;
  success_count <- lift (count_status results (u "success")) ;;
  let failed_count := length results - success_count in
  print (nl ++ u "   总数: " ++ str_of_nat (length results)) ;;
  print (u "   ✅ 成功: " ++ str_of_nat success_count) ;;
  print (u "   ❌ 失败: " ++ str_of_nat failed_count) ;;
  when (0 <? success_count)
    (total_time <- lift (sum_time_ms results 0) ;;
     let avg_time := (total_time / Z.of_nat success_count)%Z in
     print (nl ++ u "   ⏱️  平均耗时: " ++ str_of_Z avg_time ++ u "ms") ;;
     seconds <- lift (ms_as_seconds total_time) ;;
     print (u "   总耗时: " ++ str_of_Z total_time ++ u "ms (" ++ seconds ++ u " 秒)")) ;;
  print (nl ++ str_mul (u "=") 70).

(** [batch_refresh] *)
Definition batch_refresh : M unit :=
  print (nl ++ u "📝 请输入要刷新的网址列表 (每行一个，输入空行结束):") ;;
  print (u "   例如:") ;;
  print (u "      example.com") ;;
  print (u "      test.com") ;;
  print (u "      site.com") ;;
  print [] ;;
  urls <- collect_urls ;;
  if negb (nonempty urls) then print (u "   ❌ 没有输入有效的网址")
  else
    print (nl ++ u "将要刷新 " ++ str_of_nat (length urls) ++ u " 个网址") ;;
    proxy <- ask_batch_proxy ;;
    results <- batch_loop (length urls) 1 urls proxy [] ;;
    batch_summary results ;;
    save <- get_yes_no (nl ++ u "   是否保存结果到文件? (y/n): ") ;;
    when save (save_batch_results results).

End Code.

Section Program.
Context {RT : PyRuntime}.

(** The [server_url] of [CookieRefresherCLI()], which [main] creates *)
Definition default_server_url : pystr := u "http://localhost:8000".

(** [print_header] *)
Definition print_header : M unit :=
  print nl ;;
  print (u "╔" ++ str_mul (u "=") 68 ++ u "╗") ;;
  print (u "║" ++ str_mul (u " ") 68 ++ u "║") ;;
  print (u "║" ++ center (u "  Cloudflare Cookie 强制刷新 - 交互式工具") 68 ++ u "║") ;;
  print (u "║" ++ str_mul (u " ") 68 ++ u "║") ;;
  print (u "╚" ++ str_mul (u "=") 68 ++ u "╝") ;;
  print [].

(** [print_menu] *)
Definition print_menu : M unit :=
  print (nl ++ u "🎯 请选择操作:") ;;
  print (u "   1. 刷新单个网址的 Cookie") ;;
  print (u "   2. 查看已缓存的 Cookie") ;;
  print (u "   3. 批量刷新") ;;
  print (u "   4. 返回主菜单") ;;
  print (u "   0. 退出") ;;
  print [].

(** Lines 423-440 of [main]: the test of the connection, [true] when the
    service answers 200 and [main] goes on to the menu, [false] when [main]
    returns *)
Definition probe : M bool :=
  try_except
    (resp <- request GET (u "http://localhost:8000/cache/stats") [] (Some 5%N) ;;
     if negb (resp_status resp =? 200)%Z then
       print (u "   ⚠️  服务器连接异常") ;;
       print (nl ++ u "💡 提示: 确保已启动服务器") ;;
       print (u "   运行: python server.py") ;;
       ret false
     else
       print (u "   ✅ 服务器正常") ;;
       ret true)
    (fun e =>
       print (u "   ❌ 无法连接到服务器") ;;
       print (u "   错误: " ++ exn_text e) ;;
       print (nl ++ u "💡 请先启动服务器:") ;;
       print (u "   python server.py") ;;
       ret false).

(** Line 462 of [main]: the pause at the end of a round, after which the
    loop goes round again *)
Definition press_enter : M bool :=
  _ <- input (nl ++ u "   按 Enter 继续...") ;;
  ret false.

(** Lines 447-462 of [main]: what the loop does with the choice typed *)
Definition menu_choice (choice : pystr) : M bool :=
  if str_eqb choice (u "1") then
    refresh_single_url default_server_url ;; press_enter
  else if str_eqb choice (u "2") then
    view_cached_cookies default_server_url ;; press_enter
  else if str_eqb choice (u "3") then
    batch_refresh default_server_url ;; press_enter
  else if str_eqb choice (u "4") then ret false
  else if str_eqb choice (u "0") then
    print (nl ++ u "👋 感谢使用，再见！" ++ nl) ;; ret true
  else
    print (u "   ❌ 无效的选择，请重新输入") ;; press_enter.

(** The body of the [while True] loop of [main] (lines 444-462) *)
Definition menu_round : M bool :=
  print_menu ;;
  line <- input (u "请选择 (0-4): ") ;;
  menu_choice (strip line).

(** [main], its menu loop running for at most [fuel] rounds *)
Definition main (fuel : nat) : M (option unit) :=
  print_header ;;
  print (u "⚙️  初始化...") ;;
  print (u "   检查服务器连接...") ;;
  connected <- probe ;;
  if connected then while_true fuel menu_round else ret (Some tt).

End Program.

End Interactive.

(** The items of a list as strings, for [join]: the first item that is not
    a string raises, [i] being the index of the head of [l]. *)
Fixpoint str_list (l : list json) (i : nat) : res (list pystr) :=
  match l with
  | [] => Ok []
  | JStr s :: r =>
      match str_list r (S i) with
      | Ok ss => Ok (s :: ss)
      | Raised e => Raised e
      end
  | other :: _ =>
      Raised (mkExn TypeError
                (u "sequence item " ++ str_of_nat i ++ u ": expected str instance, " ++
                 type_name other ++ u " found"))
  end.

(** [sep.join(x)]: a string is joined character by character, a list item
    by item, a dict key by key. *)
Definition py_join (sep : pystr) (x : json) : res pystr :=
  match x with
  | JStr s => Ok (join sep (map (fun c => [c]) s))
  | JList l =>
      match str_list l 0 with
      | Ok ss => Ok (join sep ss)
      | Raised e => Raised e
      end
  | JObj kv => Ok (join sep (map fst kv))
  | _ => Raised (mkExn TypeError (u "can only join an iterable"))
  end.

(** * quick_refresh.py *)

Module Quick.
Section Code.
Context {RT : PyRuntime}.

Definition yes_words : list pystr := [u "y"; u "yes"; u "1"].

(** [refresh_and_display] *)
Definition refresh_and_display (url : pystr) (proxy : option pystr) : M bool :=
  try_except
    (print (nl ++ u "⏳ 正在刷新 " ++ url ++ u "...") ;;
     when (given proxy)
          (print (u "   代理: " ++ match proxy with Some p => p | None => [] end)) ;;
     print (u "   请稍候..." ++ nl) ;;
     let params := refresh_params url proxy in
     resp <- request POST (u "http://localhost:8000/cache/refresh") params (Some 120%N) ;;
     if (resp_status resp =? 200)%Z then
       result <- resp_json resp ;;
       print (u "✅ 刷新成功！" ++ nl) ;;
       print (str_mul (u "━") 50) ;;
       hostname <- lift (py_get result (u "hostname") JNull) ;;
       print (u "主机名: " ++ py_str hostname) ;;
       cookies_count <- lift (py_get result (u "cookies_count") JNull) ;;
       print (u "Cookie 数: " ++ py_str cookies_count ++ u " 个") ;;
       generation_time <- lift (py_get result (u "generation_time_ms") JNull) ;;
       seconds <- lift (div1000_1f generation_time) ;;
       print (u "耗时: " ++ py_str generation_time ++ u "ms (" ++ seconds ++ u "秒)") ;;
       print (str_mul (u "━") 50) ;;
       user_agent <- lift (py_get result (u "user_agent") JNull) ;;
       when (truthy user_agent)
            (head <- lift (py_slice_to user_agent 60) ;;
             print (nl ++ u "User-Agent: " ++ py_str head ++ u "...")) ;;
       line <- input (nl ++ u "💾 是否保存结果到文件? (y/n): ") ;;
       let save := lower (strip line) in
       when (str_in save yes_words)
            (parsed <- lift (urlparse url) ;;
             let filename := u "cookie_" ++ netloc parsed ++ u ".json" in
             write_json filename result ;;
             print (u "✅ 已保存到 " ++ filename)) ;;
       ret true
     else
       error <- resp_json resp ;;
       detail <- lift (py_get error (u "detail") (JStr (u "未知错误"))) ;;
       print (u "❌ 错误: " ++ py_str detail) ;;
       ret false)
    (fun e =>
       match exn_cls e with
       | TimeoutError =>
           print (u "❌ 超时 - 刷新耗时过长") ;; ret false
       | ClientConnectorError =>
           print (u "❌ 无法连接到服务器 (http://localhost:8000)") ;;
           print (u "   请确保服务器已启动: python server.py") ;;
           ret false
       | _ =>
           print (u "❌ 错误: " ++ exn_text e) ;; ret false
       end).

(** How one round of the [while True] loop of [main] ends *)
Inductive control : Type := Break | Continue.

(** [cont = input(prompt).strip().lower()] and the test that follows *)
Definition ask_continue (prompt : pystr) : M control :=
  line <- input prompt ;;
  let cont := lower (strip line) in
  if negb (str_in cont yes_words) then
    print (nl ++ u "👋 再见！" ++ nl) ;; ret Break
  else print [] ;; ret Continue.

(** Lines 95-130 of [main]: what one round of the loop does with the
    normalized URL *)
Definition refresh_round (url : pystr) : M control :=
  match urlparse url with
  | Raised _ => print (u "❌ URL 格式无效" ++ nl) ;; ret Continue
  | Ok _ =>
      line <- input (u "🔀 是否使用代理? (y/n): ") ;;
      let use_proxy := lower (strip line) in
      choice <-
        (if str_in use_proxy yes_words then
           line <- input (u "   代理地址 (如 http://proxy:8080): ") ;;
           let proxy := strip line in
           if negb (nonempty proxy) then ret (Some None)
           else if negb (startswith_any proxy proxy_schemes) then
             print (u "❌ 代理格式错误" ++ nl) ;; ret None
           else ret (Some (Some proxy))
         else ret (Some None)) ;;
      match choice with
      | None => ret Continue
      | Some proxy =>
          success <- refresh_and_display url proxy ;;
          if success then ask_continue (nl ++ u "▶️ 继续刷新其他网址? (y/n): ")
          else ask_continue (nl ++ u "▶️ 重试? (y/n): ")
      end
  end.

(** The body of the [while True] loop of [main] (lines 80-130) *)
Definition main_round : M control :=
  line <- input (u "📌 输入网址 (或 'quit' 退出): ") ;;
  let url := strip line in
  if str_in (lower url) [u "quit"; u "exit"; u "q"] then
    print (nl ++ u "👋 再见！" ++ nl) ;; ret Break
  else if negb (nonempty url) then
    print (u "❌ 网址不能为空" ++ nl) ;; ret Continue
  else
    let url := if negb (startswith_any url [u "http://"; u "https://"])
               then u "https://" ++ url else url in
    refresh_round url.

(** [main], its loop running for at most [fuel] rounds *)
Definition main (fuel : nat) : M (option unit) :=
  print (nl ++ str_mul (u "=") 50) ;;
  print (u "  Cloudflare Cookie 强制刷新 - 交互式工具") ;;
  print (str_mul (u "=") 50 ++ nl) ;;
  while_true fuel
    (c <- main_round ;;
     ret (match c with Break => true | Continue => false end)).

End Code.
End Quick.

(** * refresh_example.py *)

Module Example.
Section Code.
Context {RT : PyRuntime}.

(** The default [server_url] of [CacheFreshener()], which every demo uses *)
Definition default_server_url : pystr := u "http://localhost:8000".

(** [CacheFreshener.refresh_cookies], [server_url] being [self.server_url]:
    no timeout is passed *)
Definition refresh_cookies (server_url url : pystr) (proxy : option pystr) : M json :=
  let params := refresh_params url proxy in
  try_except
    (resp <- request POST (server_url ++ u "/cache/refresh") params None ;;
     if (resp_status resp =? 200)%Z then resp_json resp
     else
       error <- resp_json resp ;;
       print (u "❌ 刷新失败 (状态码: " ++ str_of_Z (resp_status resp) ++ u ")") ;;
       detail <- lift (py_get error (u "detail") (JStr (u "未知错误"))) ;;
       print (u "   错误: " ++ py_str detail) ;;
       ret JNull)
    (fun e => print (u "❌ 请求失败: " ++ exn_text e) ;; ret JNull).

(** [demo_basic_refresh] *)
Definition demo_basic_refresh : M unit :=
  print (str_mul (u "=") 60) ;;
  print (u "演示 1: 基础 Cookie 刷新") ;;
  print (str_mul (u "=") 60) ;;
  let url := u "https://javdb.com" in
  print (nl ++ u "📌 目标网址: " ++ url) ;;
  print (nl ++ u "⏳ 正在强制刷新 Cookie (这可能需要 10-30 秒)..." ++ nl) ;;
  result <- refresh_cookies default_server_url url None ;;
  ok <- lift (is_success_item result) ;;
  if ok then
    print (u "✅ 刷新成功!") ;;
    hostname <- lift (py_getitem result (u "hostname")) ;;
    print (u "   主机名: " ++ py_str hostname) ;;
    cookies_count <- lift (py_getitem result (u "cookies_count")) ;;
    print (u "   Cookie 数: " ++ py_str cookies_count) ;;
    time_ms <- lift (py_getitem result (u "generation_time_ms")) ;;
    print (u "   耗时: " ++ py_str time_ms ++ u "ms") ;;
    user_agent <- lift (py_getitem result (u "user_agent")) ;;
    head <- lift (py_slice_to user_agent 50) ;;
    print (u "   User-Agent: " ++ py_str head ++ u "...")
  else print (u "❌ 刷新失败").

(** The [for] loop of [demo_multiple_refreshes] (lines 135-145) *)
Fixpoint demo_loop (urls : list pystr) : M unit :=
  match urls with
  | [] => ret tt
  | url :: rest =>
      print (nl ++ u "📌 正在刷新: " ++ url) ;;
      result <- refresh_cookies default_server_url url None ;;
      ok <- lift (is_success_item result) ;;
      (if ok then
         cookies_count <- lift (py_getitem result (u "cookies_count")) ;;
         time_ms <- lift (py_getitem result (u "generation_time_ms")) ;;
         print (u "   ✅ 成功 - " ++ py_str cookies_count ++ u " 个 Cookie - " ++
                py_str time_ms ++ u "ms")
       else print (u "   ❌ 失败")) ;;
      print (u "   ⏳ 等待 2 秒...") ;;
      sleep 2 ;;
      demo_loop rest
  end.

Definition demo_urls : list pystr :=
  [u "https://example.com"; u "https://test-site.com"].

(** [demo_multiple_refreshes] *)
Definition demo_multiple_refreshes : M unit :=
  print (nl ++ str_mul (u "=") 60) ;;
  print (u "演示 2: 多个网址刷新（顺序执行）") ;;
  print (str_mul (u "=") 60) ;;
  demo_loop demo_urls.

(** [CacheFreshener.get_cookies] *)
Definition get_cookies (server_url url : pystr) : M json :=
  try_except
    (resp <- request GET (server_url ++ u "/cookies") [(u "url", url)] None ;;
     if (resp_status resp =? 200)%Z then resp_json resp
     else
       error <- resp_json resp ;;
       print (u "❌ 获取失败 (状态码: " ++ str_of_Z (resp_status resp) ++ u ")") ;;
       detail <- lift (py_get error (u "detail") (JStr (u "未知错误"))) ;;
       print (u "   错误: " ++ py_str detail) ;;
       ret JNull)
    (fun e => print (u "❌ 请求失败: " ++ exn_text e) ;; ret JNull).

(** [CacheFreshener.get_cache_stats] *)
Definition get_cache_stats (server_url : pystr) : M json :=
  try_except
    (resp <- request GET (server_url ++ u "/cache/stats") [] None ;;
     if (resp_status resp =? 200)%Z then resp_json resp
     else
       print (u "❌ 获取统计失败 (状态码: " ++ str_of_Z (resp_status resp) ++ u ")") ;;
       ret JNull)
    (fun e => print (u "❌ 请求失败: " ++ exn_text e) ;; ret JNull).

(** [demo_with_proxy] *)
Definition demo_with_proxy : M unit :=
  print (nl ++ str_mul (u "=") 60) ;;
  print (u "演示 3: 使用代理刷新") ;;
  print (str_mul (u "=") 60) ;;
  let url := u "https://example.com" in
  let proxy := u "http://proxy-server:8080" in
  print (nl ++ u "📌 目标网址: " ++ url) ;;
  print (u "📌 代理: " ++ proxy) ;;
  print (nl ++ u "⏳ 正在通过代理刷新 Cookie..." ++ nl) ;;
  result <- refresh_cookies default_server_url url (Some proxy) ;;
  ok <- lift (is_success_item result) ;;
  if ok then
    print (u "✅ 通过代理刷新成功!") ;;
    hostname <- lift (py_getitem result (u "hostname")) ;;
    print (u "   主机名: " ++ py_str hostname) ;;
    cookies_count <- lift (py_getitem result (u "cookies_count")) ;;
    print (u "   Cookie 数: " ++ py_str cookies_count) ;;
    time_ms <- lift (py_getitem result (u "generation_time_ms")) ;;
    print (u "   耗时: " ++ py_str time_ms ++ u "ms")
  else print (u "❌ 刷新失败").

(** [demo_cache_operations] *)
Definition demo_cache_operations : M unit :=
  print (nl ++ str_mul (u "=") 60) ;;
  print (u "演示 4: 缓存操作") ;;
  print (str_mul (u "=") 60) ;;
  let url := u "https://example.com" in
  print (nl ++ u "1️⃣ 查看缓存统计:") ;;
  stats <- get_cache_stats default_server_url ;;
  when (truthy stats)
    (cached_entries <- lift (py_getitem stats (u "cached_entries")) ;;
     print (u "   活跃缓存数: " ++ py_str cached_entries) ;;
     total_hostnames <- lift (py_getitem stats (u "total_hostnames")) ;;
     print (u "   总主机数: " ++ py_str total_hostnames) ;;
     hostnames <- lift (py_getitem stats (u "hostnames")) ;;
     when (truthy hostnames)
       (first <- lift (py_slice_to hostnames 3) ;;
        joined <- lift (py_join (u ", ") first) ;;
        print (u "   缓存的主机: " ++ joined ++ u "..."))) ;;
  print (nl ++ u "2️⃣ 强制刷新 " ++ url ++ u " 的 Cookie:") ;;
  result <- refresh_cookies default_server_url url None ;;
  ok <- lift (is_success_item result) ;;
  when ok
    (cookies_count <- lift (py_getitem result (u "cookies_count")) ;;
     print (u "   ✅ 成功 - Cookie 数: " ++ py_str cookies_count)) ;;
  print (nl ++ u "3️⃣ 获取刷新后的 Cookie:") ;;
  cookies_result <- get_cookies default_server_url url ;;
  when (truthy cookies_result)
    (cookies <- lift (py_get cookies_result (u "cookies") (JObj [])) ;;
     n <- lift (py_len cookies) ;;
     print (u "   ✅ 成功 - Cookie 数: " ++ str_of_nat n) ;;
     items <- lift (py_items cookies) ;;
     for_each (firstn 3 items)
       (fun item =>
          head <- lift (py_slice_to (snd item) 30) ;;
          print (u "      - " ++ fst item ++ u ": " ++ py_str head ++ u "..."))) ;;
  print (nl ++ u "4️⃣ 更新后的缓存统计:") ;;
  stats <- get_cache_stats default_server_url ;;
  when (truthy stats)
    (cached_entries <- lift (py_getitem stats (u "cached_entries")) ;;
     print (u "   活跃缓存数: " ++ py_str cached_entries) ;;
     total_hostnames <- lift (py_getitem stats (u "total_hostnames")) ;;
     print (u "   总主机数: " ++ py_str total_hostnames)).

(** Lines 238-254 of [main]: the demo chosen is run; [false] stands for
    the [return] on a choice that is not offered. *)
Definition run_choice (choice : pystr) : M bool :=
  if str_eqb choice (u "1") then demo_basic_refresh ;; ret true
  else if str_eqb choice (u "2") then demo_multiple_refreshes ;; ret true
  else if str_eqb choice (u "3") then
    print (nl ++ u "⚠️  请确保代理地址正确，否则会失败") ;;
    demo_with_proxy ;; ret true
  else if str_eqb choice (u "4") then demo_cache_operations ;; ret true
  else if str_eqb choice (u "5") then
    print (nl ++ u "⚠️  运行所有演示可能需要较长时间" ++ nl) ;;
    demo_basic_refresh ;;
    sleep 3 ;;
    demo_cache_operations ;; ret true
  else print (u "❌ 无效的选择") ;; ret false.

(** [main].  The traceback that the handler prints as well goes to the
    standard error stream, which the world does not record. *)
Definition main : M unit :=
  print nl ;;
  print (u "╔" ++ str_mul (u "=") 58 ++ u "╗") ;;
  print (u "║" ++ str_mul (u " ") 58 ++ u "║") ;;
  print (u "║" ++ center (u "  Cloudflare Cookie 强制刷新 - 使用示例") 58 ++ u "║") ;;
  print (u "║" ++ str_mul (u " ") 58 ++ u "║") ;;
  print (u "╚" ++ str_mul (u "=") 58 ++ u "╝") ;;
  print (nl ++ u "📝 注意: 确保 Cloudflare Bypasser 服务器正在运行 (localhost:8000)") ;;
  print (u "   如果运行在不同的地址，请修改 CacheFreshener 的初始化参数") ;;
  print (nl ++ u "选择演示:") ;;
  print (u "  1. 基础 Cookie 刷新") ;;
  print (u "  2. 多个网址刷新") ;;
  print (u "  3. 使用代理刷新") ;;
  print (u "  4. 缓存操作") ;;
  print (u "  5. 运行所有演示") ;;
  line <- input (nl ++ u "请选择 (1-5): ") ;;
  let choice := strip line in
  try_except
    (finished <- run_choice choice ;;
     when finished
       (print (nl ++ str_mul (u "=") 60) ;;
        print (u "✅ 演示完成!") ;;
        print (str_mul (u "=") 60 ++ nl)))
    (fun e => print (nl ++ u "❌ 错误: " ++ exn_text e)).

End Code.
End Example.

(** * A concrete runtime

    The results below hold for every runtime.  The concrete one serves to
    run the scripts on given inputs: [seconds_model] is the floating-point
    computation carried out on integers, [repr_model] is [repr] but for the
    unprintable characters outside ASCII.  [urlsplit_model] follows CPython's
    [urllib.parse.urlsplit] for the scheme and the network location: leading
    control characters and spaces are dropped, tabs and line breaks removed,
    a scheme is split off when the text before the first colon is a letter
    followed by letters, digits, [+], [-] or [.], and the network location
    is what follows a leading [//] up to the first [/], [?] or [#];
    unbalanced square brackets raise [ValueError].  The further checks
    CPython makes on a bracketed host and on a network location outside
    ASCII are not reproduced. *)

Definition is_ascii_alpha (c : N) : bool :=
  ((65 <=? c) && (c <=? 90) || (97 <=? c) && (c <=? 122))%N.

Definition is_scheme_char (c : N) : bool :=
  (is_ascii_alpha c || (48 <=? c) && (c <=? 57) ||
   (c =? 43) || (c =? 45) || (c =? 46))%N.

Fixpoint lstrip_c0 (s : pystr) : pystr :=
  match s with
  | c :: r => if (c <=? 32)%N then lstrip_c0 r else s
  | [] => []
  end.

(** [s.partition(sep)] for a one-character separator: the text before the
    first [sep] and the text after it, if [sep] occurs *)
Fixpoint split_at (sep : N) (s : pystr) : option (pystr * pystr) :=
  match s with
  | [] => None
  | c :: r =>
      if (c =? sep)%N then Some ([], r)
      else match split_at sep r with
           | Some (a, b) => Some (c :: a, b)
           | None => None
           end
  end.

(** The prefix of [s] before the first of [/], [?] and [#] *)
Fixpoint netloc_of (s : pystr) : pystr :=
  match s with
  | [] => []
  | c :: r => if ((c =? 47) || (c =? 63) || (c =? 35))%N then [] else c :: netloc_of r
  end.

Definition has_char (c : N) (s : pystr) : bool := existsb (N.eqb c) s.

Definition urlsplit_model (url : pystr) : res ParseResult :=
  let url := filter (fun c => negb ((c =? 9) || (c =? 10) || (c =? 13))%N)
                    (lstrip_c0 url) in
  let split :=
    match split_at 58 url with
    | Some (c :: pre, post) =>
        if is_ascii_alpha c && forallb is_scheme_char (c :: pre)
        then (lower (c :: pre), post)
        else ([], url)
    | _ => ([], url)
    end in
  let loc :=
    match snd split with
    | 47%N :: 47%N :: r => netloc_of r
    | _ => []
    end in
  if xorb (has_char 91 loc) (has_char 93 loc)
  then Raised (mkExn ValueError (u "Invalid IPv6 URL"))
  else Ok (mkParse (fst split) loc).

Definition hex_digit (n : N) : N :=
  if (n <? 10)%N then (48 + n)%N else (87 + n)%N.

(** A character of a string inside its [repr]: the backslash and the quote
    in use are escaped, a line feed, a tab and a carriage return are
    written [\n], [\t] and [\r], and the other control characters of
    ASCII as [\x] and two hexadecimal digits. *)
Definition repr_char (quote c : N) : pystr :=
  if (c =? 92)%N then [92; 92]%N
  else if (c =? quote)%N then [92%N; c]
  else if (c =? 10)%N then [92; 110]%N
  else if (c =? 9)%N then [92; 116]%N
  else if (c =? 13)%N then [92; 114]%N
  else if ((c <? 32) || (c =? 127))%N
       then [92%N; 120%N; hex_digit (c / 16); hex_digit (c mod 16)]
  else [c].

(** [repr] of a string: between double quotes when it holds a single quote
    and no double one, between single quotes otherwise *)
Definition repr_str (s : pystr) : pystr :=
  let quote := if has_char 39 s && negb (has_char 34 s) then 34%N else 39%N in
  [quote] ++ concat (map (repr_char quote) s) ++ [quote].

(** [repr], exact on values whose strings hold no unprintable character
    outside ASCII *)
Fixpoint repr_model (j : json) : pystr :=
  match j with
  | JNull => u "None"
  | JBool true => u "True"
  | JBool false => u "False"
  | JInt z => str_of_Z z
  | JStr s => repr_str s
  | JList l => u "[" ++ join (u ", ") (map repr_model l) ++ u "]"
  | JObj kv =>
      u "{" ++ join (u ", ")
                (map (fun p => repr_str (fst p) ++ u ": " ++ repr_model (snd p)) kv)
        ++ u "}"
  end.

(** [num / den] rounded to the nearest integer, a tie going to the even
    one *)
Definition round_half_even (num den : Z) : Z :=
  let k := (num / den)%Z in
  let r := (num mod den)%Z in
  if (2 * r <? den)%Z then k
  else if (den <? 2 * r)%Z then (k + 1)%Z
  else (k + k mod 2)%Z.

(** [f"{n/1000:.1f}"] for an integer [n] whose quotient is a float.  The
    quotient is the double nearest to [n/1000], ties to even: an integer
    [m] of 53 bits times [2 ^ e], [e] being chosen so that
    [2^52 <= |n| / (1000 * 2^e) < 2^53].  The text is the decimal with one
    digit after the point nearest to that double, ties to even, with the
    sign of [n] even when the digits are zeros. *)
Definition seconds_model (n : Z) : pystr :=
  let a := Z.abs n in
  if (a =? 0)%Z then u "0.0"
  else
    let scaled (e : Z) : Z * Z :=
      if (0 <=? e)%Z then (a, 1000 * 2 ^ e)%Z else (a * 2 ^ (- e), 1000)%Z in
    let e0 := (Z.log2 a - 62)%Z in
    let e := if (snd (scaled e0) * 2 ^ 53 <=? fst (scaled e0))%Z
             then (e0 + 1)%Z else e0 in
    let m := round_half_even (fst (scaled e)) (snd (scaled e)) in
    let tenths := if (0 <=? e)%Z then (m * 10 * 2 ^ e)%Z
                  else round_half_even (m * 10) (2 ^ (- e)) in
    (if (n <? 0)%Z then u "-" else []) ++
    str_of_Z (tenths / 10) ++ u "." ++ str_of_Z (tenths mod 10).

#[export] Instance CPython : PyRuntime := {
  urlparse := urlsplit_model;
  py_repr := repr_model;
  format_ms_as_seconds := seconds_model
}.

(** * Vocabulary of the properties *)

Unset Implicit Arguments.

Arguments u : simpl never.

(** The world after one request has been sent *)
Definition sent (w : world) : world :=
  mkWorld (stdin w) (tail_of (network w)) (clock w) (disk w).

(** The world after [k] requests have been sent *)
Fixpoint sent_n (k : nat) (w : world) : world :=
  match k with
  | O => w
  | S k' => sent_n k' (sent w)
  end.

(** [url] carries one of the two schemes that [format_url] looks for *)
Definition has_http_scheme (url : pystr) : bool :=
  startswith url (u "http://") || startswith url (u "https://").

(** What a batch does to the service: a call of the refresh endpoint for a
    URL, or a pause of so many seconds *)
Inductive step : Type :=
| Call (url : pystr)
| Pause (seconds : N).

Definition param (params : list (pystr * pystr)) (key : pystr) : pystr :=
  match find (fun p => str_eqb (fst p) key) params with
  | Some p => snd p
  | None => []
  end.

(** The calls and pauses of a trace, in order *)
Fixpoint schedule (t : list event) : list step :=
  match t with
  | [] => []
  | ERequest POST _ params _ :: r => Call (param params (u "url")) :: schedule r
  | ESleep n :: r => Pause n :: schedule r
  | _ :: r => schedule r
  end.

(** One call per URL in order, a pause of two seconds between consecutive
    calls and none after the last *)
Fixpoint paced (urls : list pystr) : list step :=
  match urls with
  | [] => []
  | [url] => [Call url]
  | url :: rest => Call url :: Pause 2 :: paced rest
  end.

(** One call per URL in order, each followed by a pause of two seconds *)
Fixpoint paced_after_each (urls : list pystr) : list step :=
  match urls with
  | [] => []
  | url :: rest => Call url :: Pause 2 :: paced_after_each rest
  end.

Definition is_call (s : step) : bool :=
  match s with Call _ => true | Pause _ => false end.

Definition is_pause (s : step) : bool :=
  match s with Call _ => false | Pause _ => true end.

Definition is_print (e : event) : bool :=
  match e with EPrint _ => true | _ => false end.

Definition is_request (e : event) : bool :=
  match e with ERequest _ _ _ _ => true | _ => false end.

(** The [detail] of an error body, or the fallback text of the clients *)
Definition detail_or_default (kv : dict) : json :=
  match dict_lookup kv (u "detail") with
  | Some v => v
  | None => JStr (u "未知错误")
  end.

(** A server that cannot be reached *)
Definition unreachable : http_outcome :=
  Failed (mkExn ClientConnectorError (u "Cannot connect to host localhost:8000")).

Definition noon : datetime := mkDatetime 2024 5 17 12 0 0 0.

(** A world given by what the user types and what the service answers, with
    a clock that stands still and a disk that accepts every file *)
Definition scripted (lines : list pystr) (answers : nat -> http_outcome) : world :=
  mkWorld lines answers (fun _ => noon) (fun _ => None).

(** A run of a refresh client that reports a failure: it returns the value
    [failure] without raising, and its trace is some printed lines, the
    request, and then at least one printed line, which are the lines
    [explain kv] when the body of the answer is the JSON object [kv]. *)
Definition reports_failure {A : Type} (run : res A * world * list event)
    (failure : A) (after : world) (req : event)
    (body : res json) (explain : dict -> list pystr) : Prop :=
  exists before lines,
    run = (Ok failure, after, before ++ req :: map EPrint lines) /\
    forallb is_print before = true /\
    lines <> [] /\
    (forall kv, body = Ok (JObj kv) -> lines = explain kv).





Definition is_obj (j : json) : bool :=
  match j with JObj _ => true | _ => false end.

(** What a refresh client hands to its caller on an outcome of the request:
    the body of a 200 answer, [None] otherwise *)
Definition answer (o : http_outcome) : json :=
  match o with
  | Responded st (Ok j) => if (st =? 200)%Z then j else JNull
  | _ => JNull
  end.

(** The answer keeps to the contract of the service as far as the callers
    rely on it: the body of a 200 answer is a JSON object (or a value that
    tests false). *)
Definition well_formed (o : http_outcome) : bool :=
  negb (truthy (answer o)) || is_obj (answer o).

(** The value is a JSON object whose [status] is the string [success]. *)
Definition succeeded (j : json) : bool :=
  match j with
  | JObj kv =>
      match dict_lookup kv (u "status") with
      | Some s => eq_str s (u "success")
      | None => false
      end
  | _ => false
  end.

Definition field (j : json) (key : pystr) : json :=
  match j with
  | JObj kv => match dict_lookup kv key with Some v => v | None => JNull end
  | _ => JNull
  end.

(** The record a batch keeps for [url] when the refresh client returned
    [result] *)
Definition record_of (url : pystr) (result : json) : json :=
  if succeeded result then
    JObj [(u "url", JStr url);
          (u "hostname", field result (u "hostname"));
          (u "cookies_count", field result (u "cookies_count"));
          (u "time_ms", field result (u "generation_time_ms"));
          (u "status", JStr (u "success"))]
  else Interactive.failed_record url.

(** The records of a batch over [urls] when the service answers the k-th
    request with [answers k] *)
Fixpoint records (urls : list pystr) (answers : nat -> http_outcome) : list json :=
  match urls with
  | [] => []
  | url :: rest => record_of url (answer (answers 0)) :: records rest (tail_of answers)
  end.

(** The calls and pauses of the loop of [batch_refresh] from the [i]-th of
    [total] URLs on *)
Fixpoint paced_from (total i : nat) (urls : list pystr) : list step :=
  match urls with
  | [] => []
  | url :: rest =>
      Call url :: (if i <? total then [Pause 2] else []) ++ paced_from total (S i) rest
  end.

(** The [status] of a batch record is the string [s]. *)
Definition has_status (s : pystr) (r : json) : bool :=
  match r with
  | JObj kv =>
      match dict_lookup kv (u "status") with
      | Some st => eq_str st s
      | None => false
      end
  | _ => false
  end.

(** The outcome lets the loop of [demo_multiple_refreshes] run: the body of
    a 200 answer tests false, or is a JSON object that has a [status] and,
    when that is [success], a [cookies_count] and a [generation_time_ms]. *)
Definition demo_readable (o : http_outcome) : bool :=
  match answer o with
  | JObj [] => true
  | JObj kv =>
      match dict_lookup kv (u "status") with
      | Some s =>
          negb (eq_str s (u "success")) ||
          match dict_lookup kv (u "cookies_count"),
                dict_lookup kv (u "generation_time_ms") with
          | Some _, Some _ => true
          | _, _ => false
          end
      | None => false
      end
  | j => negb (truthy j)
  end.

(** The body of a successful refresh, as the service documents it *)
Definition success_body : json :=
  JObj [(u "status", JStr (u "success"));
        (u "hostname", JStr (u "a.com"));
        (u "cookies_count", JInt 5);
        (u "user_agent", JStr (u "UA"));
        (u "generation_time_ms", JInt 1500)].

(** The service answers the first request with a success and cannot be
    reached after that. *)
Definition success_then_unreachable (k : nat) : http_outcome :=
  match k with
  | O => Responded 200 (Ok success_body)
  | S _ => unreachable
  end.

(** A batch record is settled: its [status] is the string [success] or the
    string [failed]. *)
Definition settled (r : json) : bool :=
  has_status (u "success") r || has_status (u "failed") r.

(** The world after [save_result_to_file] or [save_batch_results] has read
    the clock twice and opened one file *)
Definition saved (w : world) : world :=
  mkWorld (stdin w) (network w) (tail_of (tail_of (clock w))) (tail_of (disk w)).



Definition is_write (e : event) : bool :=
  match e with EWrite _ _ => true | _ => false end.


(** The service answers 200 with the body [{"status": "error"}]. *)
Definition refused : http_outcome :=
  Responded 200 (Ok (JObj [(u "status", JStr (u "error"))])).

(** [d.get(key, default)] on a dict *)
Definition get_or (kv : dict) (key : pystr) (default : json) : json :=
  match dict_lookup kv key with
  | Some v => v
  | None => default
  end.

(** The entries of a [cookies] object whose values are all strings, as the
    [Dict[str, str]] that [display_cookies] declares *)
Fixpoint str_items (kv : dict) : option (list (pystr * pystr)) :=
  match kv with
  | [] => Some []
  | (k, JStr v) :: r =>
      match str_items r with
      | Some d => Some ((k, v) :: d)
      | None => None
      end
  | _ => None
  end.

(** A cookie of a [Dict[str, str]] as an entry of a JSON object *)
Definition as_json (item : pystr * pystr) : pystr * json :=
  (fst item, JStr (snd item)).

(** The integer has at most 4300 digits, so that every CPython writes it. *)
Definition within_digit_limit (n : Z) : bool := (Z.abs n <? 10 ^ 4300)%Z.

(** The body of a 200 answer that [refresh_and_display] shows down to the
    question about saving it: a JSON object whose [generation_time_ms] is
    a number that can be divided by 1000 as a float, and whose [user_agent]
    is a string or a list, which can be cut to their first 60 items, or
    tests false. *)
Definition shown_in_full (j : json) : bool :=
  is_obj j &&
  match field j (u "generation_time_ms") with
  | JInt z => negb (float_overflow z)
  | JBool _ => true
  | _ => false
  end &&
  match field j (u "user_agent") with
  | JStr _ | JList _ => true
  | other => negb (truthy other)
  end.

(** A successful answer that lacks its [generation_time_ms] *)
Definition body_without_time : json :=
  JObj [(u "status", JStr (u "success"));
        (u "hostname", JStr (u "a.com"));
        (u "cookies_count", JInt 5);
        (u "user_agent", JStr (u "UA"))].


(** The service answers 429 with the body [{"detail": "rate limited"}]. *)
Definition rate_limited : http_outcome :=
  Responded 429 (Ok (JObj [(u "detail", JStr (u "rate limited"))])).


(** A computation that stays off the network: whatever the world, it sends
    no refresh request, does not pause, and leaves the answers of the
    service as they were. *)
Definition offline {A : Type} (m : M A) : Prop :=
  forall w, schedule (run_trace (m w)) = [] /\ network (run_world (m w)) = network w.

(** ** Footprints

    What a computation does to the world around it, whatever that world
    is: the events it may cause, how the world it leaves relates to the
    world it found, and what it may return. *)

(** Every event of every run of [m] satisfies [P], and the world a run ends
    in is related by [R] to the world it started in. *)
Definition obeys {A : Type} (P : event -> Prop) (R : world -> world -> Prop)
    (m : M A) : Prop :=
  forall w, Forall P (run_trace (m w)) /\ R w (run_world (m w)).

(** Every value that [m] returns satisfies [Q]. *)
Definition yields {A : Type} (Q : A -> Prop) (m : M A) : Prop :=
  forall w a, run_result (m w) = Ok a -> Q a.

(** [P] lets a computation talk to the user. *)
Class Permits (P : event -> Prop) : Prop := {
  permits_print : forall s, P (EPrint s);
  permits_input : forall p, P (EInput p)
}.

(** [R] holds between a world and every world that the primitive
    operations lead to from it. *)
Class Passage (R : world -> world -> Prop) : Prop := {
  passage_refl : forall w, R w w;
  passage_trans : forall w1 w2 w3, R w1 w2 -> R w2 w3 -> R w1 w3;
  passage_input : forall w l rest,
      stdin w = l :: rest -> R w (mkWorld rest (network w) (clock w) (disk w));
  passage_request : forall w,
      R w (mkWorld (stdin w) (tail_of (network w)) (clock w) (disk w));
  passage_now : forall w,
      R w (mkWorld (stdin w) (network w) (tail_of (clock w)) (disk w));
  passage_write : forall w,
      R w (mkWorld (stdin w) (network w) (clock w) (tail_of (disk w)))
}.

(** No constraint on the worlds *)
Definition anywhere (w w' : world) : Prop := True.

(** No line is put back: the lines still to be read never grow in number. *)
Definition shrinks (w w' : world) : Prop := length (stdin w') <= length (stdin w).

(** A proxy that the scripts accept: none, or a text that starts with one
    of the four schemes *)
Definition proxy_ok (proxy : option pystr) : Prop :=
  match proxy with
  | Some p => startswith_any p proxy_schemes = true
  | None => True
  end.

(** The events of the full tool talking to the service at [server]: lines
    printed and read, the probe of the statistics, a refresh of a URL that
    passes [validate_url] with an accepted proxy or none, a look-up of the
    cookies of such a URL, a pause of two seconds, and the writing of a
    file of results named after the time. *)
Inductive tool_event {RT : PyRuntime} (server : pystr) : event -> Prop :=
| tool_print (s : pystr) : tool_event server (EPrint s)
| tool_input (p : pystr) : tool_event server (EInput p)
| tool_probe :
    tool_event server
      (ERequest GET (u "http://localhost:8000/cache/stats") [] (Some 5%N))
| tool_refresh (url : pystr) (proxy : option pystr) :
    Interactive.validate_url url = true ->
    proxy_ok proxy ->
    tool_event server
      (ERequest POST (server ++ u "/cache/refresh") (refresh_params url proxy)
                (Some 120%N))
| tool_lookup (url : pystr) :
    Interactive.validate_url url = true ->
    tool_event server
      (ERequest GET (server ++ u "/cookies") [(u "url", url)] (Some 60%N))
| tool_pause : tool_event server (ESleep 2)
| tool_result_file (t : datetime) (document : json) :
    tool_event server
      (EWrite (u "cookie_refresh_" ++ strftime_compact t ++ u ".json") document)
| tool_batch_file (t : datetime) (document : json) :
    tool_event server
      (EWrite (u "cookie_refresh_batch_" ++ strftime_compact t ++ u ".json") document).

(** Every exception that [m] raises satisfies [C]. *)
Definition throws {A : Type} (C : exn -> Prop) (m : M A) : Prop :=
  forall w e, run_result (m w) = Raised e -> C e.

(** The exception that [input] raises when no line is left *)
Definition end_of_input (e : exn) : Prop :=
  e = mkExn EOFError (u "EOF when reading a line").

(** The events of the simplified script: lines printed and read, a refresh
    of a URL that carries a scheme with an accepted proxy or none, and the
    writing of the file named after the network location of a URL. *)
Inductive quick_event {RT : PyRuntime} : event -> Prop :=
| quick_print (s : pystr) : quick_event (EPrint s)
| quick_input (p : pystr) : quick_event (EInput p)
| quick_refresh (url : pystr) (proxy : option pystr) :
    has_http_scheme url = true ->
    proxy_ok proxy ->
    quick_event
      (ERequest POST (u "http://localhost:8000/cache/refresh")
                (refresh_params url proxy) (Some 120%N))
| quick_file (url : pystr) (parsed : ParseResult) (document : json) :
    has_http_scheme url = true ->
    urlparse url = Ok parsed ->
    quick_event (EWrite (u "cookie_" ++ netloc parsed ++ u ".json") document).

(** The URLs and proxies that the demos of [refresh_example.py] refresh *)
Definition demo_targets : list (pystr * option pystr) :=
  [(u "https://javdb.com", None);
   (u "https://example.com", None);
   (u "https://test-site.com", None);
   (u "https://example.com", Some (u "http://proxy-server:8080"))].

(** The events of the demos: lines printed and read, a refresh of one of
    the targets, a look-up of the cookies of [https://example.com], a
    reading of the statistics, each without a timeout, and a pause of two
    or three seconds. *)
Inductive example_event : event -> Prop :=
| example_print (s : pystr) : example_event (EPrint s)
| example_input (p : pystr) : example_event (EInput p)
| example_refresh (url : pystr) (proxy : option pystr) :
    In (url, proxy) demo_targets ->
    example_event
      (ERequest POST (Example.default_server_url ++ u "/cache/refresh")
                (refresh_params url proxy) None)
| example_lookup :
    example_event
      (ERequest GET (Example.default_server_url ++ u "/cookies")
                [(u "url", u "https://example.com")] None)
| example_stats :
    example_event
      (ERequest GET (Example.default_server_url ++ u "/cache/stats") [] None)
| example_pause (n : N) : n = 2%N \/ n = 3%N -> example_event (ESleep n).

(** What [main] of the full tool prints after a probe that did not find
    the service in order *)
Definition probe_report (o : http_outcome) : list pystr :=
  match o with
  | Responded _ _ =>
      [u "   ⚠️  服务器连接异常";
       nl ++ u "💡 提示: 确保已启动服务器";
       u "   运行: python server.py"]
  | Failed e =>
      [u "   ❌ 无法连接到服务器";
       u "   错误: " ++ exn_text e;
       nl ++ u "💡 请先启动服务器:";
       u "   python server.py"]
  end.

(** The service answered the request with the status 200. *)
Definition answered_200 (o : http_outcome) : bool :=
  match o with
  | Responded st _ => (st =? 200)%Z
  | Failed _ => false
  end.

(** An event of a conversation with the user: a line printed or read *)
Definition converses (e : event) : Prop :=
  match e with
  | EPrint _ | EInput _ => True
  | _ => False
  end.

(** The answers that [get_yes_no] takes for a yes and for a no *)
Definition says_yes (line : pystr) : bool :=
  str_in (lower (strip line)) [u "y"; u "yes"; u "是"; u "1"].

Definition says_no (line : pystr) : bool :=
  str_in (lower (strip line)) [u "n"; u "no"; u "否"; u "0"].

(** A line that [get_yes_no] takes for an answer *)
Definition answers_yes_no (line : pystr) : bool := says_yes line || says_no line.

(** What [get_yes_no] prints and reads for one line that is no answer *)
Definition asked_again (prompt : pystr) (line : pystr) : list event :=
  [EInput prompt; EPrint (u "   ❌ 请输入 y/n (是/否)")].

(** A line of the list of URLs of a batch that is not blank, and the URL
    it stands for *)
Definition is_blank (line : pystr) : bool := negb (nonempty (strip line)).

Definition typed_url (line : pystr) : pystr := Interactive.format_url (strip line).

(** What the reader of the URLs of a batch prints and reads for the lines
    typed, [n] URLs having been kept so far *)
Fixpoint url_dialogue {RT : PyRuntime} (n : nat) (lines : list pystr) : list event :=
  match lines with
  | [] => []
  | l :: rest =>
      EInput (u "   [" ++ str_of_nat (n + 1) ++ u "] 网址: ") ::
      (if Interactive.validate_url (typed_url l)
       then url_dialogue (S n) rest
       else EPrint (u "   ❌ 网址格式无效，跳过: " ++ typed_url l) :: url_dialogue n rest)
  end.

(** A value that Python adds to an integer: an [int] or a [bool] *)
Definition is_number (j : json) : bool :=
  match j with
  | JInt _ | JBool _ => true
  | _ => false
  end.

Definition number_of (j : json) : Z :=
  match j with
  | JInt z => z
  | JBool true => 1
  | _ => 0
  end.

(** [r.get('time_ms', 0)] of a batch record *)
Definition time_ms_of (r : json) : json :=
  match r with
  | JObj kv => get_or kv (u "time_ms") (JInt 0)
  | _ => JNull
  end.

(** The record can be summed up: if it is a success, its time is a number. *)
Definition timed (r : json) : bool :=
  negb (has_status (u "success") r) || is_number (time_ms_of r).

(** The sum of the times of the successful records *)
Fixpoint total_time (results : list json) : Z :=
  match results with
  | [] => 0
  | r :: rest =>
      ((if has_status (u "success") r then number_of (time_ms_of r) else 0) +
       total_time rest)%Z
  end.

(** The lines of the summary of a batch: the three counts *)
Definition summary_counts (results : list json) : list pystr :=
  let n := length (filter (has_status (u "success")) results) in
  [nl ++ str_mul (u "=") 70;
   u "📊 批量刷新总结";
   str_mul (u "=") 70;
   nl ++ u "   总数: " ++ str_of_nat (length results);
   u "   ✅ 成功: " ++ str_of_nat n;
   u "   ❌ 失败: " ++ str_of_nat (length results - n)].

(** The average of the times of the successful records, rounded down *)
Definition average_line (results : list json) : pystr :=
  let n := length (filter (has_status (u "success")) results) in
  nl ++ u "   ⏱️  平均耗时: " ++ str_of_Z (total_time results / Z.of_nat n) ++ u "ms".

(** The total of the times of the successful records *)
Definition total_line {RT : PyRuntime} (results : list json) : pystr :=
  u "   总耗时: " ++ str_of_Z (total_time results) ++ u "ms (" ++
  format_ms_as_seconds (total_time results) ++ u " 秒)".

(** The lines of the summary of a batch: the counts and, when a record is
    a success, the average and the total of the times *)
Definition summary_lines {RT : PyRuntime} (results : list json) : list pystr :=
  summary_counts results ++
  (if 0 <? length (filter (has_status (u "success")) results)
   then [average_line results; total_line results]
   else []) ++
  [nl ++ str_mul (u "=") 70].

(** What [display_result] prints of the object [kv] down to the heading of
    the time: a default stands for a field that is absent, and the lines of
    the User-Agent are left out when it tests false. *)
Definition shown_before_time {RT : PyRuntime} (kv : dict) : list pystr :=
  [nl ++ str_mul (u "=") 70; u "✅ Cookie 刷新成功！"; str_mul (u "=") 70;
   nl ++ u "📌 目标网址信息:";
   u "   主机名: " ++ py_str (get_or kv (u "hostname") (JStr (u "N/A")));
   nl ++ u "🍪 Cookie 信息:";
   u "   总数: " ++ py_str (get_or kv (u "cookies_count") (JInt 0)) ++ u " 个"] ++
  (if truthy (get_or kv (u "user_agent") (JStr []))
   then [nl ++ u "🌐 User-Agent:";
         u "   " ++ py_str (get_or kv (u "user_agent") (JStr []))]
   else []) ++
  [nl ++ u "⏱️  性能:"].

(** The event concerns the URL [url]: a request carries it as its [url]
    parameter, a document written has it as its [url]. *)
Definition about (url : pystr) (e : event) : Prop :=
  match e with
  | ERequest _ _ params _ => param params (u "url") = url
  | EWrite _ document => field document (u "url") = JStr url
  | _ => True
  end.

(** * Properties *)

(** Splits a trace into the lines printed before the request, the request
    and the lines printed after it. *)
Ltac split_trace :=
  (eexists (cons _ (cons _ nil)) + eexists (cons _ (cons _ (cons _ nil))));
  (eexists (cons _ nil) + eexists (cons _ (cons _ nil)));
  split; [cbn [map app]; reflexivity|].


(** ** Strings *)

Lemma startswith_app (p s : pystr) : startswith (p ++ s) p = true.
Proof.
  induction p as [|c p IH]; simpl; [reflexivity|].
  now rewrite N.eqb_refl.
Qed.

Lemma str_eqb_refl (s : pystr) : str_eqb s s = true.
Proof.
  induction s as [|c s IH]; simpl; [reflexivity|].
  now rewrite N.eqb_refl.
Qed.


Lemma https_literal : u "https://" = [104; 116; 116; 112; 115; 58; 47; 47]%N.
Proof. reflexivity. Qed.

Lemma has_http_scheme_prepended (s : pystr) :
  has_http_scheme (u "https://" ++ s) = true.
Proof.
  unfold has_http_scheme. rewrite startswith_app. apply orb_true_r.
Qed.

Lemma format_url_eq (s : pystr) :
  Interactive.format_url s =
  if has_http_scheme s then s else u "https://" ++ s.
Proof.
  unfold Interactive.format_url, has_http_scheme, startswith_any.
  cbn [existsb]. rewrite orb_false_r.
  now destruct (startswith s (u "http://") || startswith s (u "https://")).
Qed.

(** The concrete [format_ms_as_seconds] on a few numbers, with the texts
    CPython prints for them: a quotient half-way between two tenths goes
    the way its double does. *)
Lemma seconds_model_samples :
  map seconds_model [0; 1; 49; 50; 51; 150; 250; 350; 450; 1500; 3501; -40; -150;
                     999949; 999950; 123456789012345678901234567890]%Z =
  [u "0.0"; u "0.0"; u "0.0"; u "0.1"; u "0.1"; u "0.1"; u "0.2"; u "0.3"; u "0.5";
   u "1.5"; u "3.5"; u "-0.0"; u "-0.1"; u "999.9"; u "1000.0";
   u "123456789012345678152597504.0"].
Proof. vm_compute. reflexivity. Qed.

(** The concrete [py_repr] on a value with quotes and control characters,
    with the text CPython prints for it *)
Lemma repr_model_sample :
  repr_model (JObj [(u "a", JList [JInt 1; JStr (u "x" ++ [34%N] ++ u "y");
                                   JStr (u "it's"); JNull; JBool true;
                                   JStr [9; 92; 7]%N]);
                    (u "b", JObj [])]) =
  u "{'a': [1, 'x" ++ [34%N] ++ u "y', " ++ [34%N] ++ u "it's" ++ [34%N] ++
  u ", None, True, '\t\\\x07'], 'b': {}}".
Proof. vm_compute. reflexivity. Qed.

(** ** C2: the URL normalizer *)

(** [main] of the simplified script normalizes in place, with the
    expression of [format_url]: a round that is given a URL goes on with
    the normalized one. *)
Lemma quick_main_round_normalizes {RT : PyRuntime} (line : pystr) (w : world) :
  str_in (lower (strip line)) [u "quit"; u "exit"; u "q"] = false ->
  nonempty (strip line) = true ->
  Quick.main_round (mkWorld (line :: stdin w) (network w) (clock w) (disk w)) =
  match Quick.refresh_round (Interactive.format_url (strip line))
          (mkWorld (stdin w) (network w) (clock w) (disk w)) with
  | (r, w', t) => (r, w', EInput (u "📌 输入网址 (或 'quit' 退出): ") :: t)
  end.
Proof.
  intros Hquit Hurl.
  unfold Quick.main_round, bind, input. cbn [stdin network clock disk].
  rewrite Hquit, Hurl. cbn [negb].
  unfold Interactive.format_url.
  now destruct (Quick.refresh_round _ _) as [[r w'] t].
Qed.

(** C2.  [format_url] prepends [https://], once, exactly when the string
    starts with neither [http://] nor [https://], and returns every string
    that starts with one of them unchanged.  The result always carries a
    scheme, so normalizing twice never adds a second prefix.  The simplified
    script's [main] applies the same normalization to what the user typed. *)
Theorem format_url_prepends_https_iff_no_scheme {RT : PyRuntime} (s : pystr) :
  (Interactive.format_url s = u "https://" ++ s <-> has_http_scheme s = false) /\
  (Interactive.format_url s = s <-> has_http_scheme s = true) /\
  has_http_scheme (Interactive.format_url s) = true /\
  Interactive.format_url (Interactive.format_url s) = Interactive.format_url s /\
  (forall w : world,
      str_in (lower (strip s)) [u "quit"; u "exit"; u "q"] = false ->
      nonempty (strip s) = true ->
      Quick.main_round (mkWorld (s :: stdin w) (network w) (clock w) (disk w)) =
      match Quick.refresh_round (Interactive.format_url (strip s))
              (mkWorld (stdin w) (network w) (clock w) (disk w)) with
      | (r, w', t) => (r, w', EInput (u "📌 输入网址 (或 'quit' 退出): ") :: t)
      end).
Proof.
  assert (L : forall x : pystr, x <> u "https://" ++ x).
  { intros x H. apply (f_equal (@length N)) in H.
    rewrite length_app, https_literal in H. simpl in H. lia. }
  assert (E : has_http_scheme s = true \/ has_http_scheme s = false)
    by (destruct (has_http_scheme s); auto).
  split; [|split; [|split; [|split]]].
  - rewrite format_url_eq.
    destruct E as [E|E]; rewrite E; split; intros H;
      try reflexivity; try discriminate.
    exfalso; exact (L _ H).
  - rewrite format_url_eq.
    destruct E as [E|E]; rewrite E; split; intros H;
      try reflexivity; try discriminate.
    exfalso; exact (L _ (eq_sym H)).
  - rewrite format_url_eq.
    destruct E as [E|E]; rewrite E; [exact E|apply has_http_scheme_prepended].
  - rewrite (format_url_eq s).
    destruct E as [E|E]; rewrite E; rewrite format_url_eq.
    + now rewrite E.
    + now rewrite has_http_scheme_prepended.
  - intros w. apply quick_main_round_normalizes.
Qed.

(** ** C3: URLs without a network location *)

(** X1.  In the full tool a URL whose normalized form has no network
    location fails [validate_url]; [refresh_single_url] and
    [view_cached_cookies] then print the complaint and return, and the
    batch reader reports the line and leaves it out: no request is sent
    for it. *)
Theorem url_without_netloc_is_rejected_by_full_tool
    {RT : PyRuntime} (server_url line : pystr) (w : world) (p : ParseResult) :
  nonempty (strip line) = true ->
  urlparse (Interactive.format_url (strip line)) = Ok p ->
  netloc p = [] ->
  Interactive.validate_url (Interactive.format_url (strip line)) = false /\
  Interactive.refresh_single_url server_url
      (mkWorld (line :: stdin w) (network w) (clock w) (disk w)) =
    (Ok tt, mkWorld (stdin w) (network w) (clock w) (disk w),
     [EPrint (nl ++ u "📝 请输入要刷新的网址:");
      EPrint (u "   例如: example.com 或 https://example.com");
      EInput (u "   网址: ");
      EPrint (u "   ❌ 网址格式无效: " ++ Interactive.format_url (strip line))]) /\
  Interactive.view_cached_cookies server_url
      (mkWorld (line :: stdin w) (network w) (clock w) (disk w)) =
    (Ok tt, mkWorld (stdin w) (network w) (clock w) (disk w),
     [EPrint (nl ++ u "📝 请输入要查看的网址:");
      EInput (u "   网址: ");
      EPrint (u "   ❌ 网址格式无效: " ++ Interactive.format_url (strip line))]) /\
  (forall (rest urls : list pystr),
      Interactive.collect_urls_from (line :: rest) urls =
      match Interactive.collect_urls_from rest urls with
      | (r, rest', t) =>
          (r, rest',
           EInput (u "   [" ++ str_of_nat (length urls + 1) ++ u "] 网址: ")
           :: EPrint (u "   ❌ 网址格式无效，跳过: " ++
                      Interactive.format_url (strip line))
           :: t)
      end).
Proof.
  intros Hline Hparse Hloc.
  assert (Hv : Interactive.validate_url (Interactive.format_url (strip line)) = false).
  { unfold Interactive.validate_url. rewrite Hparse, Hloc. apply andb_false_r. }
  split; [exact Hv|].
  split; [|split].
  - unfold Interactive.refresh_single_url, bind, print, emit, input.
    cbn [stdin network clock disk]. rewrite Hline, Hv. reflexivity.
  - unfold Interactive.view_cached_cookies, bind, print, emit, input.
    cbn [stdin network clock disk]. rewrite Hline, Hv. reflexivity.
  - intros rest urls. cbn [Interactive.collect_urls_from].
    rewrite Hline, Hv. reflexivity.
Qed.

Lemma url_without_netloc_is_rejected_by_full_tool_witness :
  Interactive.validate_url (RT := CPython) (u "https://") = false /\
  schedule (run_trace (Interactive.refresh_single_url (RT := CPython)
                         (u "http://localhost:8000")
                         (scripted [u "https://"] (fun _ => unreachable)))) = [].
Proof.
  pose proof (url_without_netloc_is_rejected_by_full_tool (RT := CPython)
                (u "http://localhost:8000") (u "https://")
                (scripted [] (fun _ => unreachable))
                (mkParse (u "https") [])
                eq_refl eq_refl eq_refl) as [Hv [Hs _]].
  split; [exact Hv|].
  change (scripted [u "https://"] (fun _ => unreachable)) with
    (mkWorld (u "https://" :: stdin (scripted [] (fun _ => unreachable)))
             (network (scripted [] (fun _ => unreachable)))
             (clock (scripted [] (fun _ => unreachable)))
             (disk (scripted [] (fun _ => unreachable)))).
  rewrite Hs. reflexivity.
Defined.

(** C3.  The simplified script run on the line [https://]: the text already
    carries a scheme, so it is kept as it is; its network location is
    empty, and [validate_url] of the full tool refuses it; yet the round of
    [main] only calls [urlparse], which does not raise, and goes on to send
    the refresh request for it. *)
Theorem quick_main_requests_url_without_netloc :
  urlparse (PyRuntime := CPython) (u "https://") = Ok (mkParse (u "https") []) /\
  Interactive.validate_url (RT := CPython) (u "https://") = false /\
  filter is_request
    (run_trace (Quick.main_round (RT := CPython)
                  (scripted [u "https://"; u "n"; u "n"] (fun _ => unreachable)))) =
  [ERequest POST (u "http://localhost:8000/cache/refresh")
            [(u "url", u "https://")] (Some 120%N)].
Proof. vm_compute. repeat split. Qed.

(** ** The simplified script sends the request whatever the network location *)

Lemma announced_request_is_sent {A : Type} (a b q : pystr) (c : bool)
    (endpoint : pystr) (params : list (pystr * pystr)) (tm : option N)
    (k : response -> M A) (w : world) :
  In (ERequest POST endpoint params tm)
     (run_trace ((print a ;; when c (print q) ;; print b ;;
                  resp <- request POST endpoint params tm ;; k resp) w)).
Proof.
  unfold bind, print, emit, when, ret, request, run_trace.
  destruct c; cbn [fst snd app];
    destruct (network w 0) as [st body|e]; cbn [fst snd app].
  all: try (destruct (k _ _) as [[r w2] t2]; cbn [fst snd app]).
  all: repeat (try (left; reflexivity); right).
Qed.

(** [refresh_and_display] never raises, and its trace holds the request. *)
Lemma quick_refresh_and_display_total {RT : PyRuntime} (url : pystr)
    (proxy : option pystr) (w : world) :
  exists b w' t,
    Quick.refresh_and_display url proxy w = (Ok b, w', t) /\
    In (ERequest POST (u "http://localhost:8000/cache/refresh")
                 (refresh_params url proxy) (Some 120%N)) t.
Proof.
  unfold Quick.refresh_and_display, try_except.
  match goal with
  | |- context [match ?body w with _ => _ end] =>
      pose proof (announced_request_is_sent _ _ _ _ _ _ _ _ w : 
                    In _ (run_trace (body w))) as Hin;
      destruct (body w) as [[r w1] t1]
  end.
  cbn [run_trace snd] in Hin.
  destruct r as [b|e].
  - exists b, w1, t1. auto.
  - destruct (exn_cls e); unfold bind, print, emit, ret; cbn [app];
      do 3 eexists; (split; [reflexivity|]); apply in_or_app; now left.
Qed.

(** A round of [main] on a URL that [urlparse] accepts, the user declining
    a proxy: the refresh request is sent, whether or not the URL has a
    network location. *)
Lemma quick_round_sends_request {RT : PyRuntime} (url line : pystr)
    (p : ParseResult) (w : world) :
  urlparse url = Ok p ->
  str_in (lower (strip line)) Quick.yes_words = false ->
  In (ERequest POST (u "http://localhost:8000/cache/refresh")
               [(u "url", url)] (Some 120%N))
     (run_trace (Quick.refresh_round url
                   (mkWorld (line :: stdin w) (network w) (clock w) (disk w)))).
Proof.
  intros Hp Hno.
  unfold Quick.refresh_round. rewrite Hp.
  unfold bind at 1. unfold input at 1. cbn [stdin network clock disk].
  rewrite Hno.
  unfold bind at 1. unfold ret at 1.
  unfold bind at 1.
  destruct (quick_refresh_and_display_total url None
              (mkWorld (stdin w) (network w) (clock w) (disk w)))
    as [b [w' [t [Hrun Hin]]]].
  rewrite Hrun.
  destruct (if b then _ else _) as [[r w2] t2].
  cbn [run_trace snd app]. right. apply in_or_app. now left.
Qed.

(** ** C4: answers other than 200 *)

(** C4.  When the service answers a refresh request with a status other
    than 200, [refresh_cookies] of the full tool returns [None] and
    [refresh_and_display] of the simplified script returns [False]; neither
    raises, whatever the body is.  Each prints at least one line after the
    request, and when the body is a JSON object that line shows its
    [detail], or the fallback text when there is none. *)
Theorem non_200_is_reported_and_returns_failure
    {RT : PyRuntime} (server_url url : pystr) (proxy : option pystr)
    (w : world) (st : Z) (body : res json) :
  network w 0 = Responded st body ->
  st <> 200%Z ->
  reports_failure
    (Interactive.refresh_cookies server_url url proxy w) JNull (sent w)
    (ERequest POST (server_url ++ u "/cache/refresh")
              (refresh_params url proxy) (Some 120%N))
    body
    (fun kv => [u "❌ 错误 (状态码: " ++ str_of_Z st ++ u ")";
                u "   " ++ py_str (detail_or_default kv)]) /\
  reports_failure
    (Quick.refresh_and_display url proxy w) false (sent w)
    (ERequest POST (u "http://localhost:8000/cache/refresh")
              (refresh_params url proxy) (Some 120%N))
    body
    (fun kv => [u "❌ 错误: " ++ py_str (detail_or_default kv)]).
Proof.
  intros Hnet Hst.
  apply Z.eqb_neq in Hst.
  unfold reports_failure.
  split.
  - unfold Interactive.refresh_cookies, try_except, bind, request, print, emit,
      when, resp_json, lift, ret, sent.
    destruct proxy as [[|c p]|]; cbn; rewrite Hnet; cbn; rewrite Hst.
    all: destruct body as [j|e]; [destruct j|destruct e as [[] txt]]; cbn.
    all: split_trace.
    all: split; [reflexivity|split; [discriminate|]].
    all: intros kv' E; inversion E; subst; reflexivity.
  - unfold Quick.refresh_and_display, try_except, bind, request, print, emit,
      when, resp_json, lift, ret, sent.
    destruct proxy as [[|c p]|]; cbn; rewrite Hnet; cbn; rewrite Hst.
    all: destruct body as [j|e]; [destruct j|destruct e as [[] txt]]; cbn.
    all: split_trace.
    all: split; [reflexivity|split; [discriminate|]].
    all: intros kv' E; inversion E; subst; reflexivity.
Qed.

Lemma non_200_is_reported_and_returns_failure_witness :
  reports_failure
    (Interactive.refresh_cookies (RT := CPython) (u "http://localhost:8000")
       (u "https://a.com") None (scripted [] (fun _ => rate_limited)))
    JNull (sent (scripted [] (fun _ => rate_limited)))
    (ERequest POST (u "http://localhost:8000" ++ u "/cache/refresh")
              (refresh_params (u "https://a.com") None) (Some 120%N))
    (Ok (JObj [(u "detail", JStr (u "rate limited"))]))
    (fun kv => [u "❌ 错误 (状态码: " ++ str_of_Z 429 ++ u ")";
                u "   " ++ py_str (detail_or_default kv)]) /\
  reports_failure
    (Quick.refresh_and_display (RT := CPython) (u "https://a.com") None
       (scripted [] (fun _ => rate_limited)))
    false (sent (scripted [] (fun _ => rate_limited)))
    (ERequest POST (u "http://localhost:8000/cache/refresh")
              (refresh_params (u "https://a.com") None) (Some 120%N))
    (Ok (JObj [(u "detail", JStr (u "rate limited"))]))
    (fun kv => [u "❌ 错误: " ++ py_str (detail_or_default kv)]).
Proof.
  apply (non_200_is_reported_and_returns_failure (RT := CPython)).
  - reflexivity.
  - discriminate.
Defined.

(** With that body the line printed is the detail itself. *)
Example rate_limited_is_shown :
  run_trace (Interactive.refresh_cookies (RT := CPython) (u "http://localhost:8000")
               (u "https://a.com") None (scripted [] (fun _ => rate_limited))) =
  [EPrint (nl ++ u "⏳ 正在刷新 https://a.com...");
   EPrint (u "   请稍候，这可能需要 10-30 秒..." ++ nl);
   ERequest POST (u "http://localhost:8000/cache/refresh")
            [(u "url", u "https://a.com")] (Some 120%N);
   EPrint (u "❌ 错误 (状态码: 429)");
   EPrint (u "   rate limited")] /\
  run_trace (Quick.refresh_and_display (RT := CPython)
               (u "https://a.com") None (scripted [] (fun _ => rate_limited))) =
  [EPrint (nl ++ u "⏳ 正在刷新 https://a.com...");
   EPrint (u "   请稍候..." ++ nl);
   ERequest POST (u "http://localhost:8000/cache/refresh")
            [(u "url", u "https://a.com")] (Some 120%N);
   EPrint (u "❌ 错误: rate limited")].
Proof. vm_compute. split; reflexivity. Qed.

(** ** C5: the cookie display *)




Lemma for_each_print {A : Type} (l : list A) (f : A -> pystr) (w : world) :
  for_each l (fun x => print (f x)) w = (Ok tt, w, map (fun x => EPrint (f x)) l).
Proof.
  induction l as [|x l IH]; cbn [for_each map]; [reflexivity|].
  unfold bind. change (print (f x) w) with (Ok tt, w, [EPrint (f x)]).
  cbv iota beta. rewrite IH. reflexivity.
Qed.





(** A value of 45 characters is cut after the 40th, and of seven other
    cookies five are listed and two counted. *)
Example display_cookies_long_value_and_many_others :
  run_trace
    (Interactive.display_cookies (RT := CPython) (u "https://example.com")
       [(u "__cf_bm", u "012345678901234567890123456789012345678901234");
        (u "a", u "1"); (u "b", u "2"); (u "c", u "3"); (u "d", u "4");
        (u "e", u "5"); (u "f", u "6"); (u "g", u "7")]
       (scripted [] (fun _ => unreachable))) =
  map EPrint
    [nl ++ str_mul (u "=") 70; u "🍪 获取的 Cookie 详情"; str_mul (u "=") 70;
     nl ++ u "📌 网址: example.com";
     u "   总 Cookie 数: 8" ++ nl;
     u "🔐 Cloudflare Cookie:";
     u "   • __cf_bm: 0123456789012345678901234567890123456789...";
     nl ++ u "📦 其他 Cookie (7 个):";
     u "   • a: 1"; u "   • b: 2"; u "   • c: 3"; u "   • d: 4"; u "   • e: 5";
     u "   ... 还有 2 个";
     nl ++ str_mul (u "=") 70].
Proof. reflexivity. Qed.

(** ** The cookie display on what the service answers *)

Lemma str_items_map (kv : dict) :
  forall d, str_items kv = Some d -> kv = map as_json d.
Proof.
  induction kv as [|[k v] kv IH]; intros d H; cbn [str_items] in H.
  - now inversion H.
  - destruct v as [| | |s| |]; try discriminate H.
    destruct (str_items kv) as [d'|]; [|discriminate H].
    inversion H; subst. cbn [map]. now rewrite (IH d' eq_refl).
Qed.

Lemma dict_set_as_json (acc : list (pystr * pystr)) (k v : pystr) :
  dict_set (map as_json acc) k (JStr v) = map as_json (dict_set acc k v).
Proof.
  induction acc as [|[k' v'] acc IH]; [reflexivity|].
  cbn [map dict_set as_json fst snd].
  destruct (str_eqb k' k); [reflexivity|].
  cbn [map as_json fst snd]. now rewrite IH.
Qed.

Lemma classify_items_as_json (d : list (pystr * pystr)) :
  Interactive.classify_items (map as_json d) =
  (map as_json (fst (Interactive.classify d)),
   map as_json (snd (Interactive.classify d))).
Proof.
  unfold Interactive.classify_items, Interactive.classify.
  change (@nil (pystr * json)) with (map as_json []).
  generalize (@nil (pystr * pystr)) at 1 3 5.
  generalize (@nil (pystr * pystr)).
  induction d as [|[k v] d IH]; intros b a; [reflexivity|].
  cbn [map fold_left as_json fst snd].
  destruct (Interactive.is_cf k).
  - rewrite dict_set_as_json. apply IH.
  - rewrite dict_set_as_json. apply IH.
Qed.

Lemma preview_of_str {RT : PyRuntime} (v : pystr) :
  Interactive.preview_of (JStr v) = Ok (Interactive.value_preview v).
Proof.
  unfold Interactive.preview_of, Interactive.value_preview.
  cbn [py_len py_slice_to py_str].
  now destruct (40 <? length v).
Qed.

Lemma print_cookies_as_json {RT : PyRuntime} (l : list (pystr * pystr)) :
  forall w,
    for_each (map as_json l) Interactive.print_cookie w =
    (Ok tt, w, map (fun item => EPrint (Interactive.cookie_line item)) l).
Proof.
  induction l as [|[k v] l IH]; intros w; [reflexivity|].
  assert (Hone : Interactive.print_cookie (as_json (k, v)) w =
                 (Ok tt, w, [EPrint (Interactive.cookie_line (k, v))])).
  { unfold Interactive.print_cookie, bind, lift. cbn [as_json fst snd].
    now rewrite preview_of_str. }
  cbn [map for_each]. unfold bind. rewrite Hone, IH. reflexivity.
Qed.

(** On a [cookies] object whose values are all strings, [display_cookies]
    on values of any type is the display on a [Dict[str, str]]. *)
Lemma display_cookies_untyped_on_strings {RT : PyRuntime} (url : pystr)
    (kv : dict) (d : list (pystr * pystr)) (w : world) :
  str_items kv = Some d ->
  Interactive.display_cookies_untyped url (JObj kv) w =
  Interactive.display_cookies url d w.
Proof.
  intros H. apply str_items_map in H. subst kv.
  unfold Interactive.display_cookies_untyped, Interactive.display_cookies.
  cbv zeta. cbn [py_len py_items].
  unfold bind, lift, when, ret.
  destruct (urlparse url) as [p|e]; [|reflexivity].
  repeat (change (print ?x ?w) with (Ok tt, w, [EPrint x])).
  cbv iota beta.
  rewrite classify_items_as_json. cbn [fst snd].
  rewrite !length_map.
  set (cf := fst (Interactive.classify d)).
  set (other := snd (Interactive.classify d)).
  replace (nonempty (map as_json cf)) with (nonempty cf) by now destruct cf.
  replace (nonempty (map as_json other)) with (nonempty other) by now destruct other.
  rewrite firstn_map.
  destruct (nonempty cf), (nonempty other).
  all: repeat (change (print ?x ?w) with (Ok tt, w, [EPrint x])); cbv iota beta.
  all: rewrite ?print_cookies_as_json, ?for_each_print; cbv iota beta.
  all: rewrite ?print_cookies_as_json, ?for_each_print; cbv iota beta.
  all: try destruct (5 <? length other).
  all: repeat (change (print ?x ?w) with (Ok tt, w, [EPrint x])); reflexivity.
Qed.

(** The display on values that are no strings: a list of a few items is
    printed as it is, a number stops the display at its line, and a
    [cookies] that is a list stops it after the count. *)
Lemma display_cookies_untyped_samples :
  Interactive.show_cookies (RT := CPython) (u "https://a.com")
    (JObj [(u "cookies", JObj [(u "a", JList [JInt 1; JInt 2]); (u "b", JInt 7)])])
    (scripted [] (fun _ => unreachable)) =
  (Raised (mkExn TypeError (u "object of type 'int' has no len()")),
   scripted [] (fun _ => unreachable),
   map EPrint
     [nl ++ str_mul (u "=") 70; u "🍪 获取的 Cookie 详情"; str_mul (u "=") 70;
      nl ++ u "📌 网址: a.com";
      u "   总 Cookie 数: 2" ++ nl;
      nl ++ u "📦 其他 Cookie (2 个):";
      u "   • a: [1, 2]"]) /\
  Interactive.show_cookies (RT := CPython) (u "https://a.com")
    (JObj [(u "cookies", JList [JInt 1])])
    (scripted [] (fun _ => unreachable)) =
  (Raised (mkExn AttributeError (u "'list' object has no attribute 'items'")),
   scripted [] (fun _ => unreachable),
   map EPrint
     [nl ++ str_mul (u "=") 70; u "🍪 获取的 Cookie 详情"; str_mul (u "=") 70;
      nl ++ u "📌 网址: a.com";
      u "   总 Cookie 数: 1" ++ nl]).
Proof. split; vm_compute; reflexivity. Qed.

(** ** The refresh client of the full tool and the batch loop *)

Lemma schedule_app (t1 t2 : list event) :
  schedule (t1 ++ t2) = schedule t1 ++ schedule t2.
Proof.
  induction t1 as [|e t1 IH]; [reflexivity|].
  destruct e as [| |m ? ? ?| |]; try destruct m; cbn [schedule app]; rewrite IH; reflexivity.
Qed.

Lemma param_url (url : pystr) (proxy : option pystr) :
  param (refresh_params url proxy) (u "url") = url.
Proof. destruct proxy as [[|c p]|]; reflexivity. Qed.

(** [refresh_cookies] always returns: it sends one request and hands back
    the body of a 200 answer, [None] in every other case. *)
Lemma refresh_cookies_run {RT : PyRuntime} (server_url url : pystr)
    (proxy : option pystr) (w : world) :
  exists t,
    Interactive.refresh_cookies server_url url proxy w =
      (Ok (answer (network w 0)), sent w, t) /\
    schedule t = [Call url].
Proof.
  unfold Interactive.refresh_cookies, try_except, bind, request, print, emit,
    when, resp_json, lift, ret, sent, answer.
  destruct proxy as [[|c p]|]; cbn.
  all: destruct (network w 0) as [st [j|e]|e]; cbn.
  all: try (destruct (st =? 200)%Z; cbn).
  all: try (destruct j; cbn).
  all: try (destruct e as [[] txt]; cbn).
  all: eexists; split; [reflexivity|reflexivity].
Qed.

Lemma is_success_answer (o : http_outcome) :
  well_formed o = true -> is_success (answer o) = Ok (succeeded (answer o)).
Proof.
  unfold well_formed, is_success.
  destruct (answer o) as [|b|z|s|l|kv]; cbn [truthy is_obj succeeded py_get];
    intros H.
  - reflexivity.
  - rewrite orb_false_r in H. apply negb_true_iff in H. now rewrite H.
  - rewrite orb_false_r in H. apply negb_true_iff in H. now rewrite H.
  - destruct s; [reflexivity|discriminate].
  - destruct l; [reflexivity|discriminate].
  - destruct kv as [|item kv]; [reflexivity|].
    now destruct (dict_lookup (item :: kv) (u "status")).
Qed.

Lemma succeeded_obj (j : json) :
  succeeded j = true -> exists kv, j = JObj kv.
Proof. destruct j; try discriminate. eauto. Qed.

Lemma batch_loop_run {RT : PyRuntime} (server_url : pystr) (proxy : option pystr)
    (urls : list pystr) :
  forall (total i : nat) (results : list json) (w : world),
    (forall url, In url urls -> exists p, urlparse url = Ok p) ->
    (forall k, k < length urls -> well_formed (network w k) = true) ->
    exists t,
      Interactive.batch_loop server_url total i urls proxy results w =
        (Ok (results ++ records urls (network w)), sent_n (length urls) w, t) /\
      schedule t = paced_from total i urls.
Proof.
  induction urls as [|url rest IH]; intros total i results w Hurls Hnet.
  - exists []. cbn. now rewrite app_nil_r.
  - destruct (Hurls url (or_introl eq_refl)) as [p Hp].
    destruct (refresh_cookies_run server_url url proxy w) as [tr [Hr Hsr]].
    pose proof (is_success_answer (network w 0) (Hnet 0 ltac:(cbn; lia))) as Hs.
    specialize (IH total (S i) (results ++ [record_of url (answer (network w 0))])
                  (sent w)
                  (fun x Hx => Hurls x (or_intror Hx))
                  (fun k Hk => Hnet (S k) ltac:(cbn; lia))).
    destruct IH as [t' [HI Hst']].
    cbn [Interactive.batch_loop].
    unfold bind at 1. unfold lift at 1. rewrite Hp.
    unfold bind at 1. change (print ?x ?w) with (Ok tt, w, [EPrint x]). cbv iota beta.
    unfold bind at 1. rewrite Hr.
    unfold bind at 1. unfold lift at 1. rewrite Hs.
    unfold record_of in HI.
    destruct (succeeded (answer (network w 0))) eqn:Esucc.
    + destruct (succeeded_obj _ Esucc) as [kv Ekv]. rewrite Ekv in *.
      unfold bind, lift, when, ret, sleep, print, emit, py_get in *.
      cbn [field] in HI.
      destruct (i <? total) eqn:Elt; cbv iota beta; rewrite HI;
        eexists; (split; [cbn [records length sent_n]; unfold record_of;
                          rewrite Ekv, Esucc; cbn [field];
                          rewrite <- app_assoc; reflexivity|]).
      all: rewrite ?schedule_app, Hsr, Hst'; cbn [paced_from]; rewrite Elt;
        reflexivity.
    + unfold bind, lift, when, ret, sleep, print, emit in *.
      destruct (i <? total) eqn:Elt; cbv iota beta; rewrite HI;
        eexists; (split; [cbn [records length sent_n]; unfold record_of;
                          rewrite Esucc;
                          rewrite <- app_assoc; reflexivity|]).
      all: rewrite ?schedule_app, Hsr, Hst'; cbn [paced_from]; rewrite Elt;
        reflexivity.
Qed.

(** ** C1: the calls and pauses of a batch *)

Lemma paced_from_top (urls : list pystr) :
  forall i, paced_from (i + length urls - 1) i urls = paced urls.
Proof.
  induction urls as [|url rest IH]; intros i; [reflexivity|].
  destruct rest as [|url' rest'].
  - cbn [paced_from paced length].
    replace (i <? i + 1 - 1) with false by (symmetry; apply Nat.ltb_ge; lia).
    reflexivity.
  - change (paced (url :: url' :: rest'))
      with (Call url :: Pause 2 :: paced (url' :: rest')).
    rewrite <- (IH (S i)).
    cbn [paced_from length].
    replace (i <? i + S (S (length rest')) - 1) with true
      by (symmetry; apply Nat.ltb_lt; lia).
    replace (S i + S (length rest') - 1) with (i + S (S (length rest')) - 1) by lia.
    reflexivity.
Qed.

Lemma paced_calls (urls : list pystr) :
  filter is_call (paced urls) = map Call urls.
Proof.
  induction urls as [|url [|url' rest] IH]; try reflexivity.
  change (paced (url :: url' :: rest)) with (Call url :: Pause 2 :: paced (url' :: rest)).
  cbn [filter is_call map]. now rewrite IH.
Qed.

Lemma paced_pauses (urls : list pystr) :
  filter is_pause (paced urls) = repeat (Pause 2) (length urls - 1).
Proof.
  induction urls as [|url [|url' rest] IH]; try reflexivity.
  change (paced (url :: url' :: rest)) with (Call url :: Pause 2 :: paced (url' :: rest)).
  cbn [filter is_pause]. rewrite IH. cbn [length]. 
  replace (S (S (length rest)) - 1) with (S (S (length rest) - 1)) by lia.
  reflexivity.
Qed.

Lemma paced_after_each_calls (urls : list pystr) :
  filter is_call (paced_after_each urls) = map Call urls.
Proof.
  induction urls as [|url rest IH]; [reflexivity|].
  cbn [paced_after_each filter is_call map]. now rewrite IH.
Qed.

Lemma paced_after_each_pauses (urls : list pystr) :
  filter is_pause (paced_after_each urls) = repeat (Pause 2) (length urls).
Proof.
  induction urls as [|url rest IH]; [reflexivity|].
  cbn [paced_after_each filter is_pause length repeat]. now rewrite IH.
Qed.

(** [CacheFreshener.refresh_cookies] always returns too. *)
Lemma example_refresh_cookies_run {RT : PyRuntime} (server_url url : pystr)
    (proxy : option pystr) (w : world) :
  exists t,
    Example.refresh_cookies server_url url proxy w =
      (Ok (answer (network w 0)), sent w, t) /\
    schedule t = [Call url].
Proof.
  unfold Example.refresh_cookies, try_except, bind, request, print, emit,
    when, resp_json, lift, ret, sent, answer.
  destruct proxy as [[|c p]|]; cbn.
  all: destruct (network w 0) as [st [j|e]|e]; cbn.
  all: try (destruct (st =? 200)%Z; cbn).
  all: try (destruct j; cbn).
  all: eexists; split; [reflexivity|reflexivity].
Qed.

Lemma demo_loop_run {RT : PyRuntime} (urls : list pystr) :
  forall w : world,
    (forall k, k < length urls -> demo_readable (network w k) = true) ->
    exists t,
      Example.demo_loop urls w = (Ok tt, sent_n (length urls) w, t) /\
      schedule t = paced_after_each urls.
Proof.
  induction urls as [|url rest IH]; intros w Hnet.
  - exists []. split; reflexivity.
  - destruct (example_refresh_cookies_run Example.default_server_url url None w)
      as [tr [Hr Hsr]].
    pose proof (Hnet 0 ltac:(cbn; lia)) as H0.
    destruct (IH (sent w) (fun k Hk => Hnet (S k) ltac:(cbn; lia))) as [t' [HI Hst']].
    cbn [Example.demo_loop].
    unfold bind at 1. change (print ?x ?w) with (Ok tt, w, [EPrint x]). cbv iota beta.
    unfold bind at 1. rewrite Hr.
    unfold demo_readable in H0.
    destruct (answer (network w 0)) as [|b|z|s|l|kv].
    6: destruct kv as [|item kv].
    7: destruct (dict_lookup (item :: kv) (u "status")) as [s|] eqn:Es; [|discriminate].
    7: destruct (eq_str s (u "success")) eqn:Esucc.
    7: destruct (dict_lookup (item :: kv) (u "cookies_count")) as [cc|] eqn:Ecc;
         [|discriminate].
    7: destruct (dict_lookup (item :: kv) (u "generation_time_ms")) as [gt|] eqn:Egt;
         [|discriminate].
    all: cbn [truthy negb orb] in H0.
    all: try (destruct b; try discriminate).
    all: try (destruct s; try discriminate).
    all: try (destruct l; try discriminate).
    all: try (apply negb_true_iff in H0).
    all: unfold bind, lift, is_success_item, py_getitem, ret, sleep, print, emit.
    all: cbn [truthy]; rewrite ?H0, ?Es, ?Esucc, ?Ecc, ?Egt; cbv iota beta.
    all: rewrite HI; cbv iota beta.
    all: eexists; (split; [reflexivity|]).
    all: rewrite ?schedule_app, Hsr, Hst'; reflexivity.
Qed.

Lemma validate_url_parses {RT : PyRuntime} (url : pystr) :
  Interactive.validate_url url = true -> exists p, urlparse url = Ok p.
Proof.
  unfold Interactive.validate_url.
  destruct (urlparse url) as [p|e]; [eauto|discriminate].
Qed.

(** The URLs that the reader of [batch_refresh] keeps all pass
    [validate_url]. *)
Lemma collected_urls_are_valid {RT : PyRuntime} (lines : list pystr) :
  forall urls0 urls rest t,
    Interactive.collect_urls_from lines urls0 = (Ok urls, rest, t) ->
    Forall (fun url => Interactive.validate_url url = true) urls0 ->
    Forall (fun url => Interactive.validate_url url = true) urls.
Proof.
  induction lines as [|l lines IH]; intros urls0 urls rest t H H0;
    cbn [Interactive.collect_urls_from] in H; [discriminate|].
  destruct (negb (nonempty (strip l))).
  - now inversion H; subst.
  - destruct (Interactive.validate_url (Interactive.format_url (strip l))) eqn:E.
    + destruct (Interactive.collect_urls_from lines _) as [[r rest'] t'] eqn:E'.
      inversion H; subst.
      apply (IH _ _ _ _ E'). apply Forall_app. split; [exact H0|].
      now constructor.
    + destruct (Interactive.collect_urls_from lines _) as [[r rest'] t'] eqn:E'.
      inversion H; subst. now apply (IH _ _ _ _ E').
Qed.

(** The loop of [batch_refresh] over valid URLs, the service keeping to its
    contract *)
Lemma batch_loop_paced {RT : PyRuntime} (server_url : pystr) (proxy : option pystr)
    (urls : list pystr) (w : world) :
  Forall (fun url => Interactive.validate_url url = true) urls ->
  (forall k, k < length urls -> well_formed (network w k) = true) ->
  exists results t,
    Interactive.batch_loop server_url (length urls) 1 urls proxy [] w =
      (Ok results, sent_n (length urls) w, t) /\
    schedule t = paced urls.
Proof.
  intros Hvalid Hnet.
  destruct (batch_loop_run server_url proxy urls (length urls) 1 [] w)
    as [t [Hrun Hs]]; [|exact Hnet|].
  - intros url Hin. apply validate_url_parses.
    rewrite Forall_forall in Hvalid. now apply Hvalid.
  - exists (records urls (network w)), t. split; [now cbn [app] in Hrun|].
    rewrite Hs, <- (paced_from_top urls 1). f_equal. lia.
Qed.

(** C1 (as amended).  Over valid URLs, and as long as the body of each 200
    answer is a JSON object or a value that tests false, the loop of
    [batch_refresh] calls the refresh client once per URL, in order,
    pausing two seconds between consecutive calls and not after the last
    one: one pause fewer than calls.  The loop of [demo_multiple_refreshes],
    as long as the body of each 200 answer tests false or is a JSON object
    that has a [status] and, when that is [success], a [cookies_count] and
    a [generation_time_ms], also calls once per URL in order, but pauses
    two seconds after every call, the last one included. *)
Theorem batch_pauses_between_calls_demo_after_each_call
    {RT : PyRuntime} (server_url : pystr) (proxy : option pystr)
    (urls : list pystr) (w : world) :
  (Forall (fun url => Interactive.validate_url url = true) urls ->
   (forall k, k < length urls -> well_formed (network w k) = true) ->
   exists results t,
     Interactive.batch_loop server_url (length urls) 1 urls proxy [] w =
       (Ok results, sent_n (length urls) w, t) /\
     schedule t = paced urls /\
     filter is_call (schedule t) = map Call urls /\
     filter is_pause (schedule t) = repeat (Pause 2) (length urls - 1)) /\
  ((forall k, k < length urls -> demo_readable (network w k) = true) ->
   exists t,
     Example.demo_loop urls w = (Ok tt, sent_n (length urls) w, t) /\
     schedule t = paced_after_each urls /\
     filter is_call (schedule t) = map Call urls /\
     filter is_pause (schedule t) = repeat (Pause 2) (length urls)).
Proof.
  split.
  - intros Hvalid Hnet.
    destruct (batch_loop_paced server_url proxy urls w Hvalid Hnet)
      as [results [t [Hrun Hs]]].
    exists results, t. rewrite Hs, paced_calls, paced_pauses. auto.
  - intros Hnet.
    destruct (demo_loop_run urls w Hnet) as [t [Hrun Hs]].
    exists t. rewrite Hs, paced_after_each_calls, paced_after_each_pauses. auto.
Qed.

Lemma batch_pauses_between_calls_demo_after_each_call_witness :
  schedule
    (run_trace (Interactive.batch_loop (RT := CPython) (u "http://localhost:8000")
                  2 1 [u "https://a.com"; u "https://b.com"] None []
                  (scripted [] success_then_unreachable))) =
  [Call (u "https://a.com"); Pause 2; Call (u "https://b.com")] /\
  schedule
    (run_trace (Example.demo_loop (RT := CPython)
                  [u "https://a.com"; u "https://b.com"]
                  (scripted [] success_then_unreachable))) =
  [Call (u "https://a.com"); Pause 2; Call (u "https://b.com"); Pause 2].
Proof.
  destruct (batch_pauses_between_calls_demo_after_each_call (RT := CPython)
              (u "http://localhost:8000") None
              [u "https://a.com"; u "https://b.com"]
              (scripted [] success_then_unreachable)) as [Hbatch Hdemo].
  split.
  - destruct Hbatch as [results [t [Hrun [Hs _]]]].
    + repeat constructor.
    + intros [|[|k]] Hk; [reflexivity|reflexivity|cbn in Hk; lia].
    + cbn [length] in Hrun. rewrite Hrun. exact Hs.
  - destruct Hdemo as [t [Hrun [Hs _]]].
    + intros [|[|k]] Hk; [reflexivity|reflexivity|cbn in Hk; lia].
    + rewrite Hrun. exact Hs.
Defined.

(** Runs that the claim as first stated leaves out.
    [demo_multiple_refreshes] on its own two URLs, the service being out of
    reach: it pauses after the second, last call as well, twice in all.
    The loop of [batch_refresh] over two valid URLs when the service
    answers 200 with a JSON list that is not empty: [result.get] raises
    [AttributeError] after the first call and the second URL is never
    refreshed.  The loop of the demo over the same URLs is cut short after
    its first call, before any pause, when the service answers 200 with
    an object that has no [status] ([KeyError]), with such a list
    ([TypeError]), or with a success that lacks its [cookies_count] or its
    [generation_time_ms] ([KeyError]). *)
Lemma pause_after_last_call_and_loops_cut_short :
  (schedule
     (run_trace (Example.demo_multiple_refreshes (RT := CPython)
                   (scripted [] (fun _ => unreachable)))) =
   [Call (u "https://example.com"); Pause 2;
    Call (u "https://test-site.com"); Pause 2] /\
   schedule
     (run_trace (Example.demo_multiple_refreshes (RT := CPython)
                   (scripted [] (fun _ => unreachable)))) <>
   paced Example.demo_urls) /\
  (Forall (fun url => Interactive.validate_url (RT := CPython) url = true)
          [u "https://a.com"; u "https://b.com"] /\
   well_formed (Responded 200 (Ok (JList [JInt 1]))) = false /\
   Interactive.batch_loop (RT := CPython) (u "http://localhost:8000") 2 1
     [u "https://a.com"; u "https://b.com"] None []
     (scripted [] (fun _ => Responded 200 (Ok (JList [JInt 1])))) =
   (Raised (mkExn AttributeError (u "'list' object has no attribute 'get'")),
    sent (scripted [] (fun _ => Responded 200 (Ok (JList [JInt 1])))),
    [EPrint (nl ++ u "[1/2] 正在处理: a.com");
     EPrint (nl ++ u "⏳ 正在刷新 https://a.com...");
     EPrint (u "   请稍候，这可能需要 10-30 秒..." ++ nl);
     ERequest POST (u "http://localhost:8000/cache/refresh")
              [(u "url", u "https://a.com")] (Some 120%N)])) /\
  (demo_readable (Responded 200 (Ok (JObj [(u "state", JStr (u "ok"))]))) = false /\
   Example.demo_loop (RT := CPython) [u "https://a.com"; u "https://b.com"]
     (scripted [] (fun _ => Responded 200 (Ok (JObj [(u "state", JStr (u "ok"))])))) =
   (Raised (mkExn KeyError (u "'status'")),
    sent (scripted [] (fun _ => Responded 200 (Ok (JObj [(u "state", JStr (u "ok"))])))),
    [EPrint (nl ++ u "📌 正在刷新: https://a.com");
     ERequest POST (u "http://localhost:8000/cache/refresh")
              [(u "url", u "https://a.com")] None])) /\
  (demo_readable (Responded 200 (Ok (JList [JInt 1]))) = false /\
   Example.demo_loop (RT := CPython) [u "https://a.com"; u "https://b.com"]
     (scripted [] (fun _ => Responded 200 (Ok (JList [JInt 1])))) =
   (Raised (mkExn TypeError (u "list indices must be integers or slices, not str")),
    sent (scripted [] (fun _ => Responded 200 (Ok (JList [JInt 1])))),
    [EPrint (nl ++ u "📌 正在刷新: https://a.com");
     ERequest POST (u "http://localhost:8000/cache/refresh")
              [(u "url", u "https://a.com")] None])) /\
  (demo_readable
     (Responded 200 (Ok (JObj [(u "status", JStr (u "success"));
                               (u "generation_time_ms", JInt 1500)]))) = false /\
   Example.demo_loop (RT := CPython) [u "https://a.com"; u "https://b.com"]
     (scripted []
        (fun _ => Responded 200 (Ok (JObj [(u "status", JStr (u "success"));
                                           (u "generation_time_ms", JInt 1500)])))) =
   (Raised (mkExn KeyError (u "'cookies_count'")),
    sent (scripted []
            (fun _ => Responded 200 (Ok (JObj [(u "status", JStr (u "success"));
                                               (u "generation_time_ms", JInt 1500)])))),
    [EPrint (nl ++ u "📌 正在刷新: https://a.com");
     ERequest POST (u "http://localhost:8000/cache/refresh")
              [(u "url", u "https://a.com")] None])) /\
  (demo_readable
     (Responded 200 (Ok (JObj [(u "status", JStr (u "success"));
                               (u "cookies_count", JInt 5)]))) = false /\
   Example.demo_loop (RT := CPython) [u "https://a.com"; u "https://b.com"]
     (scripted []
        (fun _ => Responded 200 (Ok (JObj [(u "status", JStr (u "success"));
                                           (u "cookies_count", JInt 5)])))) =
   (Raised (mkExn KeyError (u "'generation_time_ms'")),
    sent (scripted []
            (fun _ => Responded 200 (Ok (JObj [(u "status", JStr (u "success"));
                                               (u "cookies_count", JInt 5)])))),
    [EPrint (nl ++ u "📌 正在刷新: https://a.com");
     ERequest POST (u "http://localhost:8000/cache/refresh")
              [(u "url", u "https://a.com")] None])).
Proof.
  split; [|split; [|split; [|split; [|split]]]].
  - split; [reflexivity|]. vm_compute. discriminate.
  - split; [|split].
    + repeat constructor.
    + reflexivity.
    + vm_compute. reflexivity.
  - split; vm_compute; reflexivity.
  - split; vm_compute; reflexivity.
  - split; vm_compute; reflexivity.
  - split; vm_compute; reflexivity.
Qed.

(** ** The whole of [batch_refresh] *)

Lemma run_bind {A B : Type} (m : M A) (f : A -> M B) (w : world) :
  bind m f w =
  match run_result (m w) with
  | Ok a =>
      (run_result (f a (run_world (m w))),
       run_world (f a (run_world (m w))),
       run_trace (m w) ++ run_trace (f a (run_world (m w))))
  | Raised e => (Raised e, run_world (m w), run_trace (m w))
  end.
Proof.
  unfold bind, run_result, run_world, run_trace.
  destruct (m w) as [[[a|e] w1] t1]; cbn [fst snd]; [|reflexivity].
  now destruct (f a w1) as [[r w2] t2].
Qed.

Lemma offline_ret {A : Type} (a : A) : offline (ret a).
Proof. intros w. now split. Qed.

Lemma offline_lift {A : Type} (r : res A) : offline (lift r).
Proof. intros w. now split. Qed.

Lemma offline_print (s : pystr) : offline (print s).
Proof. intros w. now split. Qed.

Lemma offline_input (prompt : pystr) : offline (input prompt).
Proof. intros w. unfold input. now destruct (stdin w). Qed.

Lemma offline_now : offline now.
Proof. intros w. now split. Qed.

Lemma offline_write_json (filename : pystr) (document : json) :
  offline (write_json filename document).
Proof. intros w. unfold write_json. now destruct (disk w 0). Qed.

Lemma offline_bind {A B : Type} (m : M A) (f : A -> M B) :
  offline m -> (forall a, offline (f a)) -> offline (bind m f).
Proof.
  intros Hm Hf w. rewrite run_bind.
  destruct (Hm w) as [Hs Hn].
  destruct (run_result (m w)) as [a|e]; cbn [run_trace run_world fst snd].
  - destruct (Hf a (run_world (m w))) as [Hs' Hn'].
    rewrite schedule_app, Hs, Hs', Hn', Hn. now split.
  - now split.
Qed.

Lemma offline_try_except {A : Type} (m : M A) (h : exn -> M A) :
  offline m -> (forall e, offline (h e)) -> offline (try_except m h).
Proof.
  intros Hm Hh w. unfold try_except.
  destruct (Hm w) as [Hs Hn].
  destruct (m w) as [[[a|e] w1] t1]; cbn [run_trace run_world fst snd] in *.
  - now split.
  - destruct (Hh e w1) as [Hs' Hn'].
    destruct (h e w1) as [[r w2] t2]; cbn [run_trace run_world fst snd] in *.
    rewrite schedule_app, Hs, Hs', Hn', Hn. now split.
Qed.

Lemma offline_when (c : bool) (m : M unit) : offline m -> offline (when c m).
Proof. destruct c; [trivial|intros _; apply offline_ret]. Qed.

Lemma offline_get_yes_no (prompt : pystr) : offline (Interactive.get_yes_no prompt).
Proof.
  intros w. unfold Interactive.get_yes_no.
  assert (H : forall lines,
             schedule (snd (Interactive.get_yes_no_from prompt lines)) = []).
  { induction lines as [|l lines IH]; cbn [Interactive.get_yes_no_from];
      [reflexivity|].
    destruct (str_in _ _); [reflexivity|].
    destruct (str_in _ _); [reflexivity|].
    now destruct (Interactive.get_yes_no_from prompt lines) as [[r rest] t]. }
  specialize (H (stdin w)).
  now destruct (Interactive.get_yes_no_from prompt (stdin w)) as [[r rest] t].
Qed.

Lemma offline_collect_urls {RT : PyRuntime} : offline Interactive.collect_urls.
Proof.
  intros w. unfold Interactive.collect_urls.
  assert (H : forall lines urls,
             schedule (snd (Interactive.collect_urls_from lines urls)) = []).
  { induction lines as [|l lines IH]; intros urls;
      cbn [Interactive.collect_urls_from]; [reflexivity|].
    destruct (negb (nonempty (strip l))); [reflexivity|].
    destruct (Interactive.validate_url _).
    - specialize (IH (urls ++ [Interactive.format_url (strip l)])).
      now destruct (Interactive.collect_urls_from lines _) as [[r rest] t].
    - specialize (IH urls).
      now destruct (Interactive.collect_urls_from lines _) as [[r rest] t]. }
  specialize (H (stdin w) []).
  now destruct (Interactive.collect_urls_from (stdin w) []) as [[r rest] t].
Qed.

Create HintDb offline.
#[export] Hint Resolve offline_ret offline_lift offline_print offline_input
  offline_now offline_write_json offline_when offline_get_yes_no : offline.

Ltac offline :=
  cbv zeta;
  repeat first
    [ apply offline_bind; [|intro]
    | apply offline_try_except; [|intro]
    | apply offline_when
    | match goal with
      | |- offline (if ?c then _ else _) => destruct c
      | |- offline (match ?x with _ => _ end) => destruct x
      end
    | solve [auto with offline] ].

Lemma offline_ask_batch_proxy : offline Interactive.ask_batch_proxy.
Proof. unfold Interactive.ask_batch_proxy. offline. Qed.

Lemma offline_batch_summary {RT : PyRuntime} (results : list json) :
  offline (Interactive.batch_summary results).
Proof. unfold Interactive.batch_summary. offline. Qed.

Lemma offline_save_batch_results (results : list json) :
  offline (Interactive.save_batch_results results).
Proof. unfold Interactive.save_batch_results. offline. Qed.

(** What [batch_refresh] does after its loop *)
Lemma offline_after_batch {RT : PyRuntime} (results : list json) :
  offline (Interactive.batch_summary results ;;
           save <- Interactive.get_yes_no (nl ++ u "   是否保存结果到文件? (y/n): ") ;;
           when save (Interactive.save_batch_results results)).
Proof.
  apply offline_bind; [apply offline_batch_summary|intros _].
  apply offline_bind; [apply offline_get_yes_no|intros save].
  apply offline_when, offline_save_batch_results.
Qed.

(** X5.  [batch_refresh] as a whole: the user types the URLs and a blank
    line and answers the question about a proxy, and the service keeps to
    its contract for as many answers as URLs were kept.  Then the URLs kept
    all pass [validate_url], and the calls and pauses of the whole run are
    one call per URL kept, in the order typed, with a pause of two seconds
    between consecutive calls and none after the last. *)
Theorem batch_refresh_paces_its_calls
    {RT : PyRuntime} (server_url : pystr) (w : world)
    (urls : list pystr) (w1 : world) (t1 : list event)
    (proxy : option pystr) (w2 : world) (t2 : list event) :
  Interactive.collect_urls w = (Ok urls, w1, t1) ->
  Interactive.ask_batch_proxy w1 = (Ok proxy, w2, t2) ->
  (forall k, k < length urls -> well_formed (network w k) = true) ->
  Forall (fun url => Interactive.validate_url url = true) urls /\
  schedule (run_trace (Interactive.batch_refresh server_url w)) = paced urls.
Proof.
  intros Hcollect Hproxy Hnet.
  assert (Hvalid : Forall (fun url => Interactive.validate_url url = true) urls).
  { unfold Interactive.collect_urls in Hcollect.
    destruct (Interactive.collect_urls_from (stdin w) []) as [[r rest] t] eqn:E.
    inversion Hcollect; subst.
    now apply (collected_urls_are_valid _ _ _ _ _ E). }
  split; [exact Hvalid|].
  destruct (offline_collect_urls w) as [Hs1 Hn1].
  rewrite Hcollect in Hs1, Hn1. cbn [run_trace run_world fst snd] in Hs1, Hn1.
  destruct (offline_ask_batch_proxy w1) as [Hs2 Hn2].
  rewrite Hproxy in Hs2, Hn2. cbn [run_trace run_world fst snd] in Hs2, Hn2.
  unfold Interactive.batch_refresh.
  do 6 (rewrite run_bind; change (print ?x ?w) with (Ok tt, w, [EPrint x]);
        cbn [run_result run_world run_trace fst snd]).
  rewrite run_bind, Hcollect. cbn [run_result run_world run_trace fst snd].
  destruct urls as [|url urls'].
  - cbn [nonempty negb]. change (print ?x ?w) with (Ok tt, w, [EPrint x]).
    cbn [run_trace snd]. rewrite !schedule_app, Hs1. reflexivity.
  - cbn [nonempty negb].
    rewrite run_bind; change (print ?x ?w) with (Ok tt, w, [EPrint x]);
      cbn [run_result run_world run_trace fst snd].
    rewrite run_bind, Hproxy. cbn [run_result run_world run_trace fst snd].
    destruct (batch_loop_paced server_url proxy (url :: urls') w2 Hvalid)
      as [results [t [Hrun Hs]]].
    { intros k Hk. rewrite Hn2, Hn1. now apply Hnet. }
    rewrite run_bind, Hrun. cbn [run_result run_world run_trace fst snd].
    destruct (offline_after_batch results (sent_n (length (url :: urls')) w2))
      as [Hs3 _].
    rewrite !schedule_app, Hs1, Hs2, Hs, Hs3.
    cbn [schedule app]. now rewrite app_nil_r.
Qed.

Lemma batch_refresh_paces_its_calls_witness :
  schedule
    (run_trace (Interactive.batch_refresh (RT := CPython) (u "http://localhost:8000")
                  (scripted [u "a.com"; u "b.com"; []; u "n"; u "n"]
                            success_then_unreachable))) =
  [Call (u "https://a.com"); Pause 2; Call (u "https://b.com")].
Proof.
  destruct (batch_refresh_paces_its_calls (RT := CPython) (u "http://localhost:8000")
              (scripted [u "a.com"; u "b.com"; []; u "n"; u "n"]
                        success_then_unreachable)
              [u "https://a.com"; u "https://b.com"] _ _ None _ _
              eq_refl eq_refl) as [_ H].
  - intros [|[|k]] Hk; [reflexivity|reflexivity|cbn in Hk; lia].
  - exact H.
Defined.

(** ** The refresh clients never raise *)

(** X3.  Whatever the outcome of the request, each of the three refresh
    clients returns: the two [refresh_cookies] send one request and hand
    back the body of a 200 answer, [None] in every other case;
    [refresh_and_display] sends its request and hands back a boolean. *)
Theorem refresh_clients_always_return
    {RT : PyRuntime} (server_url url : pystr) (proxy : option pystr) (w : world) :
  (exists t,
      Interactive.refresh_cookies server_url url proxy w =
        (Ok (answer (network w 0)), sent w, t) /\
      schedule t = [Call url]) /\
  (exists t,
      Example.refresh_cookies server_url url proxy w =
        (Ok (answer (network w 0)), sent w, t) /\
      schedule t = [Call url]) /\
  (exists b w' t,
      Quick.refresh_and_display url proxy w = (Ok b, w', t) /\
      In (ERequest POST (u "http://localhost:8000/cache/refresh")
                   (refresh_params url proxy) (Some 120%N)) t).
Proof.
  split; [|split].
  - apply refresh_cookies_run.
  - apply example_refresh_cookies_run.
  - apply quick_refresh_and_display_total.
Qed.

(** ** C7: the counts of a saved batch *)



Lemma count_status_settled (s : pystr) (results : list json) :
  Forall (fun r => settled r = true) results ->
  Interactive.count_status results s = Ok (length (filter (has_status s) results)).
Proof.
  induction 1 as [|r results Hr _ IH]; [reflexivity|].
  cbn [Interactive.count_status filter]. rewrite IH.
  unfold settled, has_status in Hr. unfold has_status.
  destruct r as [| | | | |kv]; try discriminate.
  cbn [py_getitem].
  destruct (dict_lookup kv (u "status")) as [st|]; [|discriminate].
  now destruct (eq_str st s).
Qed.






(** ** C8: what is written when one result is saved *)




Lemma shown_in_full_runs {RT : PyRuntime} (kv : dict) :
  shown_in_full (JObj kv) = true ->
  match div1000_1f match dict_lookup kv (u "generation_time_ms") with
                   | Some v => v
                   | None => JNull
                   end with
  | Ok _ => true
  | Raised _ => false
  end &&
  (negb (truthy match dict_lookup kv (u "user_agent") with
                | Some v => v
                | None => JNull
                end) ||
   match py_slice_to match dict_lookup kv (u "user_agent") with
                     | Some v => v
                     | None => JNull
                     end 60 with
   | Ok _ => true
   | Raised _ => false
   end) = true.
Proof.
  unfold shown_in_full. cbn [is_obj andb field].
  destruct (match dict_lookup kv (u "generation_time_ms") with
            | Some v => v
            | None => JNull
            end) as [|b|z|s|l|o]; try discriminate.
  all: destruct (match dict_lookup kv (u "user_agent") with
                 | Some v => v
                 | None => JNull
                 end) as [|b'|z'|s'|l'|o'].
  all: cbn [div1000_1f py_slice_to truthy andb].
  all: unfold ms_as_seconds.
  all: try destruct b; try destruct (float_overflow z).
  all: cbn [negb andb orb]; try discriminate; try reflexivity.
  all: try (now rewrite orb_false_r).
  all: now rewrite orb_true_r.
Qed.

(** The run of [refresh_and_display] on a body that is shown in full, down
    to the answer to the question about saving it *)
Ltac quick_shown Hnet Hshown Hin :=
  unfold Quick.refresh_and_display, try_except, bind, request, print, emit,
    when, resp_json, lift, ret, input, write_json, py_get;
  match goal with
  | |- context [given ?proxy] => destruct proxy as [[|? ?]|]
  end;
  cbn -[str_in lower strip Quick.yes_words];
  rewrite Hnet; cbn -[str_in lower strip Quick.yes_words];
  match goal with
  | |- context [div1000_1f ?gen] =>
      destruct (div1000_1f gen); [|discriminate Hshown]
  end;
  cbn [andb] in Hshown;
  match goal with
  | |- context [truthy ?ua] =>
      destruct (truthy ua); cbn [negb orb] in Hshown;
      [destruct (py_slice_to ua 60); [|discriminate Hshown]|]
  end;
  cbn -[str_in lower strip Quick.yes_words];
  rewrite Hin; cbn -[str_in lower strip Quick.yes_words].







(** ** C9: time-outs and servers that cannot be reached *)



(** ** C10: a 200 answer whose status is not [success] *)

Lemma is_success_obj (kv : dict) :
  is_success (JObj kv) = Ok (succeeded (JObj kv)).
Proof.
  unfold is_success, succeeded, py_get. cbn [truthy].
  destruct kv as [|item kv]; [reflexivity|].
  now destruct (dict_lookup (item :: kv) (u "status")).
Qed.

(** C10.  The service answers 200 with a JSON object whose [status] is
    absent or is not the string [success].  Then [refresh_single_url] does
    nothing after the refresh: no result is displayed, nothing is asked, no
    cookie is looked up and nothing is saved; the loop of [batch_refresh]
    appends the record [{url, status: failed}] and goes on; and
    [demo_basic_refresh] prints its failure line, or raises [KeyError] when
    the object is not empty and has no [status], and does not print the
    success lines. *)
Theorem not_success_is_treated_as_failure
    {RT : PyRuntime} (server_url url : pystr) (proxy : option pystr)
    (kv : dict) (w : world) :
  network w 0 = Responded 200 (Ok (JObj kv)) ->
  succeeded (JObj kv) = false ->
  (exists t,
      Interactive.refresh_cookies server_url url proxy w = (Ok (JObj kv), sent w, t) /\
      (result <- Interactive.refresh_cookies server_url url proxy ;;
       Interactive.after_refresh server_url url result) w = (Ok tt, sent w, t)) /\
  (forall (total i : nat) (results : list json) (p : ParseResult),
      urlparse url = Ok p ->
      exists t1,
        forall rest,
          Interactive.batch_loop server_url total i (url :: rest) proxy results w =
          match Interactive.batch_loop server_url total (S i) rest proxy
                  (results ++ [JObj [(u "url", JStr url);
                                     (u "status", JStr (u "failed"))]])
                  (sent w) with
          | (r, w', t2) => (r, w', t1 ++ t2)
          end) /\
  (exists r tail,
      Example.demo_basic_refresh w =
        (r, sent w,
         [EPrint (str_mul (u "=") 60);
          EPrint (u "演示 1: 基础 Cookie 刷新");
          EPrint (str_mul (u "=") 60);
          EPrint (nl ++ u "📌 目标网址: " ++ u "https://javdb.com");
          EPrint (nl ++ u "⏳ 正在强制刷新 Cookie (这可能需要 10-30 秒)..." ++ nl);
          ERequest POST (Example.default_server_url ++ u "/cache/refresh")
                   [(u "url", u "https://javdb.com")] None] ++ tail) /\
      (r = Ok tt /\ tail = [EPrint (u "❌ 刷新失败")] \/
       r = Raised (mkExn KeyError (u "'" ++ u "status" ++ u "'")) /\ tail = [])).
Proof.
  intros Hnet Hfail.
  split; [|split].
  - destruct (refresh_cookies_run server_url url proxy w) as [t [Hr _]].
    unfold answer in Hr. rewrite Hnet in Hr. cbn in Hr.
    exists t. split; [exact Hr|].
    unfold bind at 1. rewrite Hr.
    unfold Interactive.after_refresh, bind, lift. rewrite is_success_obj, Hfail.
    cbn [when ret]. now rewrite app_nil_r.
  - intros total i results p Hp.
    destruct (refresh_cookies_run server_url url proxy w) as [t [Hr _]].
    unfold answer in Hr. rewrite Hnet in Hr. cbn in Hr.
    exists ([EPrint (nl ++ u "[" ++ str_of_nat i ++ u "/" ++ str_of_nat total ++
                     u "] 正在处理: " ++ netloc p)] ++
            t ++ [EPrint (u "   ❌ 失败")] ++
            (if i <? total then [ESleep 2] else [])).
    intros rest.
    cbn [Interactive.batch_loop].
    unfold bind at 1. unfold lift at 1. rewrite Hp.
    unfold bind at 1. change (print ?x ?w) with (Ok tt, w, [EPrint x]). cbv iota beta.
    unfold bind at 1. rewrite Hr.
    unfold bind at 1. unfold lift at 1. rewrite is_success_obj, Hfail.
    unfold bind, when, ret, sleep, print, emit.
    destruct (i <? total); cbv iota beta.
    all: destruct (Interactive.batch_loop server_url total (S i) rest proxy _ _)
      as [[r w'] t2].
    all: cbn [app]; rewrite <- ?(@app_assoc event); reflexivity.
  - assert (Hr : Example.refresh_cookies Example.default_server_url
                   (u "https://javdb.com") None w =
                 (Ok (JObj kv), sent w,
                  [ERequest POST (Example.default_server_url ++ u "/cache/refresh")
                            [(u "url", u "https://javdb.com")] None])).
    { unfold Example.refresh_cookies, try_except, bind, request, resp_json, lift, sent.
      cbn [refresh_params]. rewrite Hnet. reflexivity. }
    assert (Hs : is_success_item (JObj kv) = Ok false \/
                 is_success_item (JObj kv) =
                   Raised (mkExn KeyError (u "'" ++ u "status" ++ u "'"))).
    { unfold succeeded in Hfail. unfold is_success_item, py_getitem. cbn [truthy].
      destruct kv as [|item kv]; [now left|].
      destruct (dict_lookup (item :: kv) (u "status")) as [s|].
      - left. now rewrite Hfail.
      - now right. }
    unfold Example.demo_basic_refresh.
    do 5 (unfold bind at 1; change (print ?x ?w) with (Ok tt, w, [EPrint x]);
          cbv iota beta).
    unfold bind at 1. rewrite Hr.
    unfold bind at 1. unfold lift at 1.
    destruct Hs as [Hs|Hs]; rewrite Hs.
    + change (print ?x ?w) with (Ok tt, w, [EPrint x]).
      exists (Ok tt), [EPrint (u "❌ 刷新失败")]. split; [reflexivity|now left].
    + exists (Raised (mkExn KeyError (u "'" ++ u "status" ++ u "'"))), [].
      split; [reflexivity|now right].
Qed.

Lemma not_success_is_treated_as_failure_witness :
  run_trace
    ((result <- Interactive.refresh_cookies (RT := CPython) (u "http://localhost:8000")
                  (u "https://a.com") None ;;
      Interactive.after_refresh (u "http://localhost:8000") (u "https://a.com") result)
       (scripted [u "y"; u "y"] (fun _ => refused))) =
  run_trace
    (Interactive.refresh_cookies (RT := CPython) (u "http://localhost:8000")
       (u "https://a.com") None (scripted [u "y"; u "y"] (fun _ => refused))) /\
  run_result
    (Interactive.batch_loop (RT := CPython) (u "http://localhost:8000") 1 1
       [u "https://a.com"] None [] (scripted [u "y"; u "y"] (fun _ => refused))) =
  Ok [JObj [(u "url", JStr (u "https://a.com")); (u "status", JStr (u "failed"))]] /\
  run_result (Example.demo_basic_refresh (RT := CPython)
                (scripted [u "y"; u "y"] (fun _ => refused))) = Ok tt.
Proof.
  destruct (not_success_is_treated_as_failure (RT := CPython)
              (u "http://localhost:8000") (u "https://a.com") None
              [(u "status", JStr (u "error"))]
              (scripted [u "y"; u "y"] (fun _ => refused))
              eq_refl eq_refl)
    as [[t [H1 H2]] [Hb Hd]].
  split; [|split].
  - rewrite H1, H2. reflexivity.
  - destruct (Hb 1 1 [] (mkParse (u "https") (u "a.com")) eq_refl) as [t1 Hloop].
    rewrite (Hloop []). reflexivity.
  - reflexivity.
Defined.

(** ** The simplified script does not read the status *)

(** X4.  In the simplified script every 200 answer with a JSON body is
    announced as a success, whatever its [status] says: the success line is
    printed right after the body is read, before any field is looked at. *)
Theorem quick_shows_success_on_every_200
    {RT : PyRuntime} (url : pystr) (proxy : option pystr) (w : world) (j : json) :
  network w 0 = Responded 200 (Ok j) ->
  exists r w' before after,
    Quick.refresh_and_display url proxy w =
      (r, w',
       before ++
       [ERequest POST (u "http://localhost:8000/cache/refresh")
                 (refresh_params url proxy) (Some 120%N);
        EPrint (u "✅ 刷新成功！" ++ nl)] ++ after) /\
    forallb is_print before = true.
Proof.
  intros Hnet.
  unfold Quick.refresh_and_display, try_except.
  unfold bind at 1. change (print ?x ?w) with (Ok tt, w, [EPrint x]). cbv iota beta.
  unfold bind at 1.
  destruct proxy as [[|c q]|]; cbn [given when].
  all: try change (print ?x ?w) with (Ok tt, w, [EPrint x]).
  all: try change (ret tt ?w) with (@Ok unit tt, w, @nil event).
  all: cbv iota beta.
  all: unfold bind at 1; change (print ?x ?w) with (Ok tt, w, [EPrint x]);
    cbv iota beta.
  all: unfold bind at 1; unfold request at 1; cbn [stdin network clock disk];
    rewrite Hnet; cbv iota beta; cbn [resp_status resp_body Z.eqb Pos.eqb].
  all: unfold bind at 1; unfold resp_json at 1, lift at 1;
    cbn [resp_body]; cbv iota beta.
  all: unfold bind at 1; change (print ?x ?w) with (Ok tt, w, [EPrint x]);
    cbv iota beta.
  all: match goal with
       | |- context [match ?k ?w0 with _ => _ end] =>
           match k with
           | bind _ _ => destruct (k w0) as [[r1 w1] t1]
           end
       end.
  all: destruct r1 as [b|e]; [|destruct (exn_cls e)];
    unfold bind, print, emit, ret; cbv iota beta.
  all: do 2 eexists.
  all: (eexists (cons _ (cons _ nil)) + eexists (cons _ (cons _ (cons _ nil))));
    eexists; split; [cbn [app]; rewrite <- ?(@app_assoc event); reflexivity
                    |reflexivity].
Qed.

Lemma quick_shows_success_on_every_200_witness :
  In (EPrint (u "✅ 刷新成功！" ++ nl))
     (run_trace (Quick.refresh_and_display (RT := CPython) (u "https://a.com") None
                   (scripted [u "n"] (fun _ => refused)))).
Proof.
  destruct (quick_shows_success_on_every_200 (RT := CPython) (u "https://a.com") None
              (scripted [u "n"] (fun _ => refused))
              (JObj [(u "status", JStr (u "error"))]) eq_refl)
    as [r [w' [before [after [Hrun _]]]]].
  rewrite Hrun. cbn [run_trace snd].
  apply in_or_app. right. right. now left.
Defined.

(** ** C6: results with missing fields *)

(** X2.  [display_result] of the full tool reads its argument with [get]
    and a default for each field, so it renders an object that lacks any
    of them: [N/A] for the host name, [0] for the count and for the time,
    and no User-Agent lines.  When its [generation_time_ms] is absent or a
    number, it prints its lines and returns, unless the number is so large
    that its thousandth is no float: then, the number being one that can
    be written, the division raises [OverflowError] under the heading of
    the time. *)
Theorem display_result_substitutes_defaults
    {RT : PyRuntime} (kv : dict) (w : world) :
  is_number (get_or kv (u "generation_time_ms") (JInt 0)) = true ->
  (float_overflow (number_of (get_or kv (u "generation_time_ms") (JInt 0))) = false ->
   Interactive.display_result (JObj kv) w =
     (Ok tt, w,
      map EPrint
        (shown_before_time kv ++
         [u "   生成耗时: " ++
            py_str (get_or kv (u "generation_time_ms") (JInt 0)) ++
            u " ms (" ++
            format_ms_as_seconds
              (number_of (get_or kv (u "generation_time_ms") (JInt 0))) ++
            u " 秒)";
          nl ++ str_mul (u "=") 70]))) /\
  (float_overflow (number_of (get_or kv (u "generation_time_ms") (JInt 0))) = true ->
   within_digit_limit (number_of (get_or kv (u "generation_time_ms") (JInt 0))) = true ->
   Interactive.display_result (JObj kv) w =
     (Raised (mkExn OverflowError (u "integer division result too large for a float")),
      w, map EPrint (shown_before_time kv))) /\
  (dict_lookup kv (u "generation_time_ms") = None ->
   get_or kv (u "generation_time_ms") (JInt 0) = JInt 0 /\
   float_overflow 0 = false).
Proof.
  intros Hnum.
  assert (Hdiv : div1000_1f (get_or kv (u "generation_time_ms") (JInt 0)) =
                 ms_as_seconds
                   (number_of (get_or kv (u "generation_time_ms") (JInt 0)))).
  { destruct (get_or kv (u "generation_time_ms") (JInt 0)) as [|b|z|s|l|o];
      try discriminate Hnum; [destruct b|]; reflexivity. }
  split; [|split].
  - intros Hfit.
    unfold Interactive.display_result, bind, lift, when, ret, py_get, print, emit,
      shown_before_time.
    fold (get_or kv (u "hostname") (JStr (u "N/A"))).
    fold (get_or kv (u "cookies_count") (JInt 0)).
    fold (get_or kv (u "user_agent") (JStr [])).
    fold (get_or kv (u "generation_time_ms") (JInt 0)).
    rewrite Hdiv. unfold ms_as_seconds. rewrite Hfit.
    destruct (truthy (get_or kv (u "user_agent") (JStr []))); reflexivity.
  - intros Hover _.
    unfold Interactive.display_result, bind, lift, when, ret, py_get, print, emit,
      shown_before_time.
    fold (get_or kv (u "hostname") (JStr (u "N/A"))).
    fold (get_or kv (u "cookies_count") (JInt 0)).
    fold (get_or kv (u "user_agent") (JStr [])).
    fold (get_or kv (u "generation_time_ms") (JInt 0)).
    rewrite Hdiv. unfold ms_as_seconds. rewrite Hover.
    destruct (truthy (get_or kv (u "user_agent") (JStr []))); reflexivity.
  - intros Hnone. unfold get_or. rewrite Hnone. split; reflexivity.
Qed.

Lemma display_result_substitutes_defaults_witness :
  run_trace (Interactive.display_result (RT := CPython) (JObj [])
               (scripted [] (fun _ => unreachable))) =
  map EPrint
    [nl ++ str_mul (u "=") 70; u "✅ Cookie 刷新成功！"; str_mul (u "=") 70;
     nl ++ u "📌 目标网址信息:";
     u "   主机名: N/A";
     nl ++ u "🍪 Cookie 信息:";
     u "   总数: 0 个";
     nl ++ u "⏱️  性能:";
     u "   生成耗时: 0 ms (0.0 秒)";
     nl ++ str_mul (u "=") 70] /\
  Interactive.display_result (RT := CPython)
    (JObj [(u "generation_time_ms", JInt (2 * 10 ^ 311))])
    (scripted [] (fun _ => unreachable)) =
  (Raised (mkExn OverflowError (u "integer division result too large for a float")),
   scripted [] (fun _ => unreachable),
   map EPrint
     [nl ++ str_mul (u "=") 70; u "✅ Cookie 刷新成功！"; str_mul (u "=") 70;
      nl ++ u "📌 目标网址信息:";
      u "   主机名: N/A";
      nl ++ u "🍪 Cookie 信息:";
      u "   总数: 0 个";
      nl ++ u "⏱️  性能:"]).
Proof.
  split.
  - destruct (display_result_substitutes_defaults (RT := CPython) []
                (scripted [] (fun _ => unreachable)) eq_refl) as [H _].
    rewrite (H eq_refl). reflexivity.
  - destruct (display_result_substitutes_defaults (RT := CPython)
                [(u "generation_time_ms", JInt (2 * 10 ^ 311))]
                (scripted [] (fun _ => unreachable)) eq_refl) as [_ [H _]].
    rewrite H.
    + reflexivity.
    + vm_compute. reflexivity.
    + vm_compute. reflexivity.
Defined.

(** C6.  The simplified script on a successful answer that has no
    [generation_time_ms]: the lines for the host name and the count are
    printed, then dividing [None] by 1000 raises [TypeError]; the handler
    of [refresh_and_display] reports it as an error and the function
    returns [False], before the time, the User-Agent and the question about
    saving.  [display_result] of the full tool, on the same object, puts 0
    in its place. *)
Theorem quick_display_raises_without_generation_time :
  Quick.refresh_and_display (RT := CPython) (u "https://a.com") None
    (scripted [u "n"] (fun _ => Responded 200 (Ok body_without_time))) =
  (Ok false, sent (scripted [u "n"] (fun _ => Responded 200 (Ok body_without_time))),
   [EPrint (nl ++ u "⏳ 正在刷新 https://a.com...");
    EPrint (u "   请稍候..." ++ nl);
    ERequest POST (u "http://localhost:8000/cache/refresh")
             [(u "url", u "https://a.com")] (Some 120%N);
    EPrint (u "✅ 刷新成功！" ++ nl);
    EPrint (str_mul (u "━") 50);
    EPrint (u "主机名: a.com");
    EPrint (u "Cookie 数: 5 个");
    EPrint (u "❌ 错误: unsupported operand type(s) for /: 'NoneType' and 'int'")]) /\
  run_result (Interactive.display_result (RT := CPython) body_without_time
                (scripted [u "n"] (fun _ => unreachable))) = Ok tt /\
  In (EPrint (u "   生成耗时: 0 ms (0.0 秒)"))
     (run_trace (Interactive.display_result (RT := CPython) body_without_time
                   (scripted [u "n"] (fun _ => unreachable)))).
Proof.
  split; [reflexivity|]. split; [reflexivity|].
  vm_compute. tauto.
Qed.

(** ** Footprints of the primitive operations and of their compositions *)

Section Footprint.
Context {P : event -> Prop} {R : world -> world -> Prop}.
Context {HP : Permits P} {HR : Passage R}.

Lemma obeys_ret {A : Type} (a : A) : obeys P R (ret a).
Proof. intros w. split; [constructor|apply passage_refl]. Qed.

Lemma obeys_lift {A : Type} (r : res A) : obeys P R (lift r).
Proof. intros w. split; [constructor|apply passage_refl]. Qed.

Lemma obeys_raise {A : Type} (e : exn) : obeys P R (raise (A := A) e).
Proof. intros w. split; [constructor|apply passage_refl]. Qed.

Lemma obeys_print (s : pystr) : obeys P R (print s).
Proof.
  intros w. split; [|apply passage_refl].
  repeat constructor. apply permits_print.
Qed.

Lemma obeys_input (p : pystr) : obeys P R (input p).
Proof.
  intros w. unfold input. destruct (stdin w) as [|l rest] eqn:E; cbn.
  - split; [|apply passage_refl]. repeat constructor. apply permits_input.
  - split; [|now apply (passage_input w l rest)].
    repeat constructor. apply permits_input.
Qed.

Lemma obeys_now : obeys P R now.
Proof. intros w. split; [constructor|apply passage_now]. Qed.

Lemma obeys_request (m : http_method) (endpoint : pystr)
    (params : list (pystr * pystr)) (tm : option N) :
  P (ERequest m endpoint params tm) -> obeys P R (request m endpoint params tm).
Proof.
  intros H w. unfold request.
  destruct (network w 0); cbn; (split; [|apply passage_request]);
    repeat constructor; exact H.
Qed.

Lemma obeys_sleep (n : N) : P (ESleep n) -> obeys P R (sleep n).
Proof. intros H w. split; [|apply passage_refl]. repeat constructor. exact H. Qed.

Lemma obeys_write_json (filename : pystr) (document : json) :
  P (EWrite filename document) -> obeys P R (write_json filename document).
Proof.
  intros H w. unfold write_json.
  destruct (disk w 0); cbn; (split; [|apply passage_write]);
    repeat constructor; exact H.
Qed.

Lemma obeys_bind {A B : Type} (m : M A) (f : A -> M B) :
  obeys P R m -> (forall a, obeys P R (f a)) -> obeys P R (bind m f).
Proof.
  intros Hm Hf w. rewrite run_bind.
  destruct (Hm w) as [Ht Hw].
  destruct (run_result (m w)) as [a|e]; cbn [run_trace run_world fst snd].
  - destruct (Hf a (run_world (m w))) as [Ht' Hw'].
    split; [now apply Forall_app|now apply (passage_trans _ _ _ Hw)].
  - now split.
Qed.

(** The rest of a computation may rely on what its first part returns. *)
Lemma obeys_bind_yields {A B : Type} (Q : A -> Prop) (m : M A) (f : A -> M B) :
  obeys P R m -> yields Q m -> (forall a, Q a -> obeys P R (f a)) ->
  obeys P R (bind m f).
Proof.
  intros Hm HQ Hf w. rewrite run_bind.
  destruct (Hm w) as [Ht Hw]. specialize (HQ w).
  destruct (run_result (m w)) as [a|e]; cbn [run_trace run_world fst snd].
  - destruct (Hf a (HQ a eq_refl) (run_world (m w))) as [Ht' Hw'].
    split; [now apply Forall_app|now apply (passage_trans _ _ _ Hw)].
  - now split.
Qed.

Lemma obeys_try_except {A : Type} (m : M A) (h : exn -> M A) :
  obeys P R m -> (forall e, obeys P R (h e)) -> obeys P R (try_except m h).
Proof.
  intros Hm Hh w. unfold try_except.
  destruct (Hm w) as [Ht Hw].
  destruct (m w) as [[[a|e] w1] t1]; cbn [run_trace run_world fst snd] in *.
  - now split.
  - destruct (Hh e w1) as [Ht' Hw'].
    destruct (h e w1) as [[r w2] t2]; cbn [run_trace run_world fst snd] in *.
    split; [now apply Forall_app|now apply (passage_trans _ _ _ Hw)].
Qed.

Lemma obeys_resp_json (r : response) : obeys P R (resp_json r).
Proof. apply obeys_lift. Qed.

Lemma obeys_when (c : bool) (m : M unit) : obeys P R m -> obeys P R (when c m).
Proof. destruct c; [trivial|intros _; apply obeys_ret]. Qed.

Lemma obeys_for_each {A : Type} (l : list A) (body : A -> M unit) :
  (forall x, obeys P R (body x)) -> obeys P R (for_each l body).
Proof.
  intros H. induction l as [|x l IH]; cbn [for_each]; [apply obeys_ret|].
  apply obeys_bind; [apply H|intros _; exact IH].
Qed.

Lemma obeys_get_yes_no (prompt : pystr) : obeys P R (Interactive.get_yes_no prompt).
Proof.
  assert (H : forall lines w,
             stdin w = lines ->
             Forall P (snd (Interactive.get_yes_no_from prompt lines)) /\
             R w (mkWorld (snd (fst (Interactive.get_yes_no_from prompt lines)))
                          (network w) (clock w) (disk w))).
  { induction lines as [|l lines IH]; intros w E; cbn [Interactive.get_yes_no_from].
    - cbn [fst snd]. split; [repeat constructor; apply permits_input|].
      destruct w; cbn in *; subst; apply passage_refl.
    - pose proof (passage_input w l lines E) as Hstep.
      destruct (str_in _ _);
        [cbn [fst snd]; split; [repeat constructor; apply permits_input|exact Hstep]|].
      destruct (str_in _ _);
        [cbn [fst snd]; split; [repeat constructor; apply permits_input|exact Hstep]|].
      destruct (IH (mkWorld lines (network w) (clock w) (disk w)) eq_refl)
        as [Ht Hw].
      destruct (Interactive.get_yes_no_from prompt lines) as [[r rest] t].
      cbn [fst snd stdin network clock disk] in *. split.
      + constructor; [apply permits_input|].
        constructor; [apply permits_print|exact Ht].
      + exact (passage_trans _ _ _ Hstep Hw). }
  intros w. unfold Interactive.get_yes_no.
  specialize (H (stdin w) w eq_refl).
  now destruct (Interactive.get_yes_no_from prompt (stdin w)) as [[r rest] t].
Qed.

Lemma obeys_collect_urls {RT : PyRuntime} : obeys P R Interactive.collect_urls.
Proof.
  assert (H : forall lines urls w,
             stdin w = lines ->
             Forall P (snd (Interactive.collect_urls_from lines urls)) /\
             R w (mkWorld (snd (fst (Interactive.collect_urls_from lines urls)))
                          (network w) (clock w) (disk w))).
  { induction lines as [|l lines IH]; intros urls w E;
      cbn [Interactive.collect_urls_from].
    - cbn [fst snd]. split; [repeat constructor; apply permits_input|].
      destruct w; cbn in *; subst; apply passage_refl.
    - pose proof (passage_input w l lines E) as Hstep.
      destruct (negb (nonempty (strip l)));
        [cbn [fst snd]; split; [repeat constructor; apply permits_input|exact Hstep]|].
      destruct (Interactive.validate_url _).
      + destruct (IH (urls ++ [Interactive.format_url (strip l)])
                     (mkWorld lines (network w) (clock w) (disk w)) eq_refl)
          as [Ht Hw].
        destruct (Interactive.collect_urls_from lines _) as [[r rest] t].
        cbn [fst snd stdin network clock disk] in *. split.
        * constructor; [apply permits_input|exact Ht].
        * exact (passage_trans _ _ _ Hstep Hw).
      + destruct (IH urls (mkWorld lines (network w) (clock w) (disk w)) eq_refl)
          as [Ht Hw].
        destruct (Interactive.collect_urls_from lines _) as [[r rest] t].
        cbn [fst snd stdin network clock disk] in *. split.
        * constructor; [apply permits_input|].
          constructor; [apply permits_print|exact Ht].
        * exact (passage_trans _ _ _ Hstep Hw). }
  intros w. unfold Interactive.collect_urls.
  specialize (H (stdin w) [] w eq_refl).
  now destruct (Interactive.collect_urls_from (stdin w) []) as [[r rest] t].
Qed.

Lemma obeys_display_result {RT : PyRuntime} (result : json) :
  obeys P R (Interactive.display_result result).
Proof.
  unfold Interactive.display_result.
  repeat first
    [ apply obeys_bind; [|intro] | apply obeys_when | apply obeys_print
    | apply obeys_lift ].
Qed.

Lemma obeys_display_cookies {RT : PyRuntime} (url : pystr)
    (cookies : list (pystr * pystr)) :
  obeys P R (Interactive.display_cookies url cookies).
Proof.
  unfold Interactive.display_cookies. cbv zeta.
  repeat first
    [ apply obeys_bind; [|intro] | apply obeys_when | apply obeys_print
    | apply obeys_lift | apply obeys_for_each; intro ].
Qed.

Lemma obeys_show_cookies {RT : PyRuntime} (url : pystr) (cookies_result : json) :
  obeys P R (Interactive.show_cookies url cookies_result).
Proof.
  unfold Interactive.show_cookies, Interactive.display_cookies_untyped,
    Interactive.print_cookie.
  cbv zeta.
  repeat first
    [ apply obeys_bind; [|intro] | apply obeys_when | apply obeys_print
    | apply obeys_lift | apply obeys_for_each; intro ].
Qed.

(** The clients of the service cause one request each, the savers one file
    each, and lines printed. *)
Lemma obeys_refresh_cookies {RT : PyRuntime} (server url : pystr)
    (proxy : option pystr) :
  P (ERequest POST (server ++ u "/cache/refresh") (refresh_params url proxy)
              (Some 120%N)) ->
  obeys P R (Interactive.refresh_cookies server url proxy).
Proof.
  intros H. unfold Interactive.refresh_cookies. cbv zeta.
  apply obeys_try_except.
  - repeat first
      [ apply obeys_bind; [|intro] | apply obeys_when | apply obeys_print
      | apply obeys_lift | apply obeys_resp_json | apply obeys_ret
      | apply obeys_request; exact H
      | match goal with
        | |- obeys _ _ (if ?c then _ else _) => destruct c
        end ].
  - intros e. destruct (exn_cls e);
      repeat first [ apply obeys_bind; [|intro] | apply obeys_print | apply obeys_ret ].
Qed.

Lemma obeys_get_cookies {RT : PyRuntime} (server url : pystr) :
  P (ERequest GET (server ++ u "/cookies") [(u "url", url)] (Some 60%N)) ->
  obeys P R (Interactive.get_cookies server url).
Proof.
  intros H. unfold Interactive.get_cookies.
  apply obeys_try_except; [|intros e; apply obeys_ret].
  apply obeys_bind; [apply obeys_request; exact H|intros resp].
  destruct (resp_status resp =? 200)%Z; [apply obeys_resp_json|apply obeys_ret].
Qed.

Lemma obeys_save_result_to_file (url : pystr) (result : json) :
  (forall t document,
      field document (u "url") = JStr url ->
      P (EWrite (u "cookie_refresh_" ++ strftime_compact t ++ u ".json") document)) ->
  obeys P R (Interactive.save_result_to_file url result).
Proof.
  intros H. unfold Interactive.save_result_to_file. cbv zeta.
  apply obeys_try_except; [|intros e; apply obeys_print].
  repeat first
    [ apply obeys_bind; [|intro] | apply obeys_print | apply obeys_lift
    | apply obeys_now | apply obeys_write_json; apply H; reflexivity ].
Qed.

Lemma obeys_save_batch_results (results : list json) :
  (forall t document,
      P (EWrite (u "cookie_refresh_batch_" ++ strftime_compact t ++ u ".json")
                document)) ->
  obeys P R (Interactive.save_batch_results results).
Proof.
  intros H. unfold Interactive.save_batch_results. cbv zeta.
  apply obeys_try_except; [|intros e; apply obeys_print].
  repeat first
    [ apply obeys_bind; [|intro] | apply obeys_print | apply obeys_lift
    | apply obeys_now | apply obeys_write_json; apply H ].
Qed.

End Footprint.

Lemma yields_lift {A : Type} (r : res A) : yields (fun a => r = Ok a) (lift r).
Proof. intros w a E. exact E. Qed.

(** Goes through a computation built from the operations above; [side]
    settles the events that only some footprints permit.  What a pure
    computation returned is kept at hand. *)
Ltac obey side :=
  cbv zeta;
  repeat match goal with
    | |- obeys _ _ (bind (lift ?r) _) =>
        apply (obeys_bind_yields (fun a => r = Ok a));
        [apply obeys_lift|apply yields_lift|intros ? ?]
    | |- obeys _ _ (bind _ _) => apply obeys_bind; [|intro]
    | |- obeys _ _ (try_except _ _) => apply obeys_try_except; [|intro]
    | |- obeys _ _ (when _ _) => apply obeys_when
    | |- obeys _ _ (for_each _ _) => apply obeys_for_each; intro
    | |- obeys _ _ (request _ _ _ _) => apply obeys_request; side
    | |- obeys _ _ (sleep _) => apply obeys_sleep; side
    | |- obeys _ _ (write_json _ _) => apply obeys_write_json; side
    | |- obeys _ _ (print _) => apply obeys_print
    | |- obeys _ _ (input _) => apply obeys_input
    | |- obeys _ _ (ret _) => apply obeys_ret
    | |- obeys _ _ (lift _) => apply obeys_lift
    | |- obeys _ _ (resp_json _) => apply obeys_resp_json
    | |- obeys _ _ (raise _) => apply obeys_raise
    | |- obeys _ _ now => apply obeys_now
    | |- obeys _ _ (Interactive.get_yes_no _) => apply obeys_get_yes_no
    | |- obeys _ _ Interactive.collect_urls => apply obeys_collect_urls
    | |- obeys _ _ (Interactive.display_result _) => apply obeys_display_result
    | |- obeys _ _ (Interactive.display_cookies _ _) => apply obeys_display_cookies
    | |- obeys _ _ (Interactive.show_cookies _ _) => apply obeys_show_cookies
    | |- obeys _ _ (Interactive.refresh_cookies _ _ _) =>
        apply obeys_refresh_cookies; side
    | |- obeys _ _ (Interactive.get_cookies _ _) => apply obeys_get_cookies; side
    | |- obeys _ _ (Interactive.save_result_to_file _ _) =>
        apply obeys_save_result_to_file; intros; side
    | |- obeys _ _ (Interactive.save_batch_results _) =>
        apply obeys_save_batch_results; intros; side
    | |- obeys _ _ (if ?c then _ else _) => destruct c eqn:?
    | |- obeys _ _ (match ?x with _ => _ end) => destruct x eqn:?
    end.

#[export] Instance anywhere_passage : Passage anywhere.
Proof. now split. Qed.

#[export] Instance shrinks_passage : Passage shrinks.
Proof.
  split; unfold shrinks; cbn; intros; try lia.
  rewrite H. cbn. lia.
Qed.

#[export] Instance tool_event_permits {RT : PyRuntime} (server : pystr) :
  Permits (tool_event server).
Proof. split; constructor. Qed.


(** ** What the readers of a proxy and of the URLs return *)

Lemma yields_ret {A : Type} (Q : A -> Prop) (a : A) : Q a -> yields Q (ret a).
Proof. intros H w b E. cbn in E. now inversion E; subst. Qed.

Lemma yields_bind {A B : Type} (Q : B -> Prop) (m : M A) (f : A -> M B) :
  (forall a, yields Q (f a)) -> yields Q (bind m f).
Proof.
  intros H w b. rewrite run_bind.
  destruct (run_result (m w)) as [a|e]; cbn [run_result fst]; [|discriminate].
  apply H.
Qed.

Ltac yield :=
  cbv zeta;
  repeat match goal with
    | |- yields _ (bind _ _) => apply yields_bind; intro
    | |- yields _ (ret _) => apply yields_ret
    | |- yields _ (if ?c then _ else _) => destruct c eqn:?
    end.

Lemma negb_false (b : bool) : negb b = false -> b = true.
Proof. now destruct b. Qed.

Lemma ask_proxy_yields : yields proxy_ok Interactive.ask_proxy.
Proof.
  unfold Interactive.ask_proxy. yield; cbn [proxy_ok]; auto using negb_false.
Qed.

Lemma ask_batch_proxy_yields : yields proxy_ok Interactive.ask_batch_proxy.
Proof.
  unfold Interactive.ask_batch_proxy. yield; cbn [proxy_ok]; auto using negb_false.
Qed.

Lemma collect_urls_yields {RT : PyRuntime} :
  yields (Forall (fun url => Interactive.validate_url url = true))
         Interactive.collect_urls.
Proof.
  intros w urls. unfold Interactive.collect_urls.
  destruct (Interactive.collect_urls_from (stdin w) []) as [[r rest] t] eqn:E.
  cbn [run_result fst]. intros ->.
  now apply (collected_urls_are_valid _ _ _ _ _ E).
Qed.

(** ** The footprint of the full tool *)

Section FullToolFlows.
Context {RT : PyRuntime} {R : world -> world -> Prop} {HR : Passage R}.
Variable server : pystr.

(** Settles that an event is one of the full tool. *)
Local Ltac tool :=
  idtac;
  match goal with
  | |- tool_event _ (ERequest POST _ _ _) => now apply tool_refresh
  | |- tool_event _ (ERequest GET _ _ _) => now apply tool_lookup
  | |- tool_event _ (ESleep _) => apply tool_pause
  | |- tool_event _ (EWrite (u "cookie_refresh_batch_" ++ _) _) =>
      apply tool_batch_file
  | |- tool_event _ (EWrite _ _) => apply tool_result_file
  end.

Lemma tool_ask_proxy : obeys (tool_event server) R Interactive.ask_proxy.
Proof. unfold Interactive.ask_proxy. obey idtac. Qed.

Lemma tool_ask_batch_proxy : obeys (tool_event server) R Interactive.ask_batch_proxy.
Proof. unfold Interactive.ask_batch_proxy. obey idtac. Qed.

Lemma tool_after_refresh (url : pystr) (result : json) :
  Interactive.validate_url url = true ->
  obeys (tool_event server) R (Interactive.after_refresh server url result).
Proof. intros Hu. unfold Interactive.after_refresh. obey tool. Qed.

Lemma tool_refresh_single_url :
  obeys (tool_event server) R (Interactive.refresh_single_url server).
Proof.
  unfold Interactive.refresh_single_url.
  apply obeys_bind; [obey idtac|intros _].
  apply obeys_bind; [obey idtac|intros _].
  apply obeys_bind; [obey idtac|intros line]. cbv zeta.
  destruct (negb (nonempty (strip line))); [obey idtac|].
  destruct (negb (Interactive.validate_url _)) eqn:Ev; [obey idtac|].
  apply negb_false in Ev.
  apply (obeys_bind_yields proxy_ok);
    [apply tool_ask_proxy|apply ask_proxy_yields|intros proxy Hp].
  apply obeys_bind; [obey tool|intros result].
  now apply tool_after_refresh.
Qed.

Lemma tool_view_cached_cookies :
  obeys (tool_event server) R (Interactive.view_cached_cookies server).
Proof.
  unfold Interactive.view_cached_cookies.
  apply obeys_bind; [obey idtac|intros _].
  apply obeys_bind; [obey idtac|intros line]. cbv zeta.
  destruct (negb (nonempty (strip line))); [obey idtac|].
  destruct (negb (Interactive.validate_url _)) eqn:Ev; [obey idtac|].
  apply negb_false in Ev. obey tool.
Qed.

Lemma tool_batch_loop (proxy : option pystr) (urls : list pystr) :
  Forall (fun url => Interactive.validate_url url = true) urls ->
  proxy_ok proxy ->
  forall (total i : nat) (results : list json),
    obeys (tool_event server) R (Interactive.batch_loop server total i urls proxy results).
Proof.
  intros Hv Hp. induction Hv as [|url rest Hu Hrest IH]; intros total i results;
    cbn [Interactive.batch_loop]; [obey idtac|].
  apply obeys_bind; [obey idtac|intros parsed].
  apply obeys_bind; [obey idtac|intros _].
  apply obeys_bind; [obey tool|intros result].
  apply obeys_bind; [obey idtac|intros ok_].
  apply obeys_bind; [obey idtac|intros results'].
  apply obeys_bind; [obey tool|intros _].
  apply IH.
Qed.

Lemma tool_batch_summary (results : list json) :
  obeys (tool_event server) R (Interactive.batch_summary results).
Proof. unfold Interactive.batch_summary. obey idtac. Qed.

Lemma tool_batch_refresh :
  obeys (tool_event server) R (Interactive.batch_refresh server).
Proof.
  unfold Interactive.batch_refresh.
  do 6 (apply obeys_bind; [obey idtac|intros _]).
  apply (obeys_bind_yields (Forall (fun url => Interactive.validate_url url = true)));
    [obey idtac|apply collect_urls_yields|intros urls Hv].
  destruct (negb (nonempty urls)); [obey idtac|].
  apply obeys_bind; [obey idtac|intros _].
  apply (obeys_bind_yields proxy_ok);
    [apply tool_ask_batch_proxy|apply ask_batch_proxy_yields|intros proxy Hp].
  apply obeys_bind; [now apply tool_batch_loop|intros results].
  apply obeys_bind; [apply tool_batch_summary|intros _].
  obey tool.
Qed.

End FullToolFlows.

(** A loop obeys what each of its rounds obeys. *)
Lemma obeys_while_true {P : event -> Prop} {R : world -> world -> Prop}
    {HP : Permits P} {HR : Passage R} (round : M bool) :
  obeys P R round -> forall fuel, obeys P R (while_true fuel round).
Proof.
  intros H. induction fuel as [|fuel IH]; cbn [while_true]; [apply obeys_ret|].
  apply obeys_bind; [exact H|intros [|]; [apply obeys_ret|exact IH]].
Qed.

Section FullToolMain.
Context {RT : PyRuntime} {R : world -> world -> Prop} {HR : Passage R}.

Lemma tool_press_enter :
  obeys (tool_event Interactive.default_server_url) R Interactive.press_enter.
Proof. unfold Interactive.press_enter. obey idtac. Qed.

Lemma tool_menu_choice (choice : pystr) :
  obeys (tool_event Interactive.default_server_url) R (Interactive.menu_choice choice).
Proof.
  unfold Interactive.menu_choice.
  repeat match goal with
    | |- obeys _ _ (if ?c then _ else _) => destruct c
    end.
  - apply obeys_bind; [apply tool_refresh_single_url|intros _; apply tool_press_enter].
  - apply obeys_bind; [apply tool_view_cached_cookies|intros _; apply tool_press_enter].
  - apply obeys_bind; [apply tool_batch_refresh|intros _; apply tool_press_enter].
  - obey idtac.
  - obey idtac.
  - apply obeys_bind; [obey idtac|intros _; apply tool_press_enter].
Qed.

Lemma tool_menu_round :
  obeys (tool_event Interactive.default_server_url) R Interactive.menu_round.
Proof.
  unfold Interactive.menu_round.
  apply obeys_bind; [unfold Interactive.print_menu; obey idtac|intros _].
  apply obeys_bind; [obey idtac|intros line].
  apply tool_menu_choice.
Qed.

Lemma tool_probe_run :
  obeys (tool_event Interactive.default_server_url) R Interactive.probe.
Proof. unfold Interactive.probe. obey ltac:(apply tool_probe). Qed.

End FullToolMain.

(** ** The menu loop of the full tool comes to an end *)

(** A computation that starts by reading a line leaves fewer lines than it
    found, when it returns. *)
Lemma input_then_shrinks {A : Type} {P : event -> Prop} (prompt : pystr)
    (f : pystr -> M A) :
  (forall line, obeys P shrinks (f line)) ->
  forall w a w' t,
    bind (input prompt) f w = (Ok a, w', t) ->
    length (stdin w') < length (stdin w).
Proof.
  intros H w a w' t. unfold bind, input.
  destruct (stdin w) as [|l rest] eqn:E; [discriminate|].
  destruct (H l (mkWorld rest (network w) (clock w) (disk w))) as [_ Hs].
  destruct (f l _) as [[r w2] t2]. intros Heq. inversion Heq; subst.
  unfold shrinks in Hs. cbn in Hs. cbn. lia.
Qed.

(** A loop whose rounds each use up a line is left, or raises, within as
    many rounds as there are lines, one more round finding none; rounds
    allowed beyond that change nothing. *)
Lemma while_true_ends (round : M bool) :
  (forall w stop w' t,
      round w = (Ok stop, w', t) -> length (stdin w') < length (stdin w)) ->
  forall fuel w,
    length (stdin w) < fuel ->
    run_result (while_true fuel round w) <> Ok None /\
    forall more, while_true (fuel + more) round w = while_true fuel round w.
Proof.
  intros Hround. induction fuel as [|fuel IH]; intros w Hlen; [lia|].
  cbn [while_true Nat.add]. unfold bind.
  destruct (round w) as [[[stop|e] w1] t1] eqn:E.
  - apply Hround in E.
    destruct stop.
    + cbn. split; [discriminate|reflexivity].
    + destruct (IH w1 ltac:(lia)) as [Hne Hmore]. split.
      * destruct (while_true fuel round w1) as [[r w2] t2]. exact Hne.
      * intros more. now rewrite Hmore.
  - cbn. split; [discriminate|reflexivity].
Qed.

Lemma print_menu_run (w : world) :
  exists t, Interactive.print_menu w = (Ok tt, w, t).
Proof. eexists. reflexivity. Qed.

Lemma print_header_run (w : world) :
  exists t, Interactive.print_header w = (Ok tt, w, t).
Proof. eexists. reflexivity. Qed.

Lemma menu_round_reads {RT : PyRuntime} (w : world) (stop : bool) (w' : world)
    (t : list event) :
  Interactive.menu_round w = (Ok stop, w', t) ->
  length (stdin w') < length (stdin w).
Proof.
  unfold Interactive.menu_round. unfold bind at 1.
  destruct (print_menu_run w) as [t0 ->].
  destruct (bind (input _) _ w) as [[r w1] t1] eqn:E.
  intros Heq. inversion Heq; subst.
  apply (input_then_shrinks (P := tool_event Interactive.default_server_url)) in E;
    [exact E|].
  intros line. apply tool_menu_choice.
Qed.

Lemma probe_keeps_stdin (w : world) :
  stdin (run_world (Interactive.probe w)) = stdin w.
Proof.
  unfold Interactive.probe, try_except, bind, request, print, emit, ret.
  destruct (network w 0) as [st body|e]; cbn; [|reflexivity].
  now destruct (st =? 200)%Z.
Qed.

(** A computation that only prints, and what follows it *)
Lemma after_prints {B : Type} (m : M unit) (f : M B) (w : world) (t0 : list event) :
  m w = (Ok tt, w, t0) ->
  bind m (fun _ => f) w =
  (run_result (f w), run_world (f w), t0 ++ run_trace (f w)).
Proof.
  intros H. unfold bind. rewrite H. now destruct (f w) as [[r w1] t1].
Qed.

(** X7.  The menu loop of the full tool comes to an end on every finite
    input: each round reads at least the line of the choice, so that once
    the rounds allowed outnumber the lines that the user types, the run of
    [main] is not cut short (it returns, or it raises) and no longer
    depends on the number of rounds allowed. *)
Theorem full_tool_menu_ends {RT : PyRuntime} (w : world) (fuel : nat) :
  length (stdin w) < fuel ->
  run_result (Interactive.main fuel w) <> Ok None /\
  forall more, Interactive.main (fuel + more) w = Interactive.main fuel w.
Proof.
  intros Hlen.
  assert (Hcore : forall n,
             Interactive.main n w =
             (run_result (bind Interactive.probe
                            (fun connected =>
                               if connected
                               then while_true n Interactive.menu_round
                               else ret (Some tt)) w),
              run_world (bind Interactive.probe
                           (fun connected =>
                              if connected
                              then while_true n Interactive.menu_round
                              else ret (Some tt)) w),
              run_trace (Interactive.print_header w) ++
              [EPrint (u "⚙️  初始化..."); EPrint (u "   检查服务器连接...")] ++
              run_trace (bind Interactive.probe
                           (fun connected =>
                              if connected
                              then while_true n Interactive.menu_round
                              else ret (Some tt)) w))).
  { intros n. unfold Interactive.main.
    destruct (print_header_run w) as [t0 Ht0].
    rewrite (after_prints _ _ _ _ Ht0), Ht0.
    rewrite (after_prints _ _ _ _ (eq_refl : print _ w = (Ok tt, w, [_]))).
    cbn [run_result run_world run_trace fst snd].
    rewrite (after_prints _ _ _ _ (eq_refl : print _ w = (Ok tt, w, [_]))).
    cbn [run_result run_world run_trace fst snd app]. reflexivity. }
  assert (Hloop :
            run_result (bind Interactive.probe
                          (fun connected =>
                             if connected
                             then while_true fuel Interactive.menu_round
                             else ret (Some tt)) w) <> Ok None /\
            forall more,
              bind Interactive.probe
                (fun connected =>
                   if connected
                   then while_true (fuel + more) Interactive.menu_round
                   else ret (Some tt)) w =
              bind Interactive.probe
                (fun connected =>
                   if connected
                   then while_true fuel Interactive.menu_round
                   else ret (Some tt)) w).
  { unfold bind. pose proof (probe_keeps_stdin w) as Hp.
    destruct (Interactive.probe w) as [[[connected|e] w1] t1];
      cbn [run_result run_world run_trace fst snd] in *;
      [|split; [discriminate|reflexivity]].
    destruct connected; [|split; [discriminate|reflexivity]].
    rewrite <- Hp in Hlen.
    destruct (while_true_ends Interactive.menu_round menu_round_reads fuel w1 Hlen)
      as [Hne Hmore].
    split.
    - now destruct (while_true fuel Interactive.menu_round w1) as [[r w2] t2].
    - intros more. now rewrite Hmore. }
  destruct Hloop as [Hne Hmore]. split.
  - rewrite Hcore. exact Hne.
  - intros more. now rewrite !Hcore, Hmore.
Qed.

Lemma full_tool_menu_ends_witness :
  run_result
    (Interactive.main (RT := CPython) 4
       (scripted [u "7"; u ""; u "0"] (fun _ => Responded 200 (Ok JNull)))) <>
  Ok None /\
  forall more,
    Interactive.main (RT := CPython) (4 + more)
      (scripted [u "7"; u ""; u "0"] (fun _ => Responded 200 (Ok JNull))) =
    Interactive.main (RT := CPython) 4
      (scripted [u "7"; u ""; u "0"] (fun _ => Responded 200 (Ok JNull))).
Proof.
  apply (full_tool_menu_ends (RT := CPython)). cbn. lia.
Defined.

(** ** The full tool as a whole *)

(** X6.  Whatever the user types, whatever the service answers and whatever
    the clock and the disk do, and for any number of rounds of the menu,
    every event of a run of [main] is one of those of [tool_event]: a line
    printed or read, the probe of [/cache/stats] with its timeout of 5
    seconds, a refresh of a URL that passes [validate_url], with no proxy or
    one that starts with an accepted scheme, under a timeout of 120 seconds,
    a look-up of the cookies of such a URL under a timeout of 60 seconds, a
    pause of 2 seconds, or the writing of a file named
    [cookie_refresh_<time>.json] or [cookie_refresh_batch_<time>.json]. *)
Theorem full_tool_footprint {RT : PyRuntime} (fuel : nat) (w : world) :
  Forall (tool_event Interactive.default_server_url)
         (run_trace (Interactive.main fuel w)).
Proof.
  assert (H : obeys (tool_event Interactive.default_server_url) anywhere
                (Interactive.main fuel)).
  { unfold Interactive.main.
    apply obeys_bind; [unfold Interactive.print_header; obey idtac|intros _].
    apply obeys_bind; [obey idtac|intros _].
    apply obeys_bind; [obey idtac|intros _].
    apply obeys_bind; [apply tool_probe_run|intros [|]]; [|obey idtac].
    apply obeys_while_true, tool_menu_round. }
  exact (proj1 (H w)).
Qed.

(** X8.  When the probe of the service does not come back with the status
    200 (another status, whatever the body, or any exception), [main]
    prints its report and returns: the menu is not shown, no line is read,
    and the probe is the only request of the run. *)
Theorem main_stops_when_probe_fails {RT : PyRuntime} (fuel : nat) (w : world) :
  answered_200 (network w 0) = false ->
  Interactive.main fuel w =
    (Ok (Some tt), sent w,
     run_trace (Interactive.print_header w) ++
     [EPrint (u "⚙️  初始化..."); EPrint (u "   检查服务器连接...");
      ERequest GET (u "http://localhost:8000/cache/stats") [] (Some 5%N)] ++
     map EPrint (probe_report (network w 0))).
Proof.
  intros H. unfold Interactive.main.
  destruct (print_header_run w) as [t0 Ht0].
  rewrite (after_prints _ _ _ _ Ht0), Ht0.
  rewrite (after_prints _ _ _ _ (eq_refl : print _ w = (Ok tt, w, [_]))).
  cbn [run_result run_world run_trace fst snd].
  rewrite (after_prints _ _ _ _ (eq_refl : print _ w = (Ok tt, w, [_]))).
  cbn [run_result run_world run_trace fst snd app].
  unfold Interactive.probe, try_except, bind, request, print, emit, ret, sent,
    probe_report, answered_200 in *.
  destruct (network w 0) as [st body|e]; cbn.
  - rewrite H. reflexivity.
  - reflexivity.
Qed.

Lemma main_stops_when_probe_fails_witness :
  filter is_request
    (run_trace (Interactive.main (RT := CPython) 3
                  (scripted [u "1"; u "example.com"] (fun _ => unreachable)))) =
  [ERequest GET (u "http://localhost:8000/cache/stats") [] (Some 5%N)] /\
  stdin (run_world (Interactive.main (RT := CPython) 3
                      (scripted [u "1"; u "example.com"] (fun _ => unreachable)))) =
  [u "1"; u "example.com"].
Proof.
  rewrite (main_stops_when_probe_fails (RT := CPython) 3
             (scripted [u "1"; u "example.com"] (fun _ => unreachable)) eq_refl).
  split; reflexivity.
Defined.

(** ** The look-up clients *)

Lemma example_refresh_cookies_request {RT : PyRuntime} (server url : pystr)
    (proxy : option pystr) (w : world) :
  exists t,
    Example.refresh_cookies server url proxy w =
      (Ok (answer (network w 0)), sent w, t) /\
    filter is_request t =
      [ERequest POST (server ++ u "/cache/refresh") (refresh_params url proxy) None].
Proof.
  unfold Example.refresh_cookies, try_except, bind, request, print, emit,
    when, resp_json, lift, ret, sent, answer.
  destruct (network w 0) as [st [j|e]|e]; cbn.
  all: try (destruct (st =? 200)%Z; cbn).
  all: try (destruct j; cbn).
  all: eexists; split; [reflexivity|reflexivity].
Qed.

Lemma example_get_cache_stats_run {RT : PyRuntime} (server : pystr) (w : world) :
  exists t,
    Example.get_cache_stats server w = (Ok (answer (network w 0)), sent w, t) /\
    filter is_request t = [ERequest GET (server ++ u "/cache/stats") [] None].
Proof.
  unfold Example.get_cache_stats, try_except, bind, request, print, emit,
    resp_json, lift, ret, sent, answer.
  destruct (network w 0) as [st [j|e]|e]; cbn.
  all: try (destruct (st =? 200)%Z; cbn).
  all: eexists; split; [reflexivity|reflexivity].
Qed.

Lemma example_get_cookies_run {RT : PyRuntime} (server url : pystr) (w : world) :
  exists t,
    Example.get_cookies server url w = (Ok (answer (network w 0)), sent w, t) /\
    filter is_request t =
      [ERequest GET (server ++ u "/cookies") [(u "url", url)] None].
Proof.
  unfold Example.get_cookies, try_except, bind, request, print, emit,
    resp_json, lift, ret, sent, answer.
  destruct (network w 0) as [st [j|e]|e]; cbn.
  all: try (destruct (st =? 200)%Z; cbn).
  all: try (destruct j; cbn).
  all: eexists; split; [reflexivity|reflexivity].
Qed.

Lemma get_cookies_run {RT : PyRuntime} (server url : pystr) (w : world) :
  Interactive.get_cookies server url w =
    (Ok (answer (network w 0)), sent w,
     [ERequest GET (server ++ u "/cookies") [(u "url", url)] (Some 60%N)]).
Proof.
  unfold Interactive.get_cookies, try_except, bind, request, resp_json, lift,
    ret, sent, answer.
  destruct (network w 0) as [st [j|e]|e]; cbn.
  all: try (destruct (st =? 200)%Z; cbn).
  all: reflexivity.
Qed.

(** X14.  The look-up clients never raise.  In the full tool the look-up
    is silent too: whatever the outcome of the request, [get_cookies] sends
    one GET to [/cookies] with the URL and a timeout of 60 seconds, prints
    nothing, and returns the body of a 200 answer, [None] in every other
    case (another status, a body that is not JSON, any exception).  The
    two look-ups of the demo client, [get_cookies] and [get_cache_stats],
    return the same way, each after one GET without a timeout. *)
Theorem lookup_clients_always_return {RT : PyRuntime} (server url : pystr) (w : world) :
  Interactive.get_cookies server url w =
    (Ok (answer (network w 0)), sent w,
     [ERequest GET (server ++ u "/cookies") [(u "url", url)] (Some 60%N)]) /\
  (exists t,
      Example.get_cookies server url w = (Ok (answer (network w 0)), sent w, t) /\
      filter is_request t =
        [ERequest GET (server ++ u "/cookies") [(u "url", url)] None]) /\
  (exists t,
      Example.get_cache_stats server w = (Ok (answer (network w 0)), sent w, t) /\
      filter is_request t = [ERequest GET (server ++ u "/cache/stats") [] None]).
Proof.
  split; [apply get_cookies_run|split].
  - apply example_get_cookies_run.
  - apply example_get_cache_stats_run.
Qed.

(** ** Looking at the cached cookies *)

#[export] Instance converses_permits : Permits converses.
Proof. now split. Qed.

Lemma converses_quiet (t : list event) :
  Forall converses t ->
  filter is_request t = [] /\ filter is_write t = [] /\ schedule t = [].
Proof.
  induction 1 as [|e t He Ht [IH1 [IH2 IH3]]]; [now repeat split|].
  destruct e; try contradiction; cbn; now repeat split.
Qed.

Lemma show_cookies_converses {RT : PyRuntime} (url : pystr) (cookies_result : json) :
  obeys converses anywhere (Interactive.show_cookies url cookies_result).
Proof. apply obeys_show_cookies. Qed.

(** X15.  Looking at the cached cookies never refreshes anything: whatever
    is typed and answered, a run of [view_cached_cookies] sends no POST,
    never pauses, writes no file, and sends at most one request, the GET of
    [/cookies] for the URL typed, normalized, when that URL passes
    [validate_url].  When the look-up then hands back nothing (any status
    but 200, any exception, a body that tests false), the run ends on the
    line that says that no cached cookie was found. *)
Theorem view_cached_cookies_only_looks_up
    {RT : PyRuntime} (server : pystr) (w : world) :
  let t := run_trace (Interactive.view_cached_cookies server w) in
  schedule t = [] /\
  filter is_write t = [] /\
  (filter is_request t = [] \/
   exists line rest,
     stdin w = line :: rest /\
     Interactive.validate_url (typed_url line) = true /\
     filter is_request t =
       [ERequest GET (server ++ u "/cookies") [(u "url", typed_url line)]
                 (Some 60%N)] /\
     (truthy (answer (network w 0)) = false ->
      Interactive.view_cached_cookies server w =
        (Ok tt, mkWorld rest (tail_of (network w)) (clock w) (disk w),
         [EPrint (nl ++ u "📝 请输入要查看的网址:");
          EInput (u "   网址: ");
          EPrint (nl ++ u "⏳ 正在获取 Cookie...");
          ERequest GET (server ++ u "/cookies") [(u "url", typed_url line)]
                   (Some 60%N);
          EPrint (u "   ⚠️ 未找到缓存的 Cookie（可能需要先刷新）")]))).
Proof.
  cbv zeta.
  unfold Interactive.view_cached_cookies, bind, print, emit, input.
  destruct (stdin w) as [|line rest] eqn:Ein.
  { cbn. repeat split; now left. }
  cbn -[typed_url strip]. fold (typed_url line).
  destruct (negb (nonempty (strip line))) eqn:Eblank.
  { cbn. repeat split; now left. }
  destruct (negb (Interactive.validate_url (typed_url line))) eqn:Ev.
  { cbn. repeat split; now left. }
  apply negb_false in Ev.
  rewrite get_cookies_run. cbn [network stdin clock disk sent].
  destruct (truthy (answer (network w 0))) eqn:Et.
  - pose proof (show_cookies_converses (typed_url line) (answer (network w 0))
                  (sent (mkWorld rest (network w) (clock w) (disk w)))) as [Hq _].
    unfold sent in Hq. cbn [network stdin clock disk] in Hq.
    destruct (Interactive.show_cookies _ _ _) as [[r w3] t3].
    cbn [run_trace snd] in *.
    destruct (converses_quiet _ Hq) as [H1 [H2 H3]].
    cbn [app schedule filter is_write is_request]. rewrite H1, H2, H3.
    repeat split. right. exists line, rest. repeat split; auto. discriminate.
  - cbn. repeat split. right. exists line, rest. repeat split; auto.
Qed.

(** ** A single refresh concerns the URL typed *)

#[export] Instance about_permits (url : pystr) : Permits (about url).
Proof. now split. Qed.

(** X22.  A single refresh is about the URL typed, and about nothing
    else: every request that a run of [refresh_single_url] sends (the
    refresh, and the look-up of the cookies when the user asks for them)
    carries the line typed, stripped and normalized, as its [url], and a
    result that is saved is saved under that URL. *)
Theorem single_refresh_is_about_the_url_typed
    {RT : PyRuntime} (server : pystr) (w : world) (line : pystr) (rest : list pystr) :
  stdin w = line :: rest ->
  Forall (about (typed_url line)) (run_trace (Interactive.refresh_single_url server w)).
Proof.
  intros Hin. unfold Interactive.refresh_single_url.
  rewrite (after_prints _ _ _ _ (eq_refl : print _ w = (Ok tt, w, [_]))).
  rewrite (after_prints _ _ _ _ (eq_refl : print _ w = (Ok tt, w, [_]))).
  cbn [run_result run_world run_trace fst snd].
  repeat (apply Forall_cons; [exact I|]).
  unfold bind at 1. unfold input at 1. rewrite Hin. cbv zeta. fold (typed_url line).
  match goal with
  | |- Forall _ (run_trace (let (p, t1) := ?m ?w1 in _)) =>
      assert (H : obeys (about (typed_url line)) anywhere m);
      [|destruct (H w1) as [Ht _]; destruct (m w1) as [[r w2] t2];
        cbn [run_trace snd] in *; now constructor]
  end.
  destruct (negb (nonempty (strip line))); [obey idtac|].
  destruct (negb (Interactive.validate_url (typed_url line))); [obey idtac|].
  unfold Interactive.ask_proxy, Interactive.after_refresh.
  obey ltac:(first [apply param_url | reflexivity | assumption]).
Qed.

Lemma single_refresh_is_about_the_url_typed_witness :
  filter is_request
    (run_trace (Interactive.refresh_single_url (RT := CPython) (u "http://localhost:8000")
                  (scripted [u " example.com "; u "n"; u "y"; u "n"]
                            (fun _ => Responded 200 (Ok success_body))))) =
  [ERequest POST (u "http://localhost:8000/cache/refresh")
            [(u "url", u "https://example.com")] (Some 120%N);
   ERequest GET (u "http://localhost:8000/cookies")
            [(u "url", u "https://example.com")] (Some 60%N)] /\
  Forall (about (u "https://example.com"))
    (run_trace (Interactive.refresh_single_url (RT := CPython) (u "http://localhost:8000")
                  (scripted [u " example.com "; u "n"; u "y"; u "n"]
                            (fun _ => Responded 200 (Ok success_body))))).
Proof.
  split; [reflexivity|].
  exact (single_refresh_is_about_the_url_typed (RT := CPython)
           (u "http://localhost:8000")
           (scripted [u " example.com "; u "n"; u "y"; u "n"]
                     (fun _ => Responded 200 (Ok success_body)))
           (u " example.com ") [u "n"; u "y"; u "n"] eq_refl).
Defined.

(** ** The question with a yes or a no for an answer *)

Lemma get_yes_no_from_answered (prompt : pystr) (skipped : list pystr) (line : pystr)
    (rest : list pystr) :
  Forall (fun l => answers_yes_no l = false) skipped ->
  answers_yes_no line = true ->
  Interactive.get_yes_no_from prompt (skipped ++ line :: rest) =
    (Ok (says_yes line), rest,
     concat (map (asked_again prompt) skipped) ++ [EInput prompt]).
Proof.
  intros Hskip Hline.
  induction Hskip as [|l skipped Hl Hskip IH]; cbn [app Interactive.get_yes_no_from].
  - unfold answers_yes_no, says_yes, says_no in *.
    destruct (str_in (lower (strip line)) [u "y"; u "yes"; u "是"; u "1"]);
      [reflexivity|].
    cbn [orb] in Hline. now rewrite Hline.
  - unfold answers_yes_no, says_yes, says_no in Hl.
    apply orb_false_iff in Hl as [Hy Hn]. rewrite Hy, Hn, IH. reflexivity.
Qed.

Lemma get_yes_no_from_unanswered (prompt : pystr) (lines : list pystr) :
  Forall (fun l => answers_yes_no l = false) lines ->
  Interactive.get_yes_no_from prompt lines =
    (Raised (mkExn EOFError (u "EOF when reading a line")), [],
     concat (map (asked_again prompt) lines) ++ [EInput prompt]).
Proof.
  induction 1 as [|l lines Hl Hlines IH]; cbn [Interactive.get_yes_no_from];
    [reflexivity|].
  unfold answers_yes_no, says_yes, says_no in Hl.
  apply orb_false_iff in Hl as [Hy Hn]. rewrite Hy, Hn, IH. reflexivity.
Qed.

(** X16.  [get_yes_no] asks until it is answered.  Each line that is
    neither a yes ([y], [yes], [是], [1]) nor a no ([n], [no], [否], [0]),
    in any case of the letters and with any blanks around, is refused with
    one line of complaint and the question is put again; the first line
    that is an answer is returned as a boolean, and the lines after it are
    left unread.  If the lines run out before an answer comes, the
    [EOFError] of [input] escapes. *)
Theorem get_yes_no_asks_until_answered
    (prompt : pystr) (skipped : list pystr) (w : world) :
  Forall (fun l => answers_yes_no l = false) skipped ->
  (forall line rest,
      answers_yes_no line = true ->
      stdin w = skipped ++ line :: rest ->
      Interactive.get_yes_no prompt w =
        (Ok (says_yes line), mkWorld rest (network w) (clock w) (disk w),
         concat (map (asked_again prompt) skipped) ++ [EInput prompt])) /\
  (stdin w = skipped ->
   Interactive.get_yes_no prompt w =
     (Raised (mkExn EOFError (u "EOF when reading a line")),
      mkWorld [] (network w) (clock w) (disk w),
      concat (map (asked_again prompt) skipped) ++ [EInput prompt])).
Proof.
  intros Hskip. split.
  - intros line rest Hline Hin. unfold Interactive.get_yes_no.
    now rewrite Hin, (get_yes_no_from_answered prompt skipped line rest Hskip Hline).
  - intros Hin. unfold Interactive.get_yes_no.
    now rewrite Hin, (get_yes_no_from_unanswered prompt skipped Hskip).
Qed.

Lemma get_yes_no_asks_until_answered_witness :
  Interactive.get_yes_no (u "? ")
    (scripted [u "maybe"; u ""; u " YES "; u "n"] (fun _ => unreachable)) =
  (Ok true, scripted [u "n"] (fun _ => unreachable),
   [EInput (u "? "); EPrint (u "   ❌ 请输入 y/n (是/否)");
    EInput (u "? "); EPrint (u "   ❌ 请输入 y/n (是/否)");
    EInput (u "? ")]).
Proof.
  destruct (get_yes_no_asks_until_answered (u "? ") [u "maybe"; u ""]
              (scripted [u "maybe"; u ""; u " YES "; u "n"] (fun _ => unreachable)))
    as [H _].
  - repeat constructor.
  - exact (H (u " YES ") [u "n"] eq_refl eq_refl).
Defined.

(** ** The reader of the URLs of a batch *)

Lemma collect_urls_from_run {RT : PyRuntime} (lines : list pystr) (blank : pystr)
    (rest : list pystr) :
  Forall (fun l => is_blank l = false) lines ->
  is_blank blank = true ->
  forall urls,
    Interactive.collect_urls_from (lines ++ blank :: rest) urls =
      (Ok (urls ++ filter Interactive.validate_url (map typed_url lines)), rest,
       url_dialogue (length urls) lines ++
       [EInput (u "   [" ++
                str_of_nat (length (urls ++ filter Interactive.validate_url
                                                   (map typed_url lines)) + 1) ++
                u "] 网址: ")]).
Proof.
  intros Hlines Hblank. unfold is_blank in *.
  induction Hlines as [|l lines Hl Hlines IH]; intros urls;
    cbn [app Interactive.collect_urls_from map filter url_dialogue].
  - rewrite Hblank, app_nil_r. reflexivity.
  - rewrite Hl. fold (typed_url l).
    destruct (Interactive.validate_url (typed_url l)).
    + rewrite IH, <- app_assoc, length_app. cbn [app length].
      replace (length urls + 1) with (S (length urls)) by lia.
      reflexivity.
    + rewrite IH. reflexivity.
Qed.

(** X17.  The reader of [batch_refresh] reads up to the first blank line
    and keeps, in the order typed, the normalized form of exactly those
    lines before it that pass [validate_url]; for each line that does not
    it prints one warning, and asks again under the same number: the
    number in the prompt is one more than the number of URLs kept so far.
    The lines after the blank one are left unread. *)
Theorem collect_urls_keeps_the_valid_lines
    {RT : PyRuntime} (lines : list pystr) (blank : pystr) (rest : list pystr)
    (w : world) :
  Forall (fun l => is_blank l = false) lines ->
  is_blank blank = true ->
  stdin w = lines ++ blank :: rest ->
  let kept := filter Interactive.validate_url (map typed_url lines) in
  Interactive.collect_urls w =
    (Ok kept, mkWorld rest (network w) (clock w) (disk w),
     url_dialogue 0 lines ++
     [EInput (u "   [" ++ str_of_nat (length kept + 1) ++ u "] 网址: ")]) /\
  filter is_print (url_dialogue 0 lines) =
    map (fun url => EPrint (u "   ❌ 网址格式无效，跳过: " ++ url))
        (filter (fun url => negb (Interactive.validate_url url))
                (map typed_url lines)).
Proof.
  intros Hlines Hblank Hin. cbv zeta. split.
  - unfold Interactive.collect_urls.
    now rewrite Hin, (collect_urls_from_run lines blank rest Hlines Hblank []).
  - clear. generalize 0.
    induction lines as [|l lines IH]; intros n; [reflexivity|].
    cbn [url_dialogue map filter is_print].
    destruct (Interactive.validate_url (typed_url l)); cbn [negb filter is_print].
    + apply IH.
    + now rewrite IH.
Qed.

Lemma collect_urls_keeps_the_valid_lines_witness :
  run_result
    (Interactive.collect_urls (RT := CPython)
       (scripted [u "a.com"; u "https://"; u " http://b.org/x "; u " "; u "c.com"]
                 (fun _ => unreachable))) =
  Ok [u "https://a.com"; u "http://b.org/x"].
Proof.
  destruct (collect_urls_keeps_the_valid_lines (RT := CPython)
              [u "a.com"; u "https://"; u " http://b.org/x "] (u " ") [u "c.com"]
              (scripted [u "a.com"; u "https://"; u " http://b.org/x "; u " "; u "c.com"]
                        (fun _ => unreachable))) as [H _].
  - repeat constructor.
  - reflexivity.
  - reflexivity.
  - rewrite H. reflexivity.
Defined.

(** ** The records of a batch *)

Lemma record_of_settled (url : pystr) (result : json) :
  settled (record_of url result) = true.
Proof. unfold record_of. now destruct (succeeded result). Qed.

Lemma records_settled (urls : list pystr) :
  forall answers, Forall (fun r => settled r = true) (records urls answers).
Proof.
  induction urls as [|url rest IH]; intros answers; cbn [records]; constructor.
  - apply record_of_settled.
  - apply IH.
Qed.

Lemma records_length (urls : list pystr) :
  forall answers, length (records urls answers) = length urls.
Proof.
  induction urls as [|url rest IH]; intros answers; cbn [records length];
    [reflexivity|now rewrite IH].
Qed.

Lemma records_urls (urls : list pystr) :
  forall answers,
    map (fun r => field r (u "url")) (records urls answers) = map JStr urls.
Proof.
  induction urls as [|url rest IH]; intros answers; [reflexivity|].
  cbn [records map]. rewrite IH. f_equal.
  unfold record_of. now destruct (succeeded (answer (answers 0))).
Qed.

Lemma record_of_status (url : pystr) (result : json) :
  has_status (u "success") (record_of url result) = succeeded result /\
  has_status (u "failed") (record_of url result) = negb (succeeded result).
Proof. unfold record_of. now destruct (succeeded result). Qed.

Lemma records_nth (urls : list pystr) :
  forall answers k,
    k < length urls ->
    nth k (records urls answers) JNull =
    record_of (nth k urls []) (answer (answers k)).
Proof.
  induction urls as [|url rest IH]; intros answers k Hk; cbn in Hk; [lia|].
  destruct k as [|k]; [reflexivity|].
  cbn [records nth]. now rewrite (IH (tail_of answers) k) by lia.
Qed.

(** X24.  The loop of a batch keeps one record per URL, in the order of
    the URLs.  Over URLs that pass [validate_url], the service keeping to
    its contract, it returns the records of [records]: the k-th record
    carries the k-th URL; it is a success, with the [hostname], the
    [cookies_count] and (as [time_ms]) the [generation_time_ms] of the
    answer, exactly when the k-th answer is an object received with the
    status 200 whose [status] is [success]; otherwise it is a failure that
    carries the URL alone. *)
Theorem batch_records_follow_the_urls
    {RT : PyRuntime} (server_url : pystr) (proxy : option pystr)
    (urls : list pystr) (w : world) :
  Forall (fun url => Interactive.validate_url url = true) urls ->
  (forall k, k < length urls -> well_formed (network w k) = true) ->
  run_result (Interactive.batch_loop server_url (length urls) 1 urls proxy [] w) =
    Ok (records urls (network w)) /\
  length (records urls (network w)) = length urls /\
  map (fun r => field r (u "url")) (records urls (network w)) = map JStr urls /\
  forall k,
    k < length urls ->
    nth k (records urls (network w)) JNull =
      record_of (nth k urls []) (answer (network w k)) /\
    has_status (u "success") (nth k (records urls (network w)) JNull) =
      succeeded (answer (network w k)) /\
    has_status (u "failed") (nth k (records urls (network w)) JNull) =
      negb (succeeded (answer (network w k))).
Proof.
  intros Hvalid Hnet.
  destruct (batch_loop_run server_url proxy urls (length urls) 1 [] w)
    as [t [Hrun _]]; [|exact Hnet|].
  { intros url Hin. apply validate_url_parses.
    rewrite Forall_forall in Hvalid. now apply Hvalid. }
  split; [now rewrite Hrun|].
  split; [apply records_length|].
  split; [apply records_urls|].
  intros k Hk. rewrite (records_nth urls (network w) k Hk).
  split; [reflexivity|apply record_of_status].
Qed.

Lemma batch_records_follow_the_urls_witness :
  run_result
    (Interactive.batch_loop (RT := CPython) (u "http://localhost:8000") 2 1
       [u "https://a.com"; u "https://b.com"] None []
       (scripted [] success_then_unreachable)) =
  Ok [JObj [(u "url", JStr (u "https://a.com"));
            (u "hostname", JStr (u "a.com"));
            (u "cookies_count", JInt 5);
            (u "time_ms", JInt 1500);
            (u "status", JStr (u "success"))];
      JObj [(u "url", JStr (u "https://b.com")); (u "status", JStr (u "failed"))]].
Proof.
  destruct (batch_records_follow_the_urls (RT := CPython) (u "http://localhost:8000")
              None [u "https://a.com"; u "https://b.com"]
              (scripted [] success_then_unreachable)) as [H _].
  - repeat constructor.
  - intros [|[|k]] Hk; [reflexivity|reflexivity|cbn in Hk; lia].
  - exact H.
Defined.

(** ** The summary of a batch *)

Lemma settled_obj (r : json) :
  settled r = true ->
  exists kv st, r = JObj kv /\ dict_lookup kv (u "status") = Some st.
Proof.
  unfold settled, has_status. destruct r as [| | | | |kv]; try discriminate.
  destruct (dict_lookup kv (u "status")) as [st|] eqn:E; [|discriminate].
  intros _. now exists kv, st.
Qed.

Lemma has_status_obj (kv : dict) (st : json) (s : pystr) :
  dict_lookup kv (u "status") = Some st ->
  has_status s (JObj kv) = eq_str st s.
Proof. intros E. unfold has_status. now rewrite E. Qed.

Lemma sum_time_ms_timed (results : list json) :
  Forall (fun r => settled r = true) results ->
  Forall (fun r => timed r = true) results ->
  forall acc, Interactive.sum_time_ms results acc = Ok (acc + total_time results)%Z.
Proof.
  induction 1 as [|r results Hr _ IH]; intros Ht acc.
  - cbn. now rewrite Z.add_0_r.
  - inversion Ht as [|? ? Htr Htrest]; subst.
    destruct (settled_obj r Hr) as [kv [st [-> Est]]].
    cbn [Interactive.sum_time_ms py_getitem total_time time_ms_of].
    unfold timed in Htr. cbn [time_ms_of] in Htr.
    rewrite (has_status_obj kv st _ Est) in *. rewrite Est.
    destruct (eq_str st (u "success")); cbn [negb orb] in Htr.
    + cbn [py_get]. unfold get_or in *.
      destruct (dict_lookup kv (u "time_ms")) as [[|b|z|s|l|o]|];
        try discriminate; rewrite (IH Htrest); f_equal;
        try destruct b; cbn [number_of]; lia.
    + rewrite (IH Htrest). f_equal; lia.
Qed.

Lemma sum_time_ms_untimed (results : list json) :
  Forall (fun r => settled r = true) results ->
  Exists (fun r => timed r = false) results ->
  forall acc,
    exists e, Interactive.sum_time_ms results acc = Raised e /\ exn_cls e = TypeError.
Proof.
  induction 1 as [|r results Hr _ IH]; intros Hex acc; [inversion Hex|].
  destruct (settled_obj r Hr) as [kv [st [-> Est]]].
  cbn [Interactive.sum_time_ms py_getitem]. rewrite Est.
  assert (Hrest : timed (JObj kv) = true -> Exists (fun r => timed r = false) results).
  { intros Ht. inversion Hex; subst; [congruence|assumption]. }
  unfold timed in Hrest. cbn [time_ms_of] in Hrest.
  rewrite (has_status_obj kv st _ Est) in Hrest.
  destruct (eq_str st (u "success")); cbn [negb orb] in Hrest.
  - cbn [py_get]. unfold get_or in *.
    destruct (dict_lookup kv (u "time_ms")) as [[|b|z|s|l|o]|]; cbn [is_number] in Hrest.
    all: try (eexists; split; [reflexivity|reflexivity]).
    all: apply IH, Hrest; reflexivity.
  - apply IH, Hrest; reflexivity.
Qed.

Lemma untimed_is_success (results : list json) :
  Exists (fun r => timed r = false) results ->
  0 < length (filter (has_status (u "success")) results).
Proof.
  induction 1 as [r results Hr|r results _ IH]; cbn [filter].
  - unfold timed in Hr. destruct (has_status (u "success") r); [cbn; lia|discriminate].
  - destruct (has_status (u "success") r); cbn [length]; lia.
Qed.

Lemma total_time_without_success (results : list json) :
  length (filter (has_status (u "success")) results) = 0 ->
  total_time results = 0%Z.
Proof.
  induction results as [|r results IH]; [reflexivity|].
  cbn [filter total_time].
  destruct (has_status (u "success") r); [discriminate|].
  intros H. now rewrite (IH H).
Qed.

(** X20.  The summary of a batch counts and averages as follows.  On
    records that each carry the status [success] or [failed], the times of
    the successful ones being numbers, [batch_summary] prints the number of
    records, the number of successful ones, the difference of the two as
    the number of failures and, when at least one succeeded, the sum of the
    times of the successful records divided by their number, rounded down,
    and then that sum; it reads nothing, sends nothing and returns.  When
    the sum is so large that its thousandth is no float, while it can
    still be written, the line of the average is the last one printed and
    the division raises [OverflowError]. *)
Theorem batch_summary_counts_and_averages
    {RT : PyRuntime} (results : list json) (w : world) :
  Forall (fun r => settled r = true) results ->
  Forall (fun r => timed r = true) results ->
  (float_overflow (total_time results) = false ->
   Interactive.batch_summary results w =
     (Ok tt, w, map EPrint (summary_lines results))) /\
  (float_overflow (total_time results) = true ->
   within_digit_limit (total_time results) = true ->
   Interactive.batch_summary results w =
     (Raised (mkExn OverflowError (u "integer division result too large for a float")),
      w, map EPrint (summary_counts results ++ [average_line results]))).
Proof.
  intros Hs Ht.
  split; [intros Hsum|intros Hsum _].
  - unfold Interactive.batch_summary, summary_lines, summary_counts, average_line,
      total_line, bind, lift, print, emit, when, ret.
    rewrite (count_status_settled _ results Hs). cbv zeta.
    destruct (0 <? length (filter (has_status (u "success")) results)).
    + rewrite (sum_time_ms_timed results Hs Ht 0). cbn [Z.add].
      unfold ms_as_seconds. rewrite Hsum. reflexivity.
    + reflexivity.
  - unfold Interactive.batch_summary, summary_counts, average_line,
      bind, lift, print, emit, when, ret.
    rewrite (count_status_settled _ results Hs). cbv zeta.
    destruct (0 <? length (filter (has_status (u "success")) results)) eqn:Hn.
    + rewrite (sum_time_ms_timed results Hs Ht 0). cbn [Z.add].
      unfold ms_as_seconds. rewrite Hsum. reflexivity.
    + apply Nat.ltb_ge in Hn.
      rewrite (total_time_without_success results) in Hsum by lia.
      discriminate Hsum.
Qed.

Lemma batch_summary_counts_and_averages_witness :
  run_trace
    (Interactive.batch_summary (RT := CPython)
       [JObj [(u "url", JStr (u "https://a.com")); (u "hostname", JStr (u "a.com"));
              (u "cookies_count", JInt 5); (u "time_ms", JInt 1500);
              (u "status", JStr (u "success"))];
        JObj [(u "url", JStr (u "https://b.com")); (u "hostname", JStr (u "b.com"));
              (u "cookies_count", JInt 2); (u "time_ms", JInt 2001);
              (u "status", JStr (u "success"))];
        JObj [(u "url", JStr (u "https://c.com")); (u "status", JStr (u "failed"))]]
       (scripted [] (fun _ => unreachable))) =
  map EPrint
    [nl ++ str_mul (u "=") 70;
     u "📊 批量刷新总结";
     str_mul (u "=") 70;
     nl ++ u "   总数: 3";
     u "   ✅ 成功: 2";
     u "   ❌ 失败: 1";
     nl ++ u "   ⏱️  平均耗时: 1750ms";
     u "   总耗时: 3501ms (3.5 秒)";
     nl ++ str_mul (u "=") 70] /\
  run_result
    (Interactive.batch_summary (RT := CPython)
       [JObj [(u "url", JStr (u "https://a.com")); (u "time_ms", JInt (2 * 10 ^ 311));
              (u "status", JStr (u "success"))]]
       (scripted [] (fun _ => unreachable))) =
  Raised (mkExn OverflowError (u "integer division result too large for a float")).
Proof.
  split.
  - destruct (batch_summary_counts_and_averages (RT := CPython)
                [JObj [(u "url", JStr (u "https://a.com"));
                       (u "hostname", JStr (u "a.com"));
                       (u "cookies_count", JInt 5); (u "time_ms", JInt 1500);
                       (u "status", JStr (u "success"))];
                 JObj [(u "url", JStr (u "https://b.com"));
                       (u "hostname", JStr (u "b.com"));
                       (u "cookies_count", JInt 2); (u "time_ms", JInt 2001);
                       (u "status", JStr (u "success"))];
                 JObj [(u "url", JStr (u "https://c.com"));
                       (u "status", JStr (u "failed"))]]
                (scripted [] (fun _ => unreachable))) as [H _].
    + repeat constructor.
    + repeat constructor.
    + rewrite (H eq_refl). reflexivity.
  - destruct (batch_summary_counts_and_averages (RT := CPython)
                [JObj [(u "url", JStr (u "https://a.com"));
                       (u "time_ms", JInt (2 * 10 ^ 311));
                       (u "status", JStr (u "success"))]]
                (scripted [] (fun _ => unreachable))) as [_ H].
    + repeat constructor.
    + repeat constructor.
    + rewrite H.
      * reflexivity.
      * vm_compute. reflexivity.
      * vm_compute. reflexivity.
Defined.

Lemma record_of_untimed (url : pystr) (result : json) :
  succeeded result = true ->
  is_number (field result (u "generation_time_ms")) = false ->
  timed (record_of url result) = false.
Proof.
  intros Hs Hn. unfold record_of. rewrite Hs. unfold timed.
  match goal with
  | |- negb (has_status ?s ?r) || is_number (time_ms_of ?r) = false =>
      change (has_status s r) with true;
      change (time_ms_of r) with (field result (u "generation_time_ms"))
  end.
  now rewrite Hn.
Qed.

Lemma records_untimed (urls : list pystr) :
  forall answers k,
    k < length urls ->
    succeeded (answer (answers k)) = true ->
    is_number (field (answer (answers k)) (u "generation_time_ms")) = false ->
    Exists (fun r => timed r = false) (records urls answers).
Proof.
  induction urls as [|url rest IH]; intros answers k Hk Hs Hn; cbn in Hk; [lia|].
  cbn [records]. destruct k as [|k].
  - left. now apply record_of_untimed.
  - right. apply (IH (tail_of answers) k); [lia|exact Hs|exact Hn].
Qed.

Lemma batch_summary_untimed {RT : PyRuntime} (results : list json) (w : world) :
  Forall (fun r => settled r = true) results ->
  Exists (fun r => timed r = false) results ->
  exists e,
    Interactive.batch_summary results w =
      (Raised e, w,
       map EPrint
         [nl ++ str_mul (u "=") 70;
          u "📊 批量刷新总结";
          str_mul (u "=") 70;
          nl ++ u "   总数: " ++ str_of_nat (length results);
          u "   ✅ 成功: " ++
            str_of_nat (length (filter (has_status (u "success")) results));
          u "   ❌ 失败: " ++
            str_of_nat (length results -
                        length (filter (has_status (u "success")) results))]) /\
    exn_cls e = TypeError.
Proof.
  intros Hs Hu.
  destruct (sum_time_ms_untimed results Hs Hu 0) as [e [He Hc]].
  exists e. split; [|exact Hc].
  unfold Interactive.batch_summary, bind, lift, print, emit, when, ret.
  rewrite (count_status_settled _ results Hs). cbv zeta.
  pose proof (untimed_is_success results Hu) as Hpos.
  apply Nat.ltb_lt in Hpos. rewrite Hpos, He. reflexivity.
Qed.

(** X21.  A success without its time stops a batch.  When the service
    answers one of the URLs of a batch with a success whose
    [generation_time_ms] is missing or is not a number, [batch_refresh]
    keeps a record whose time cannot be added up: after all the URLs have
    been refreshed the summary prints its three counts and raises a
    [TypeError], which [batch_refresh] does not catch. *)
Theorem batch_refresh_raises_on_a_success_without_time
    {RT : PyRuntime} (server_url : pystr) (w : world)
    (urls : list pystr) (w1 : world) (t1 : list event)
    (proxy : option pystr) (w2 : world) (t2 : list event) (k : nat) :
  Interactive.collect_urls w = (Ok urls, w1, t1) ->
  Interactive.ask_batch_proxy w1 = (Ok proxy, w2, t2) ->
  (forall i, i < length urls -> well_formed (network w i) = true) ->
  k < length urls ->
  succeeded (answer (network w k)) = true ->
  is_number (field (answer (network w k)) (u "generation_time_ms")) = false ->
  exists e before n,
    run_result (Interactive.batch_refresh server_url w) = Raised e /\
    exn_cls e = TypeError /\
    run_trace (Interactive.batch_refresh server_url w) =
      before ++
      map EPrint [nl ++ u "   总数: " ++ str_of_nat (length urls);
                  u "   ✅ 成功: " ++ str_of_nat n;
                  u "   ❌ 失败: " ++ str_of_nat (length urls - n)].
Proof.
  intros Hcollect Hproxy Hnet Hk Hsucc Hnum.
  assert (Hvalid : Forall (fun url => Interactive.validate_url url = true) urls).
  { unfold Interactive.collect_urls in Hcollect.
    destruct (Interactive.collect_urls_from (stdin w) []) as [[r rest] t] eqn:E.
    inversion Hcollect; subst.
    now apply (collected_urls_are_valid _ _ _ _ _ E). }
  destruct (offline_collect_urls w) as [_ Hn1].
  rewrite Hcollect in Hn1. cbn [run_world fst snd] in Hn1.
  destruct (offline_ask_batch_proxy w1) as [_ Hn2].
  rewrite Hproxy in Hn2. cbn [run_world fst snd] in Hn2.
  assert (Hnw : network w2 = network w) by now rewrite Hn2.
  destruct (batch_loop_run server_url proxy urls (length urls) 1 [] w2)
    as [t [Hrun _]].
  { intros url Hin. apply validate_url_parses.
    rewrite Forall_forall in Hvalid. now apply Hvalid. }
  { intros i Hi. rewrite Hnw. now apply Hnet. }
  cbn [app] in Hrun. rewrite Hnw in Hrun.
  destruct (batch_summary_untimed (records urls (network w))
              (sent_n (length urls) w2) (records_settled urls (network w))
              (records_untimed urls (network w) k Hk Hsucc Hnum))
    as [e [Hsum He]].
  rewrite records_length in Hsum.
  unfold Interactive.batch_refresh.
  do 6 (rewrite run_bind; change (print ?x ?w) with (Ok tt, w, [EPrint x]);
        cbn [run_result run_world run_trace fst snd]).
  rewrite run_bind, Hcollect. cbn [run_result run_world run_trace fst snd].
  destruct urls as [|url urls']; [cbn in Hk; lia|].
  cbn [nonempty negb].
  rewrite run_bind; change (print ?x ?w) with (Ok tt, w, [EPrint x]);
    cbn [run_result run_world run_trace fst snd].
  rewrite run_bind, Hproxy. cbn [run_result run_world run_trace fst snd].
  rewrite run_bind, Hrun. cbn [run_result run_world run_trace fst snd].
  rewrite run_bind, Hsum. cbn [run_result run_world run_trace fst snd].
  exists e. eexists. eexists. split; [reflexivity|split; [exact He|]].
  cbn [map]. rewrite !app_assoc.
  change [EPrint ?a; EPrint ?b; EPrint ?c; EPrint ?d; EPrint ?f; EPrint ?g]
    with ([EPrint a; EPrint b; EPrint c] ++ [EPrint d; EPrint f; EPrint g]).
  rewrite app_assoc. reflexivity.
Qed.

Lemma batch_refresh_raises_on_a_success_without_time_witness :
  exists e,
    run_result
      (Interactive.batch_refresh (RT := CPython) (u "http://localhost:8000")
         (scripted [u "a.com"; []; u "n"; u "n"]
                   (fun _ => Responded 200 (Ok body_without_time)))) = Raised e /\
    exn_cls e = TypeError.
Proof.
  destruct (batch_refresh_raises_on_a_success_without_time (RT := CPython)
              (u "http://localhost:8000")
              (scripted [u "a.com"; []; u "n"; u "n"]
                        (fun _ => Responded 200 (Ok body_without_time)))
              [u "https://a.com"] _ _ None _ _ 0
              eq_refl eq_refl) as [e [before [n [H1 [H2 _]]]]].
  - intros [|i] Hi; [reflexivity|cbn in Hi; lia].
  - cbn; lia.
  - reflexivity.
  - reflexivity.
  - exists e. now split.
Defined.

(** ** Saving never stops the program *)

(** X18.  Saving is never fatal in the full tool.  [save_result_to_file]
    and [save_batch_results] return without raising whatever the result,
    the clock and the disk are.  When the file cannot be opened, nothing is
    written and the one line printed is the failure with the text of the
    exception. *)
Theorem saving_never_raises (url : pystr) (result : json) (results : list json)
    (w : world) :
  run_result (Interactive.save_result_to_file url result w) = Ok tt /\
  run_result (Interactive.save_batch_results results w) = Ok tt /\
  (forall e kv,
      disk w 0 = Some e ->
      result = JObj kv ->
      Interactive.save_result_to_file url result w =
        (Ok tt, saved w, [EPrint (nl ++ u "   ❌ 保存失败: " ++ exn_text e)])) /\
  (forall e,
      disk w 0 = Some e ->
      Forall (fun r => settled r = true) results ->
      Interactive.save_batch_results results w =
        (Ok tt, saved w, [EPrint (nl ++ u "   ❌ 保存失败: " ++ exn_text e)])).
Proof.
  split; [|split; [|split]].
  - unfold Interactive.save_result_to_file, try_except, bind, now, lift,
      write_json, print, emit, py_get.
    cbn [stdin network clock disk].
    destruct result; cbn; try reflexivity.
    now destruct (disk w 0).
  - unfold Interactive.save_batch_results, try_except, bind, now, lift,
      write_json, print, emit.
    cbn [stdin network clock disk].
    destruct (Interactive.batch_document _ results); cbn; [|reflexivity].
    now destruct (disk w 0).
  - intros e kv Hd ->.
    unfold Interactive.save_result_to_file, try_except, bind, now, lift,
      write_json, print, emit, py_get, saved.
    cbn [stdin network clock disk]. rewrite Hd. reflexivity.
  - intros e Hd Hs.
    unfold Interactive.save_batch_results, Interactive.batch_document,
      try_except, bind, now, lift, write_json, print, emit, saved.
    cbn [stdin network clock disk].
    rewrite !(count_status_settled _ results Hs), Hd. reflexivity.
Qed.

(** X19.  In the simplified script the saving happens inside the [try] of
    [refresh_and_display]: when the service has answered 200, the body has
    been shown in full under the line of success and the user asks for it
    to be saved, a file that cannot be opened turns the refresh into a
    failure.  Nothing is written, the exception is reported as an error of
    the refresh, and [False] is returned. *)
Theorem quick_failed_save_is_reported_as_failure
    {RT : PyRuntime} (url : pystr) (proxy : option pystr)
    (j : json) (line : pystr) (p : ParseResult) (w : world) (e : exn) :
  network w 0 = Responded 200 (Ok j) ->
  shown_in_full j = true ->
  stdin w = line :: tl (stdin w) ->
  str_in (lower (strip line)) Quick.yes_words = true ->
  urlparse url = Ok p ->
  disk w 0 = Some e ->
  exn_cls e = OSError ->
  exists before,
    Quick.refresh_and_display url proxy w =
      (Ok false,
       mkWorld (tl (stdin w)) (tail_of (network w)) (clock w) (tail_of (disk w)),
       before ++
       [EInput (nl ++ u "💾 是否保存结果到文件? (y/n): ");
        EPrint (u "❌ 错误: " ++ exn_text e)]) /\
    In (EPrint (u "✅ 刷新成功！" ++ nl)) before /\
    filter is_write before = [].
Proof.
  intros Hnet Hshown Hin Hyes Hp Hd He.
  destruct j as [| | | | |kv]; try discriminate Hshown.
  apply shown_in_full_runs in Hshown.
  quick_shown Hnet Hshown Hin.
  all: rewrite Hyes; cbn -[str_in lower strip Quick.yes_words].
  all: rewrite Hp; cbn -[str_in lower strip Quick.yes_words].
  all: rewrite Hd; cbn -[str_in lower strip Quick.yes_words].
  all: rewrite He; cbn -[str_in lower strip Quick.yes_words].
  all: match goal with
       | |- exists before, (_, _, ?l) = _ /\ _ =>
           exists (removelast (removelast l))
       end.
  all: split; [reflexivity|split; [|reflexivity]].
  all: cbn; auto 8.
Qed.

Lemma quick_failed_save_is_reported_as_failure_witness :
  run_result
    (Quick.refresh_and_display (RT := CPython) (u "https://a.com") None
       (mkWorld [u "y"] (fun _ => Responded 200 (Ok success_body))
                (fun _ => noon)
                (fun _ => Some (mkExn OSError (u "[Errno 13] Permission denied"))))) =
  Ok false.
Proof.
  destruct (quick_failed_save_is_reported_as_failure (RT := CPython)
              (u "https://a.com") None success_body
              (u "y") (mkParse (u "https") (u "a.com"))
              (mkWorld [u "y"] (fun _ => Responded 200 (Ok success_body))
                       (fun _ => noon)
                       (fun _ => Some (mkExn OSError (u "[Errno 13] Permission denied"))))
              (mkExn OSError (u "[Errno 13] Permission denied"))
              eq_refl eq_refl eq_refl eq_refl eq_refl eq_refl eq_refl)
    as [before [H _]].
  rewrite H. reflexivity.
Defined.

(** ** A proxy that is not accepted *)

(** X23.  A proxy that starts with none of the accepted schemes is never
    used, and the scripts differ in what they do next.  In the full tool
    the question about the proxy ends with a complaint and no proxy, for a
    single refresh as for a batch, and the refresh goes on without one; in
    the simplified script the round ends there, before any request, and
    the loop goes round again. *)
Theorem malformed_proxy_is_dropped
    {RT : PyRuntime} (url yes bad : pystr) (rest : list pystr) (w : world) :
  stdin w = yes :: bad :: rest ->
  nonempty (strip bad) = true ->
  startswith_any (strip bad) proxy_schemes = false ->
  (says_yes yes = true ->
   Interactive.ask_proxy w =
     (Ok None, mkWorld rest (network w) (clock w) (disk w),
      [EInput (u "   是否使用代理? (y/n): ");
       EPrint (nl ++ u "   请输入代理地址:");
       EPrint (u "   例如: http://proxy:8080 或 socks5://proxy:1080");
       EInput (u "   代理: ");
       EPrint (u "   ❌ 代理格式错误，将不使用代理")]) /\
   Interactive.ask_batch_proxy w =
     (Ok None, mkWorld rest (network w) (clock w) (disk w),
      [EInput (u "   是否为所有网址使用同一代理? (y/n): ");
       EInput (u "   代理: ");
       EPrint (u "   ❌ 代理格式错误")])) /\
  (str_in (lower (strip yes)) Quick.yes_words = true ->
   (exists parsed, urlparse url = Ok parsed) ->
   Quick.refresh_round url w =
     (Ok Quick.Continue, mkWorld rest (network w) (clock w) (disk w),
      [EInput (u "🔀 是否使用代理? (y/n): ");
       EInput (u "   代理地址 (如 http://proxy:8080): ");
       EPrint (u "❌ 代理格式错误" ++ nl)])).
Proof.
  intros Hin Hne Hbad. split.
  - intros Hyes. unfold says_yes in Hyes. split.
    + unfold Interactive.ask_proxy, Interactive.get_yes_no, bind, print, emit,
        input, ret.
      rewrite Hin. cbn [Interactive.get_yes_no_from]. rewrite Hyes.
      cbn [stdin network clock disk]. rewrite Hne, Hbad. reflexivity.
    + unfold Interactive.ask_batch_proxy, Interactive.get_yes_no, bind, print,
        emit, input, ret.
      rewrite Hin. cbn [Interactive.get_yes_no_from]. rewrite Hyes.
      cbn [stdin network clock disk]. rewrite Hne, Hbad. reflexivity.
  - intros Hyes [parsed Hp].
    unfold Quick.refresh_round, bind, print, emit, input, ret.
    rewrite Hp, Hin. cbn [stdin network clock disk]. rewrite Hyes.
    cbn [stdin network clock disk]. rewrite Hne, Hbad. reflexivity.
Qed.

Lemma malformed_proxy_is_dropped_witness :
  run_result
    (Interactive.ask_proxy
       (scripted [u "y"; u "ftp://proxy:21"; u "x"] (fun _ => unreachable))) =
  Ok None /\
  run_trace
    (Quick.refresh_round (RT := CPython) (u "https://a.com")
       (scripted [u "y"; u "ftp://proxy:21"; u "x"] (fun _ => unreachable))) =
  [EInput (u "🔀 是否使用代理? (y/n): ");
   EInput (u "   代理地址 (如 http://proxy:8080): ");
   EPrint (u "❌ 代理格式错误" ++ nl)].
Proof.
  destruct (malformed_proxy_is_dropped (RT := CPython) (u "https://a.com")
              (u "y") (u "ftp://proxy:21") [u "x"]
              (scripted [u "y"; u "ftp://proxy:21"; u "x"] (fun _ => unreachable))
              eq_refl eq_refl eq_refl) as [Hfull Hquick].
  destruct (Hfull eq_refl) as [H1 _].
  rewrite H1, (Hquick eq_refl (ex_intro _ _ eq_refl)).
  split; reflexivity.
Defined.

(** ** The footprint of the simplified script *)

#[export] Instance quick_event_permits {RT : PyRuntime} : Permits quick_event.
Proof. split; constructor. Qed.

Lemma format_url_has_scheme (s : pystr) :
  has_http_scheme (Interactive.format_url s) = true.
Proof.
  rewrite format_url_eq.
  destruct (has_http_scheme s) eqn:E; [exact E|apply has_http_scheme_prepended].
Qed.

Section QuickScript.
Context {RT : PyRuntime} {R : world -> world -> Prop} {HR : Passage R}.

Lemma quick_refresh_and_display_obeys (url : pystr) (proxy : option pystr) :
  has_http_scheme url = true -> proxy_ok proxy ->
  obeys quick_event R (Quick.refresh_and_display url proxy).
Proof.
  intros Hu Hp. unfold Quick.refresh_and_display.
  obey ltac:(first [now apply quick_refresh | now apply (quick_file url)]).
Qed.

Lemma quick_ask_continue_obeys (prompt : pystr) :
  obeys quick_event R (Quick.ask_continue prompt).
Proof. unfold Quick.ask_continue. obey idtac. Qed.

Lemma quick_refresh_round_obeys (url : pystr) :
  has_http_scheme url = true -> obeys quick_event R (Quick.refresh_round url).
Proof.
  intros Hu. unfold Quick.refresh_round.
  destruct (urlparse url) as [parsed|e]; [|obey idtac].
  apply obeys_bind; [obey idtac|intros line]. cbv zeta.
  apply (obeys_bind_yields
           (fun choice => match choice with Some p => proxy_ok p | None => True end)).
  - obey idtac.
  - yield; cbn [proxy_ok]; auto using negb_false.
  - intros [proxy|] Hp; [|obey idtac].
    apply obeys_bind;
      [now apply quick_refresh_and_display_obeys|intros [|]];
      apply quick_ask_continue_obeys.
Qed.

Lemma quick_main_round_obeys : obeys quick_event R Quick.main_round.
Proof.
  unfold Quick.main_round.
  apply obeys_bind; [obey idtac|intros line]. cbv zeta.
  destruct (str_in _ _); [obey idtac|].
  destruct (negb (nonempty (strip line))); [obey idtac|].
  apply quick_refresh_round_obeys.
  apply (format_url_has_scheme (strip line)).
Qed.

End QuickScript.

(** X9.  Whatever the user types, whatever the service answers and
    whatever the disk does, and for any number of rounds, every event of a
    run of [main] of the simplified script is one of those of
    [quick_event]: a line printed or read, a POST to
    [http://localhost:8000/cache/refresh] under a timeout of 120 seconds
    for a URL that starts with [http://] or [https://], with no proxy or
    one that starts with an accepted scheme, or the writing of the file
    [cookie_<network location>.json] of such a URL.  The script sends no
    other request and never pauses. *)
Theorem quick_footprint {RT : PyRuntime} (fuel : nat) (w : world) :
  Forall quick_event (run_trace (Quick.main fuel w)).
Proof.
  assert (H : obeys quick_event anywhere (Quick.main fuel)).
  { unfold Quick.main.
    do 3 (apply obeys_bind; [obey idtac|intros _]).
    apply obeys_while_true.
    apply obeys_bind; [apply quick_main_round_obeys|intros c; obey idtac]. }
  exact (proj1 (H w)).
Qed.

(** ** The exceptions that escape *)

Section Throws.
Context {C : exn -> Prop}.

Lemma throws_ret {A : Type} (a : A) : throws C (ret a).
Proof. intros w e E. discriminate. Qed.

Lemma throws_print (s : pystr) : throws C (print s).
Proof. intros w e E. discriminate. Qed.

Lemma throws_input (prompt : pystr) :
  C (mkExn EOFError (u "EOF when reading a line")) -> throws C (input prompt).
Proof.
  intros H w e. unfold input.
  destruct (stdin w); cbn; intros E; inversion E; subst; exact H.
Qed.

Lemma throws_bind {A B : Type} (m : M A) (f : A -> M B) :
  throws C m -> (forall a, throws C (f a)) -> throws C (bind m f).
Proof.
  intros Hm Hf w e. rewrite run_bind. specialize (Hm w).
  destruct (run_result (m w)) as [a|e']; cbn [run_result fst].
  - apply Hf.
  - intros E. inversion E; subst. now apply Hm.
Qed.

(** A computation that always returns raises nothing. *)
Lemma throws_total {A : Type} (m : M A) :
  (forall w, exists a, run_result (m w) = Ok a) -> throws C m.
Proof. intros H w e E. destruct (H w) as [a Ha]. congruence. Qed.

Lemma throws_while_true (round : M bool) :
  throws C round -> forall fuel, throws C (while_true fuel round).
Proof.
  intros H. induction fuel as [|fuel IH]; cbn [while_true]; [apply throws_ret|].
  apply throws_bind; [exact H|intros [|]; [apply throws_ret|exact IH]].
Qed.

End Throws.

Ltac throw :=
  cbv zeta;
  repeat match goal with
    | |- throws _ (bind _ _) => apply throws_bind; [|intro]
    | |- throws _ (print _) => apply throws_print
    | |- throws _ (ret _) => apply throws_ret
    | |- throws _ (input _) => apply throws_input; reflexivity
    | |- throws _ (if ?c then _ else _) => destruct c
    | |- throws _ (match ?x with _ => _ end) => destruct x
    end.

(** ** The simplified script ends by choice or at the end of the input *)

Lemma quick_refresh_and_display_throws {RT : PyRuntime} (C : exn -> Prop)
    (url : pystr) (proxy : option pystr) :
  throws C (Quick.refresh_and_display url proxy).
Proof.
  apply throws_total. intros w.
  destruct (quick_refresh_and_display_total url proxy w) as [b [w' [t [H _]]]].
  exists b. now rewrite H.
Qed.

Lemma quick_main_round_throws {RT : PyRuntime} :
  throws end_of_input Quick.main_round.
Proof.
  unfold Quick.main_round. apply throws_bind; [throw|intros line]. cbv zeta.
  destruct (str_in _ _); [throw|].
  destruct (negb (nonempty (strip line))); [throw|].
  unfold Quick.refresh_round.
  destruct (urlparse _); [|throw].
  apply throws_bind; [throw|intros line']. cbv zeta.
  apply throws_bind; [throw|intros [proxy|]]; [|throw].
  apply throws_bind; [apply quick_refresh_and_display_throws|intros success].
  unfold Quick.ask_continue. throw.
Qed.

Lemma quick_main_round_reads {RT : PyRuntime} (w : world) (c : Quick.control)
    (w' : world) (t : list event) :
  Quick.main_round w = (Ok c, w', t) -> length (stdin w') < length (stdin w).
Proof.
  unfold Quick.main_round.
  apply (input_then_shrinks (P := quick_event)).
  intros line. cbv zeta.
  destruct (str_in _ _); [obey idtac|].
  destruct (negb (nonempty (strip line))); [obey idtac|].
  apply quick_refresh_round_obeys, (format_url_has_scheme (strip line)).
Qed.

(** X10.  The simplified script comes to an end on every finite input, and
    no answer of the service, no refusal of the disk and no odd URL makes
    it end otherwise than by its own loop being left or by the
    [EOFError] of [input] when the lines run out: once the rounds allowed
    outnumber the lines typed, the run of [main] no longer depends on them,
    and it returns or raises that [EOFError]. *)
Theorem quick_main_ends_by_choice_or_end_of_input
    {RT : PyRuntime} (w : world) (fuel : nat) :
  length (stdin w) < fuel ->
  (run_result (Quick.main fuel w) = Ok (Some tt) \/
   run_result (Quick.main fuel w) =
     Raised (mkExn EOFError (u "EOF when reading a line"))) /\
  forall more, Quick.main (fuel + more) w = Quick.main fuel w.
Proof.
  intros Hlen.
  set (round := bind Quick.main_round
                  (fun c => ret (match c with
                                 | Quick.Break => true
                                 | Quick.Continue => false
                                 end))).
  assert (Hreads : forall w0 stop w' t,
             round w0 = (Ok stop, w', t) ->
             length (stdin w') < length (stdin w0)).
  { intros w0 stop w' t. unfold round, bind, ret.
    destruct (Quick.main_round w0) as [[[c|e] w1] t1] eqn:E; [|discriminate].
    intros Heq. inversion Heq; subst. exact (quick_main_round_reads _ _ _ _ E). }
  assert (Hthrows : throws end_of_input round).
  { apply throws_bind; [apply quick_main_round_throws|intros c; apply throws_ret]. }
  assert (Hcore : forall n,
             Quick.main n w =
             (run_result (while_true n round w), run_world (while_true n round w),
              [EPrint (nl ++ str_mul (u "=") 50);
               EPrint (u "  Cloudflare Cookie 强制刷新 - 交互式工具");
               EPrint (str_mul (u "=") 50 ++ nl)] ++
              run_trace (while_true n round w))).
  { intros n. unfold Quick.main. fold round.
    rewrite (after_prints _ _ _ _ (eq_refl : print _ w = (Ok tt, w, [_]))).
    rewrite (after_prints _ _ _ _ (eq_refl : print _ w = (Ok tt, w, [_]))).
    cbn [run_result run_world run_trace fst snd].
    rewrite (after_prints _ _ _ _ (eq_refl : print _ w = (Ok tt, w, [_]))).
    cbn [run_result run_world run_trace fst snd app]. reflexivity. }
  destruct (while_true_ends round Hreads fuel w Hlen) as [Hne Hmore].
  split.
  - rewrite Hcore. cbn [run_result fst].
    pose proof (throws_while_true round Hthrows fuel w) as Ht.
    destruct (run_result (while_true fuel round w)) as [[[]|]|e].
    + now left.
    + now elim Hne.
    + right. now rewrite (Ht e eq_refl).
  - intros more. now rewrite !Hcore, Hmore.
Qed.

Lemma quick_main_ends_by_choice_or_end_of_input_witness :
  length (stdin (scripted [u "example.com"; u "n"; u "n"; u "n"]
                          (fun _ => Responded 200 (Ok success_body)))) < 5 /\
  run_result (Quick.main (RT := CPython) 5
                (scripted [u "example.com"; u "n"; u "n"; u "n"]
                          (fun _ => Responded 200 (Ok success_body)))) =
    Ok (Some tt).
Proof.
  split; [cbn; lia|].
  destruct (quick_main_ends_by_choice_or_end_of_input (RT := CPython)
              (scripted [u "example.com"; u "n"; u "n"; u "n"]
                        (fun _ => Responded 200 (Ok success_body))) 5
              ltac:(cbn; lia)) as [[H|H] _].
  - exact H.
  - vm_compute in H. discriminate H.
Defined.

(** ** The demos of [refresh_example.py] *)

#[export] Instance example_event_permits : Permits example_event.
Proof. split; constructor. Qed.

Lemma target_javdb : In (u "https://javdb.com", None) demo_targets.
Proof. left. reflexivity. Qed.

Lemma target_example : In (u "https://example.com", None) demo_targets.
Proof. right. left. reflexivity. Qed.

Lemma target_test_site : In (u "https://test-site.com", None) demo_targets.
Proof. right. right. left. reflexivity. Qed.

Lemma target_through_proxy :
  In (u "https://example.com", Some (u "http://proxy-server:8080")) demo_targets.
Proof. right. right. right. left. reflexivity. Qed.

Section ExampleScript.
Context {RT : PyRuntime} {R : world -> world -> Prop} {HR : Passage R}.

Lemma example_refresh_cookies_obeys (url : pystr) (proxy : option pystr) :
  In (url, proxy) demo_targets ->
  obeys example_event R (Example.refresh_cookies Example.default_server_url url proxy).
Proof.
  intros H. unfold Example.refresh_cookies.
  obey ltac:(now apply example_refresh).
Qed.

Lemma example_get_cookies_obeys :
  obeys example_event R (Example.get_cookies Example.default_server_url (u "https://example.com")).
Proof. unfold Example.get_cookies. obey ltac:(apply example_lookup). Qed.

Lemma example_get_cache_stats_obeys :
  obeys example_event R (Example.get_cache_stats Example.default_server_url).
Proof. unfold Example.get_cache_stats. obey ltac:(apply example_stats). Qed.

Lemma demo_basic_refresh_obeys : obeys example_event R Example.demo_basic_refresh.
Proof.
  unfold Example.demo_basic_refresh. cbv zeta.
  do 5 (apply obeys_bind; [obey idtac|intros _]).
  apply obeys_bind;
    [apply example_refresh_cookies_obeys, target_javdb|intros result].
  obey idtac.
Qed.

Lemma demo_loop_obeys (urls : list pystr) :
  Forall (fun url => In (url, None) demo_targets) urls ->
  obeys example_event R (Example.demo_loop urls).
Proof.
  induction 1 as [|url rest Hu Hrest IH]; cbn [Example.demo_loop]; [obey idtac|].
  apply obeys_bind; [obey idtac|intros _].
  apply obeys_bind; [now apply example_refresh_cookies_obeys|intros result].
  apply obeys_bind; [obey idtac|intros ok_].
  apply obeys_bind; [obey idtac|intros _].
  apply obeys_bind; [obey idtac|intros _].
  apply obeys_bind; [obey ltac:(apply example_pause; now left)|intros _].
  exact IH.
Qed.

Lemma demo_multiple_refreshes_obeys :
  obeys example_event R Example.demo_multiple_refreshes.
Proof.
  unfold Example.demo_multiple_refreshes.
  do 3 (apply obeys_bind; [obey idtac|intros _]).
  apply demo_loop_obeys. unfold Example.demo_urls.
  constructor; [exact target_example|].
  constructor; [exact target_test_site|constructor].
Qed.

Lemma demo_with_proxy_obeys : obeys example_event R Example.demo_with_proxy.
Proof.
  unfold Example.demo_with_proxy. cbv zeta.
  do 6 (apply obeys_bind; [obey idtac|intros _]).
  apply obeys_bind;
    [apply example_refresh_cookies_obeys, target_through_proxy|intros result].
  obey idtac.
Qed.

Lemma demo_cache_operations_obeys : obeys example_event R Example.demo_cache_operations.
Proof.
  unfold Example.demo_cache_operations. cbv zeta.
  do 4 (apply obeys_bind; [obey idtac|intros _]).
  apply obeys_bind; [apply example_get_cache_stats_obeys|intros stats].
  apply obeys_bind; [obey idtac|intros _].
  apply obeys_bind; [obey idtac|intros _].
  apply obeys_bind;
    [apply example_refresh_cookies_obeys, target_example|intros result].
  apply obeys_bind; [obey idtac|intros ok_].
  apply obeys_bind; [obey idtac|intros _].
  apply obeys_bind; [obey idtac|intros _].
  apply obeys_bind; [apply example_get_cookies_obeys|intros cookies_result].
  apply obeys_bind; [obey idtac|intros _].
  apply obeys_bind; [obey idtac|intros _].
  apply obeys_bind; [apply example_get_cache_stats_obeys|intros stats'].
  obey idtac.
Qed.

Lemma run_choice_obeys (choice : pystr) :
  obeys example_event R (Example.run_choice choice).
Proof.
  unfold Example.run_choice.
  repeat match goal with
    | |- obeys _ _ (if ?c then _ else _) => destruct c
    end.
  - apply obeys_bind; [apply demo_basic_refresh_obeys|intros _; obey idtac].
  - apply obeys_bind; [apply demo_multiple_refreshes_obeys|intros _; obey idtac].
  - apply obeys_bind; [obey idtac|intros _].
    apply obeys_bind; [apply demo_with_proxy_obeys|intros _; obey idtac].
  - apply obeys_bind; [apply demo_cache_operations_obeys|intros _; obey idtac].
  - apply obeys_bind; [obey idtac|intros _].
    apply obeys_bind; [apply demo_basic_refresh_obeys|intros _].
    apply obeys_bind; [obey ltac:(apply example_pause; now right)|intros _].
    apply obeys_bind; [apply demo_cache_operations_obeys|intros _; obey idtac].
  - obey idtac.
Qed.

End ExampleScript.

(** X11.  Whatever is typed and answered, every event of a run of [main]
    of [refresh_example.py] is one of those of [example_event]: the demos
    only print and read lines, refresh one of their four fixed targets, look
    up the cookies of [https://example.com], read the statistics, and pause
    for two or three seconds.  None of their requests is given a timeout,
    and no file is written. *)
Theorem example_footprint {RT : PyRuntime} (w : world) :
  Forall example_event (run_trace (Example.main w)).
Proof.
  assert (H : obeys example_event anywhere Example.main).
  { unfold Example.main.
    do 14 (apply obeys_bind; [obey idtac|intros _]).
    apply obeys_bind; [obey idtac|intros line]. cbv zeta.
    apply obeys_try_except; [|intros e; obey idtac].
    apply obeys_bind; [apply run_choice_obeys|intros finished; obey idtac]. }
  exact (proj1 (H w)).
Qed.

(** X12.  [main] of [refresh_example.py] reads one line, and as soon as
    there is one it returns without raising, whatever the choice and
    whatever becomes of the demo chosen: every exception of a demo is
    caught and reported. *)
Theorem example_main_returns {RT : PyRuntime} (w : world) :
  stdin w <> [] -> run_result (Example.main w) = Ok tt.
Proof.
  intros Hin. unfold Example.main.
  repeat (rewrite (after_prints _ _ _ _ (eq_refl : print _ w = (Ok tt, w, [_])));
          cbn [run_result run_world run_trace fst snd]).
  unfold bind at 1. unfold input at 1.
  destruct (stdin w) as [|l rest]; [contradiction|].
  unfold try_except.
  match goal with
  | |- context [match ?body ?w1 with _ => _ end] =>
      destruct (body w1) as [[[[]|e] w2] t2]
  end; reflexivity.
Qed.

Lemma example_main_returns_witness :
  run_result (Example.main (RT := CPython)
                (scripted [u "1"] (fun _ => Responded 200 (Ok body_without_time)))) =
  Ok tt.
Proof.
  apply (example_main_returns (RT := CPython)). discriminate.
Defined.

(** X13.  The demo of the cache operations goes through its four steps
    whatever fails.  When each of its four requests hands back nothing (any
    status but 200, any exception, a body that tests false), as with a
    service that is down, [demo_cache_operations] still sends the four of
    them in order (the statistics, the refresh of [https://example.com],
    the look-up of its cookies, the statistics again) and returns without
    raising. *)
Theorem demo_cache_operations_survives_failures {RT : PyRuntime} (w : world) :
  (forall k, k < 4 -> truthy (answer (network w k)) = false) ->
  exists t,
    Example.demo_cache_operations w = (Ok tt, sent_n 4 w, t) /\
    filter is_request t =
      [ERequest GET (Example.default_server_url ++ u "/cache/stats") [] None;
       ERequest POST (Example.default_server_url ++ u "/cache/refresh")
                [(u "url", u "https://example.com")] None;
       ERequest GET (Example.default_server_url ++ u "/cookies")
                [(u "url", u "https://example.com")] None;
       ERequest GET (Example.default_server_url ++ u "/cache/stats") [] None].
Proof.
  intros H.
  pose proof (H 0 ltac:(lia)) as H0. pose proof (H 1 ltac:(lia)) as H1.
  pose proof (H 2 ltac:(lia)) as H2. pose proof (H 3 ltac:(lia)) as H3.
  destruct (example_get_cache_stats_run Example.default_server_url w)
    as [ta [Ea Fa]].
  destruct (example_refresh_cookies_request Example.default_server_url
              (u "https://example.com") None (sent w)) as [tb [Eb Fb]].
  destruct (example_get_cookies_run Example.default_server_url
              (u "https://example.com") (sent (sent w))) as [tc [Ec Fc]].
  destruct (example_get_cache_stats_run Example.default_server_url
              (sent (sent (sent w)))) as [td [Ed Fd]].
  change (network (sent w) 0) with (network w 1) in Eb.
  change (network (sent (sent w)) 0) with (network w 2) in Ec.
  change (network (sent (sent (sent w))) 0) with (network w 3) in Ed.
  unfold Example.demo_cache_operations. cbv zeta.
  do 4 (rewrite run_bind; change (print ?x ?w) with (Ok tt, w, [EPrint x]);
        cbn [run_result run_world run_trace fst snd]).
  rewrite run_bind, Ea. cbn [run_result run_world run_trace fst snd].
  rewrite H0. rewrite run_bind. cbn [when ret run_result run_world run_trace fst snd].
  rewrite run_bind; change (print ?x ?w) with (Ok tt, w, [EPrint x]);
    cbn [run_result run_world run_trace fst snd].
  rewrite run_bind, Eb. cbn [run_result run_world run_trace fst snd].
  unfold is_success_item. rewrite H1.
  rewrite run_bind. cbn [lift run_result run_world run_trace fst snd].
  rewrite run_bind. cbn [when ret run_result run_world run_trace fst snd].
  rewrite run_bind; change (print ?x ?w) with (Ok tt, w, [EPrint x]);
    cbn [run_result run_world run_trace fst snd].
  rewrite run_bind, Ec. cbn [run_result run_world run_trace fst snd].
  rewrite H2. rewrite run_bind. cbn [when ret run_result run_world run_trace fst snd].
  rewrite run_bind; change (print ?x ?w) with (Ok tt, w, [EPrint x]);
    cbn [run_result run_world run_trace fst snd].
  rewrite run_bind, Ed. cbn [run_result run_world run_trace fst snd].
  rewrite H3. cbn [when ret run_result run_world run_trace fst snd].
  eexists. split; [reflexivity|].
  rewrite !filter_app, Fa, Fb, Fc, Fd. reflexivity.
Qed.

Lemma demo_cache_operations_survives_failures_witness :
  run_result
    (Example.demo_cache_operations (RT := CPython)
       (scripted [] (fun _ => unreachable))) = Ok tt.
Proof.
  destruct (demo_cache_operations_survives_failures (RT := CPython)
              (scripted [] (fun _ => unreachable))) as [t [H _]].
  - intros k _. reflexivity.
  - rewrite H. reflexivity.
Defined.

(** ** A field that a demo misses *)

Lemma demo_basic_refresh_misses_hostname {RT : PyRuntime} (w : world) (kv : dict) :
  network w 0 = Responded 200 (Ok (JObj kv)) ->
  dict_lookup kv (u "status") = Some (JStr (u "success")) ->
  dict_lookup kv (u "hostname") = None ->
  exists before,
    Example.demo_basic_refresh w =
      (Raised (mkExn KeyError (u "'" ++ u "hostname" ++ u "'")), sent w,
       before ++
       [ERequest POST (Example.default_server_url ++ u "/cache/refresh")
                 [(u "url", u "https://javdb.com")] None;
        EPrint (u "✅ 刷新成功!")]) /\
    filter is_request before = [].
Proof.
  intros Hnet Hst Hh.
  destruct kv as [|item kv]; [discriminate Hst|].
  unfold Example.demo_basic_refresh, Example.refresh_cookies, try_except, bind,
    request, print, emit, lift, ret, resp_json, is_success_item, py_getitem, sent.
  rewrite Hnet. cbn -[dict_lookup str_mul]. rewrite Hst.
  cbn -[dict_lookup str_mul]. rewrite Hh, str_eqb_refl.
  cbn -[dict_lookup str_mul].
  eexists [_; _; _; _; _]. split; reflexivity.
Qed.

(** X25.  The demos read the fields of a result with subscripts.  When
    the basic demo is chosen and the service answers 200 with an object
    whose [status] is [success] but which has no [hostname], the demo
    prints its line of success and then raises the [KeyError] of the
    missing key; [main] catches it and reports it as an error, so that the
    run ends on that report and not on the lines that close a demo. *)
Theorem demo_reports_a_missing_field
    {RT : PyRuntime} (w : world) (line : pystr) (rest : list pystr) (kv : dict) :
  stdin w = line :: rest ->
  strip line = u "1" ->
  network w 0 = Responded 200 (Ok (JObj kv)) ->
  dict_lookup kv (u "status") = Some (JStr (u "success")) ->
  dict_lookup kv (u "hostname") = None ->
  exists before,
    Example.main w =
      (Ok tt, mkWorld rest (tail_of (network w)) (clock w) (disk w),
       before ++
       [ERequest POST (Example.default_server_url ++ u "/cache/refresh")
                 [(u "url", u "https://javdb.com")] None;
        EPrint (u "✅ 刷新成功!");
        EPrint (nl ++ u "❌ 错误: " ++ u "'hostname'")]) /\
    filter is_request before = [].
Proof.
  intros Hin Hstrip Hnet Hst Hh.
  destruct (demo_basic_refresh_misses_hostname
              (mkWorld rest (network w) (clock w) (disk w)) kv Hnet Hst Hh)
    as [before [Hdemo Hbefore]].
  unfold Example.main.
  match goal with
  | |- context [bind (input ?p) ?f] => set (choose := bind (input p) f)
  end.
  assert (Hchoose :
            choose w =
            (Ok tt, mkWorld rest (tail_of (network w)) (clock w) (disk w),
             EInput (nl ++ u "请选择 (1-5): ") ::
             before ++
             [ERequest POST (Example.default_server_url ++ u "/cache/refresh")
                       [(u "url", u "https://javdb.com")] None;
              EPrint (u "✅ 刷新成功!");
              EPrint (nl ++ u "❌ 错误: " ++ u "'hostname'")])).
  { unfold choose. unfold bind at 1. unfold input at 1. rewrite Hin. cbv zeta.
    rewrite Hstrip. unfold try_except, Example.run_choice.
    change (str_eqb (u "1") (u "1")) with true. cbv iota.
    unfold bind at 1 2. rewrite Hdemo. unfold print, emit, sent.
    cbn [exn_text stdin network clock disk app].
    rewrite <- app_assoc. reflexivity. }
  repeat (rewrite (after_prints _ _ _ _ (eq_refl : print _ w = (Ok tt, w, [_])));
          cbn [run_result run_world run_trace fst snd]).
  rewrite Hchoose. cbn [run_result run_world run_trace fst snd app].
  eexists (_ :: _ :: _ :: _ :: _ :: _ :: _ :: _ :: _ :: _ :: _ :: _ :: _ :: _ :: _ ::
           before).
  split; [cbn [app]; reflexivity|].
  cbn [filter is_request]. exact Hbefore.
Qed.

Lemma demo_reports_a_missing_field_witness :
  exists before,
    run_trace
      (Example.main (RT := CPython)
         (scripted [u "1"]
            (fun _ => Responded 200 (Ok (JObj [(u "status", JStr (u "success"))]))))) =
    before ++
    [ERequest POST (Example.default_server_url ++ u "/cache/refresh")
              [(u "url", u "https://javdb.com")] None;
     EPrint (u "✅ 刷新成功!");
     EPrint (nl ++ u "❌ 错误: " ++ u "'hostname'")].
Proof.
  destruct (demo_reports_a_missing_field (RT := CPython)
              (scripted [u "1"]
                 (fun _ => Responded 200 (Ok (JObj [(u "status", JStr (u "success"))]))))
              (u "1") [] [(u "status", JStr (u "success"))]
              eq_refl eq_refl eq_refl eq_refl eq_refl) as [before [H _]].
  exists before. now rewrite H.
Defined.
